(** * simpleforce: error classification, transport, query and token calls

    A shallow embedding of [errorHelpers.go] and of the client file that
    follows it in the same source unit ([Client], [Query], [httpRequest],
    [makeURL], [GetCreatedUpdatedRecords], [RefreshToken], [RevokeToken],
    [LoginPassword], [DownloadFile]).  [DescribeGlobal] is left out: the
    type it decodes into is declared in another file.

    Go strings and byte slices are sequences of bytes: they are modelled
    by [string] (a list of 8-bit [ascii] characters).  Go's [int] is
    modelled by [Z]; the code only compares status codes, it never does
    arithmetic on them.  A Go call either returns or panics: see
    [outcome].

    The client calls into Go's standard library: [encoding/json],
    [encoding/xml], [strings], [net/url], [fmt], [net/http].  The first
    five are modelled by executable functions written after the library
    of the current Go release, each in a module of the package's name;
    what the network answers, and whether [net/url] accepts a URL, are
    inputs of a run, gathered in [Env]. *)

From Stdlib Require Import ZArith NArith String Ascii List Bool Lia.
From stdpp Require Import base tactics option list gmap strings.

Local Open Scope string_scope.
Local Open Scope Z_scope.

#[local] Set Warnings "-register-all".

(** ** Results of Go calls *)

(** The panics the modelled code can raise. *)
Inductive panic : Type :=
| IndexOutOfRange (index len : Z)      (* s[i] with i outside 0..len-1 *)
| InterfaceConversion (found : string) (* x.(T) on a value of another type *)
| NilDereference.                      (* field access through a nil pointer *)

(** What a call produces: a returned value, or a run-time panic. *)
Inductive outcome (A : Type) : Type :=
| Returns (a : A)
| Panics (p : panic).
Arguments Returns {A} a.
Arguments Panics {A} p.

(** Results of the library decoders: the decoded value or the library's
    error. *)
Inductive result (E A : Type) : Type :=
| Ok (a : A)
| Err (e : E).
Arguments Ok {E A} a.
Arguments Err {E A} e.

(** ** Bytes *)

Module Byte8.

Definition code (c : ascii) : N := N_of_ascii c.
Definition chr (n : N) : ascii := ascii_of_N n.

Definition between (lo hi : N) (c : ascii) : bool :=
  ((lo <=? code c) && (code c <=? hi))%N.

Definition is_digit : ascii -> bool := between 48 57.
Definition is_lower : ascii -> bool := between 97 122.
Definition is_upper : ascii -> bool := between 65 90.
Definition is_alpha (c : ascii) : bool := is_lower c || is_upper c.
Definition is_ascii (c : ascii) : bool := (code c <? 128)%N.

Definition eqb (a b : ascii) : bool := Ascii.eqb a b.

(** Value of a hexadecimal digit. *)
Definition hex_val (c : ascii) : option N :=
  if is_digit c then Some (code c - 48)%N
  else if between 97 102 c then Some (code c - 87)%N
  else if between 65 70 c then Some (code c - 55)%N
  else None.

(** The digit of "0123456789ABCDEF" at index [n]. *)
Definition upperhex (n : N) : ascii :=
  if (n <? 10)%N then chr (48 + n) else chr (55 + n).

Definition to_upper (c : ascii) : ascii :=
  if is_lower c then chr (code c - 32) else c.

(** The double quote. *)
Definition quote : ascii := chr 34.

End Byte8.

(** ** Package [unicode/utf8] *)

Module Utf8.
Import Byte8.

(** [utf8.EncodeRune]: surrogates and values above U+10FFFF are written
    as U+FFFD. *)
Definition replacement : string :=
  String (chr 239) (String (chr 191) (String (chr 189) "")).

Definition EncodeRune (r : N) : string :=
  (if r <? 128 then String (chr r) ""
   else if r <? 2048 then
     String (chr (192 + r / 64)) (String (chr (128 + r mod 64)) "")
   else if (55296 <=? r) && (r <? 57344) then replacement
   else if r <? 65536 then
     String (chr (224 + r / 4096))
       (String (chr (128 + (r / 64) mod 64))
          (String (chr (128 + r mod 64)) ""))
   else if r <? 1114112 then
     String (chr (240 + r / 262144))
       (String (chr (128 + (r / 4096) mod 64))
          (String (chr (128 + (r / 64) mod 64))
             (String (chr (128 + r mod 64)) "")))
   else replacement)%N.

(** Length of the encoding announced by a leading byte together with the
    range the second byte has to lie in (the table [first]/[acceptRanges]
    of the package); [None] for a byte that cannot start an encoding. *)
Definition lead (c : ascii) : option (nat * N * N) :=
  let n := code c in
  (if (194 <=? n) && (n <=? 223) then Some (2%nat, 128, 191)
   else if n =? 224 then Some (3%nat, 160, 191)
   else if (225 <=? n) && (n <=? 236) then Some (3%nat, 128, 191)
   else if n =? 237 then Some (3%nat, 128, 159)
   else if (238 <=? n) && (n <=? 239) then Some (3%nat, 128, 191)
   else if n =? 240 then Some (4%nat, 144, 191)
   else if (241 <=? n) && (n <=? 243) then Some (4%nat, 128, 191)
   else if n =? 244 then Some (4%nat, 128, 143)
   else None)%N.

Definition is_cont : ascii -> bool := between 128 191.

(** [utf8.DecodeRune] at the head of [s]: the rune and its width, or
    [None] where Go answers [(RuneError, 1)]. *)
Definition DecodeRune (s : string) : option (N * nat) :=
  match s with
  | EmptyString => None
  | String c0 s1 =>
      if is_ascii c0 then Some (code c0, 1%nat)
      else
        match lead c0, s1 with
        | Some (2%nat, lo, hi), String c1 _ =>
            if between lo hi c1
            then Some (((code c0 - 192) * 64 + (code c1 - 128))%N, 2%nat)
            else None
        | Some (3%nat, lo, hi), String c1 (String c2 _) =>
            if between lo hi c1 && is_cont c2
            then Some (((code c0 - 224) * 4096 + (code c1 - 128) * 64
                        + (code c2 - 128))%N, 3%nat)
            else None
        | Some (4%nat, lo, hi), String c1 (String c2 (String c3 _)) =>
            if between lo hi c1 && is_cont c2 && is_cont c3
            then Some (((code c0 - 240) * 262144 + (code c1 - 128) * 4096
                        + (code c2 - 128) * 64 + (code c3 - 128))%N, 4%nat)
            else None
        | _, _ => None
        end
  end.

(** The runes of a string, [None] as soon as one byte is not part of a
    valid encoding. *)
Fixpoint runes (s : string) : option (list N) :=
  match s with
  | EmptyString => Some []
  | String c0 s1 =>
      match DecodeRune s with
      | Some (r, 1%nat) => cons r <$> runes s1
      | Some (r, 2%nat) =>
          match s1 with
          | String _ s2 => cons r <$> runes s2
          | _ => None
          end
      | Some (r, 3%nat) =>
          match s1 with
          | String _ (String _ s3) => cons r <$> runes s3
          | _ => None
          end
      | Some (r, _) =>
          match s1 with
          | String _ (String _ (String _ s4)) => cons r <$> runes s4
          | _ => None
          end
      | None => None
      end
  end.

(** Invalid bytes replaced by U+FFFD one at a time, valid encodings
    copied: what [encoding/json] does to the raw bytes of a string
    literal. *)
Fixpoint coerce (s : string) : string :=
  match s with
  | EmptyString => ""
  | String c0 s1 =>
      match DecodeRune s with
      | Some (_, 1%nat) => String c0 (coerce s1)
      | Some (_, 2%nat) =>
          match s1 with
          | String c1 s2 => String c0 (String c1 (coerce s2))
          | _ => replacement +:+ coerce s1
          end
      | Some (_, 3%nat) =>
          match s1 with
          | String c1 (String c2 s3) =>
              String c0 (String c1 (String c2 (coerce s3)))
          | _ => replacement +:+ coerce s1
          end
      | Some (_, _) =>
          match s1 with
          | String c1 (String c2 (String c3 s4)) =>
              String c0 (String c1 (String c2 (String c3 (coerce s4))))
          | _ => replacement +:+ coerce s1
          end
      | None => replacement +:+ coerce s1
      end
  end.

End Utf8.

(** ** Package [encoding/json]

    [json.Unmarshal] first checks the whole input against the JSON grammar
    ([checkValid]) and then stores the value into the destination by the
    destination's type.  The model follows the two steps: [Json.parse]
    gives the value tree of a well-formed input, the [store_*] functions
    store a tree into a destination of a given Go type.  A type mismatch
    does not stop the decoding, but the call returns the first one as its
    error; the model keeps that error and drops the value. *)

Module Json.
Import Byte8.

Inductive value : Type :=
| Null
| Bool (b : bool)
| Number (literal : string)
| Str (s : string)
| Array (elements : list value)
| Object (members : list (string * value)).

Inductive error : Type :=
| SyntaxError
| UnmarshalTypeError (found : string).

(** *** Lexical level *)

Inductive token : Type :=
| TLBracket | TRBracket | TLBrace | TRBrace | TColon | TComma
| TString (s : string)
| TNumber (literal : string)
| TTrue | TFalse | TNull.

(** The pieces of a string literal between its quotes. *)
Inductive piece : Type :=
| PRaw (c : ascii)      (* a byte written as itself *)
| PEsc (c : ascii)      (* the byte of a two-character escape *)
| PU (code_unit : N).   (* \uXXXX *)

Definition is_high_surrogate (n : N) : bool := ((55296 <=? n) && (n <? 56320))%N.
Definition is_low_surrogate (n : N) : bool := ((56320 <=? n) && (n <? 57344))%N.
Definition is_surrogate (n : N) : bool := ((55296 <=? n) && (n <? 57344))%N.

Definition rev_string (l : list ascii) : string :=
  string_of_list_ascii (rev l).

(** [unquote]: escapes decoded, surrogate pairs joined, lone surrogates
    and invalid UTF-8 replaced by U+FFFD.  [run] holds, reversed, the
    raw bytes read since the last escape. *)
Fixpoint unquote (ps : list piece) (run : list ascii) : string :=
  match ps with
  | [] => Utf8.coerce (rev_string run)
  | PRaw c :: ps' => unquote ps' (c :: run)
  | PEsc c :: ps' =>
      Utf8.coerce (rev_string run) +:+ String c (unquote ps' [])
  | PU hi :: ps' =>
      Utf8.coerce (rev_string run) +:+
      (if is_surrogate hi then
         match ps' with
         | PU lo :: ps'' =>
             if is_high_surrogate hi && is_low_surrogate lo
             then Utf8.EncodeRune
                    ((hi - 55296) * 1024 + (lo - 56320) + 65536)%N
                  +:+ unquote ps'' []
             else Utf8.replacement +:+ unquote ps' []
         | _ => Utf8.replacement +:+ unquote ps' []
         end
       else Utf8.EncodeRune hi +:+ unquote ps' [])
  end.

(** The number grammar: an optional minus sign; a zero or a non-zero
    digit followed by digits; optionally a dot and at least one digit;
    optionally e or E, an optional sign and at least one digit. *)
Inductive nstate : Type :=
| NBegin | NNeg | NZero | NInt | NDot | NFrac | NE | NESign | NExp.

Definition nstep (st : nstate) (c : ascii) : option nstate :=
  let digit := is_digit c in
  let zero := eqb c "0" in
  let dot := eqb c "." in
  let e := eqb c "e" || eqb c "E" in
  match st with
  | NBegin => if eqb c "-" then Some NNeg
              else if zero then Some NZero
              else if digit then Some NInt else None
  | NNeg => if zero then Some NZero else if digit then Some NInt else None
  | NZero => if dot then Some NDot else if e then Some NE else None
  | NInt => if digit then Some NInt
            else if dot then Some NDot else if e then Some NE else None
  | NDot => if digit then Some NFrac else None
  | NFrac => if digit then Some NFrac else if e then Some NE else None
  | NE => if eqb c "+" || eqb c "-" then Some NESign
          else if digit then Some NExp else None
  | NESign => if digit then Some NExp else None
  | NExp => if digit then Some NExp else None
  end.

Fixpoint nrun (st : nstate) (s : string) : option nstate :=
  match s with
  | EmptyString => Some st
  | String c s' =>
      match nstep st c with
      | Some st' => nrun st' s'
      | None => None
      end
  end.

Definition valid_number (s : string) : bool :=
  match nrun NBegin s with
  | Some NZero | Some NInt | Some NFrac | Some NExp => true
  | _ => false
  end.

Definition is_number_byte (c : ascii) : bool :=
  is_digit c || eqb c "-" || eqb c "+" || eqb c "." || eqb c "e" || eqb c "E".

Definition is_space (c : ascii) : bool :=
  eqb c " " || (code c =? 9)%N || (code c =? 10)%N || (code c =? 13)%N.

Inductive lstate : Type :=
| LStart
| LLiteral (expected : string) (t : token)
| LNumber (acc : list ascii)
| LString (acc : list piece)
| LEscape (acc : list piece)
| LHex (acc : list piece) (digits : list N).

(** One byte read between two tokens. *)
Definition start_step (c : ascii) (toks : list token)
  : option (lstate * list token) :=
  if is_space c then Some (LStart, toks)
  else if eqb c "[" then Some (LStart, TLBracket :: toks)
  else if eqb c "]" then Some (LStart, TRBracket :: toks)
  else if eqb c "{" then Some (LStart, TLBrace :: toks)
  else if eqb c "}" then Some (LStart, TRBrace :: toks)
  else if eqb c ":" then Some (LStart, TColon :: toks)
  else if eqb c "," then Some (LStart, TComma :: toks)
  else if eqb c quote then Some (LString [], toks)
  else if eqb c "t" then Some (LLiteral "rue" TTrue, toks)
  else if eqb c "f" then Some (LLiteral "alse" TFalse, toks)
  else if eqb c "n" then Some (LLiteral "ull" TNull, toks)
  else if is_digit c || eqb c "-" then Some (LNumber [c], toks)
  else None.

Definition simple_escape (c : ascii) : option ascii :=
  if eqb c quote || eqb c "\" || eqb c "/" then Some c
  else if eqb c "b" then Some (chr 8)
  else if eqb c "f" then Some (chr 12)
  else if eqb c "n" then Some (chr 10)
  else if eqb c "r" then Some (chr 13)
  else if eqb c "t" then Some (chr 9)
  else None.

Definition hex4 (ds : list N) : N :=
  fold_left (fun acc d => (acc * 16 + d)%N) (rev ds) 0%N.

(** The tokens of the input, latest first in [toks]. *)
Fixpoint lex (st : lstate) (s : string) (toks : list token)
  : option (list token) :=
  match s with
  | EmptyString =>
      match st with
      | LStart => Some (rev toks)
      | LNumber acc =>
          if valid_number (rev_string acc)
          then Some (rev (TNumber (rev_string acc) :: toks))
          else None
      | _ => None
      end
  | String c s' =>
      match st with
      | LStart =>
          match start_step c toks with
          | Some (st', toks') => lex st' s' toks'
          | None => None
          end
      | LLiteral expected t =>
          match expected with
          | String e EmptyString =>
              if eqb c e then lex LStart s' (t :: toks) else None
          | String e rest =>
              if eqb c e then lex (LLiteral rest t) s' toks else None
          | EmptyString => None
          end
      | LNumber acc =>
          if is_number_byte c then lex (LNumber (c :: acc)) s' toks
          else if valid_number (rev_string acc) then
            match start_step c (TNumber (rev_string acc) :: toks) with
            | Some (st', toks') => lex st' s' toks'
            | None => None
            end
          else None
      | LString acc =>
          if eqb c quote then lex LStart s' (TString (unquote (rev acc) []) :: toks)
          else if eqb c "\" then lex (LEscape acc) s' toks
          else if (code c <? 32)%N then None
          else lex (LString (PRaw c :: acc)) s' toks
      | LEscape acc =>
          if eqb c "u" then lex (LHex acc []) s' toks
          else match simple_escape c with
               | Some b => lex (LString (PEsc b :: acc)) s' toks
               | None => None
               end
      | LHex acc ds =>
          match hex_val c with
          | Some d =>
              match ds with
              | [_; _; _] => lex (LString (PU (hex4 (d :: ds)) :: acc)) s' toks
              | _ => lex (LHex acc (d :: ds)) s' toks
              end
          | None => None
          end
      end
  end.

(** *** Grammar level *)

(** The containers that are open around the current position. *)
Inductive frame : Type :=
| FArray (elements : list value)                       (* latest first *)
| FObject (members : list (string * value)) (key : string).

Inductive pstate : Type :=
| PValue            (* a value has to follow *)
| PArrayFirst       (* after '[': a value or ']' *)
| PObjectFirst      (* after '{': a key or '}' *)
| PObjectKey        (* after ',' in an object: a key *)
| PColon            (* after a key: ':' *)
| PAfter            (* after a value in a container: ',' or the end *)
| PDone (v : value). (* the top-level value is complete *)

Definition maxNestingDepth : N := 10000.

(** A complete value goes into the innermost open container. *)
Definition complete (v : value) (stack : list frame)
  : pstate * list frame :=
  match stack with
  | [] => (PDone v, [])
  | FArray es :: stack' => (PAfter, FArray (v :: es) :: stack')
  | FObject ms k :: stack' => (PAfter, FObject ((k, v) :: ms) "" :: stack')
  end.

Definition open (f : frame) (st : pstate) (stack : list frame)
  : option (pstate * list frame) :=
  if (N.of_nat (length stack) <? maxNestingDepth)%N
  then Some (st, f :: stack) else None.

Definition begin_value (t : token) (stack : list frame)
  : option (pstate * list frame) :=
  match t with
  | TNull => Some (complete Null stack)
  | TTrue => Some (complete (Bool true) stack)
  | TFalse => Some (complete (Bool false) stack)
  | TNumber n => Some (complete (Number n) stack)
  | TString s => Some (complete (Str s) stack)
  | TLBracket => open (FArray []) PArrayFirst stack
  | TLBrace => open (FObject [] "") PObjectFirst stack
  | _ => None
  end.

Definition begin_key (t : token) (stack : list frame)
  : option (pstate * list frame) :=
  match t, stack with
  | TString k, FObject ms _ :: stack' => Some (PColon, FObject ms k :: stack')
  | _, _ => None
  end.

Definition close_array (stack : list frame) : option (pstate * list frame) :=
  match stack with
  | FArray es :: stack' => Some (complete (Array (rev es)) stack')
  | _ => None
  end.

Definition close_object (stack : list frame) : option (pstate * list frame) :=
  match stack with
  | FObject ms _ :: stack' => Some (complete (Object (rev ms)) stack')
  | _ => None
  end.

Definition pstep (st : pstate) (stack : list frame) (t : token)
  : option (pstate * list frame) :=
  match st with
  | PValue => begin_value t stack
  | PArrayFirst =>
      match t with
      | TRBracket => close_array stack
      | _ => begin_value t stack
      end
  | PObjectFirst =>
      match t with
      | TRBrace => close_object stack
      | _ => begin_key t stack
      end
  | PObjectKey => begin_key t stack
  | PColon =>
      match t with
      | TColon => Some (PValue, stack)
      | _ => None
      end
  | PAfter =>
      match t, stack with
      | TComma, FArray _ :: _ => Some (PValue, stack)
      | TComma, FObject _ _ :: _ => Some (PObjectKey, stack)
      | TRBracket, _ => close_array stack
      | TRBrace, _ => close_object stack
      | _, _ => None
      end
  | PDone _ => None
  end.

Fixpoint prun (st : pstate) (stack : list frame) (ts : list token)
  : option value :=
  match ts with
  | [] => match st with PDone v => Some v | _ => None end
  | t :: ts' =>
      match pstep st stack t with
      | Some (st', stack') => prun st' stack' ts'
      | None => None
      end
  end.

(** The value a well-formed input denotes; [None] is a [SyntaxError]. *)
Definition parse (data : string) : option value :=
  match lex LStart data [] with
  | Some ts => prun PValue [] ts
  | None => None
  end.

(** *** Storing a value into a Go destination *)

(** The [Value] an [UnmarshalTypeError] reports. *)
Definition kind_name (v : value) : string :=
  match v with
  | Null => "null"
  | Bool _ => "bool"
  | Number _ => "number"
  | Str _ => "string"
  | Array _ => "array"
  | Object _ => "object"
  end.

Definition mismatch {A} (v : value) : result error A :=
  Err (UnmarshalTypeError (kind_name v)).

(** [null] leaves a destination of kind string, bool or int as it is. *)
Definition store_string (cur : string) (v : value) : result error string :=
  match v with
  | Null => Ok cur
  | Str s => Ok s
  | _ => mismatch v
  end.

Definition store_bool (cur : bool) (v : value) : result error bool :=
  match v with
  | Null => Ok cur
  | Bool b => Ok b
  | _ => mismatch v
  end.

Fixpoint digits_value (s : string) (acc : Z) : option Z :=
  match s with
  | EmptyString => Some acc
  | String c s' =>
      if is_digit c
      then digits_value s' (acc * 10 + Z.of_N (code c - 48))
      else None
  end.

(** [strconv.ParseInt(s, 10, 64)] on a literal of the number grammar. *)
Definition parse_int64 (literal : string) : option Z :=
  let in_range (z : Z) :=
    if (- 2 ^ 63 <=? z) && (z <? 2 ^ 63) then Some z else None in
  match literal with
  | String "-" s => z ← digits_value s 0; in_range (- z)
  | s => z ← digits_value s 0; in_range z
  end.

Definition store_int (cur : Z) (v : value) : result error Z :=
  match v with
  | Null => Ok cur
  | Number n =>
      match parse_int64 n with
      | Some z => Ok z
      | None => Err (UnmarshalTypeError ("number " +:+ n))
      end
  | _ => mismatch v
  end.

(** A number stored into an [interface{}] becomes a [float64];
    [strconv.ParseFloat] reports a range error when the correctly
    rounded value is infinite, that is when the literal denotes at least
    2^1024 - 2^970 in absolute value.  The literal is m * 10^e with [m]
    the digits of its integer and fraction parts. *)
Inductive fphase : Type := FInt | FFrac | FExp.

Fixpoint float_parts (s : string) (ph : fphase) (m fd esign e : Z)
  : Z * Z :=
  match s with
  | EmptyString => (m, esign * e - fd)
  | String c s' =>
      if is_digit c then
        let d := Z.of_N (code c - 48) in
        match ph with
        | FInt => float_parts s' ph (m * 10 + d) fd esign e
        | FFrac => float_parts s' ph (m * 10 + d) (fd + 1) esign e
        | FExp => float_parts s' ph m fd esign (e * 10 + d)
        end
      else if eqb c "." then float_parts s' FFrac m fd esign e
      else if eqb c "e" || eqb c "E" then float_parts s' FExp m fd esign e
      else if eqb c "-" then
        match ph with
        | FExp => float_parts s' ph m fd (-1) e
        | _ => float_parts s' ph m fd esign e
        end
      else float_parts s' ph m fd esign e
  end.

Definition float64_overflows (literal : string) : bool :=
  let '(m, e) := float_parts literal FInt 0 0 1 0 in
  let limit := 2 ^ 1024 - 2 ^ 970 in
  if m =? 0 then false
  else if 0 <=? e then limit <=? m * 10 ^ e
  else limit * 10 ^ (- e) <=? m.

(** The first number of [v], in document order, that does not fit a
    [float64]. *)
Fixpoint first_overflow (v : value) : option string :=
  match v with
  | Number n => if float64_overflows n then Some n else None
  | Array es =>
      (fix go (l : list value) : option string :=
         match l with
         | [] => None
         | x :: l' =>
             match first_overflow x with
             | Some n => Some n
             | None => go l'
             end
         end) es
  | Object ms =>
      (fix go (l : list (string * value)) : option string :=
         match l with
         | [] => None
         | (_, x) :: l' =>
             match first_overflow x with
             | Some n => Some n
             | None => go l'
             end
         end) ms
  | _ => None
  end.

(** A value stored into an [interface{}]: the tree itself stands for
    the Go value ([nil], [bool], [float64], [string], [[]interface{}],
    [map[string]interface{}]). *)
Definition store_interface (v : value) : result error value :=
  match first_overflow v with
  | Some n => Err (UnmarshalTypeError ("number " +:+ n))
  | None => Ok v
  end.

(** Keys are matched with field names up to case folding ([foldName]):
    ASCII letters by case, and the two non-ASCII runes that fold to an
    ASCII letter, U+017F (to S) and U+212A (to K). *)
Fixpoint foldName (s : string) : string :=
  match s with
  | EmptyString => ""
  | String c0 s1 =>
      let other := String (to_upper c0) (foldName s1) in
      match s1 with
      | String c1 s2 =>
          if (code c0 =? 197)%N && (code c1 =? 191)%N
          then String "S" (foldName s2)
          else
            match s2 with
            | String c2 s3 =>
                if (code c0 =? 226)%N && (code c1 =? 132)%N
                   && (code c2 =? 170)%N
                then String "K" (foldName s3)
                else other
            | _ => other
            end
      | _ => other
      end
  end.

Definition find_field (names : list string) (key : string)
  : option string :=
  match List.find (String.eqb key) names with
  | Some n => Some n
  | None => List.find (fun n => String.eqb (foldName n) (foldName key)) names
  end.

(** Members stored one after the other into a struct value [acc]; a key
    that names no field is skipped, the first mismatch is the error. *)
Fixpoint store_members {A} (names : list string)
    (store : string -> value -> A -> result error A)
    (ms : list (string * value)) (acc : A) : result error A :=
  match ms with
  | [] => Ok acc
  | (k, v) :: ms' =>
      match find_field names k with
      | Some n =>
          match store n v acc with
          | Ok acc' => store_members names store ms' acc'
          | Err e => Err e
          end
      | None => store_members names store ms' acc
      end
  end.

Definition store_struct {A} (names : list string)
    (store : string -> value -> A -> result error A)
    (cur : A) (v : value) : result error A :=
  match v with
  | Null => Ok cur
  | Object ms => store_members names store ms cur
  | _ => mismatch v
  end.

Fixpoint store_elements {A} (elem : value -> result error A)
    (es : list value) : result error (list A) :=
  match es with
  | [] => Ok []
  | v :: es' =>
      match elem v with
      | Ok a =>
          match store_elements elem es' with
          | Ok l => Ok (a :: l)
          | Err e => Err e
          end
      | Err e => Err e
      end
  end.

(** A slice destination: [null] gives the nil slice, an array gives its
    elements, each stored into a fresh zero element.  This is what the
    library does for a destination that holds no elements yet, as is the
    case unless a key of slice type occurs twice in one object; for a
    second occurrence the library decodes into the elements already
    there, which is not modelled. *)
Definition store_slice {A} (elem : value -> result error A) (v : value)
  : result error (list A) :=
  match v with
  | Null => Ok []
  | Array es => store_elements elem es
  | _ => mismatch v
  end.

(** A [map[string]interface{}] destination; a later member replaces an
    earlier one with the same key. *)
Definition store_map (v : value) : result error (option (gmap string value)) :=
  match v with
  | Null => Ok None
  | Object ms =>
      match first_overflow v with
      | Some n => Err (UnmarshalTypeError ("number " +:+ n))
      | None => Ok (Some (list_to_map (rev ms)))
      end
  | _ => mismatch v
  end.

(** [json.Unmarshal(data, &dst)] for a destination stored by [store]. *)
Definition Unmarshal {A} (store : value -> result error A) (data : string)
  : result error A :=
  match parse data with
  | Some v => store v
  | None => Err SyntaxError
  end.

End Json.

(** ** Package [encoding/xml]

    [xml.Unmarshal] into a struct whose fields are strings tagged with
    element paths ([`xml:"a>b>c"`]) and which has no [XMLName]: the
    decoder reads tokens up to the first start element, accepts it
    whatever its name, and then reads up to the matching end element.
    A field receives the character data directly inside an element found
    at the field's path below the root.  Nothing after the end of the
    root element is read.

    The model is one pass over the bytes.  It follows the strict decoder
    of the package with two simplifications of its name check: every
    validly encoded non-ASCII rune is accepted in a name, and names are
    split at the colon as the current library does. *)

Module Xml.
Import Byte8.

Inductive error : Type :=
| SyntaxError      (* malformed input, or input that ends inside the root *)
| EOF              (* no start element at all *)
| BadDeclaration.  (* <?xml ...?> with another version or encoding *)

Definition zero : ascii := chr 0.

Definition is_space (c : ascii) : bool :=
  eqb c " " || (code c =? 9)%N || (code c =? 10)%N || (code c =? 13)%N.

Definition is_quote (c : ascii) : bool := eqb c quote || eqb c "'".

Definition isNameByte (c : ascii) : bool :=
  is_alpha c || is_digit c || eqb c "_" || eqb c ":" || eqb c "." || eqb c "-".

(** The bytes [readName] takes. *)
Definition name_byte (c : ascii) : bool := negb (is_ascii c) || isNameByte c.

(** The first rune and the other runes of a name.  The model is exact
    on ASCII; a rune outside ASCII is taken as a name character, where
    the library looks it up in the name tables of XML 1.0, which are not
    reproduced here. *)
Definition name_first (r : N) : bool :=
  (if r <? 128 then is_alpha (chr r) || eqb (chr r) "_" || eqb (chr r) ":"
   else true)%N.

Definition name_other (r : N) : bool :=
  (if r <? 128 then isNameByte (chr r) else true)%N.

Definition isName (s : string) : bool :=
  match Utf8.runes s with
  | Some (r :: rs) => name_first r && forallb name_other rs
  | _ => false
  end.

Fixpoint count_colons (s : string) : nat :=
  match s with
  | EmptyString => 0%nat
  | String c s' => ((if eqb c ":" then 1 else 0) + count_colons s')%nat
  end.

(** [strings.Cut(s, ":")]. *)
Fixpoint cut_colon (s : string) : option (string * string) :=
  match s with
  | EmptyString => None
  | String c s' =>
      if eqb c ":" then Some ("", s')
      else match cut_colon s' with
           | Some (a, b) => Some (String c a, b)
           | None => None
           end
  end.

(** A name with its prefix: (space, local). *)
Definition name : Type := string * string.

Definition nsname (s : string) : option name :=
  if negb (isName s) then None
  else if (1 <? count_colons s)%nat then None
  else match cut_colon s with
       | Some (space, local) =>
           if String.eqb space "" || String.eqb local "" then Some ("", s)
           else Some (space, local)
       | None => Some ("", s)
       end.

Definition name_eqb (a b : name) : bool :=
  String.eqb (fst a) (fst b) && String.eqb (snd a) (snd b).

Definition in_character_range (r : N) : bool :=
  ((r =? 9) || (r =? 10) || (r =? 13)
   || ((32 <=? r) && (r <=? 55295))
   || ((57344 <=? r) && (r <=? 65533))
   || ((65536 <=? r) && (r <=? 1114111)))%N.

(** The check at the end of [Decoder.text]. *)
Definition valid_text (s : string) : bool :=
  match Utf8.runes s with
  | Some rs => forallb in_character_range rs
  | None => false
  end.

Definition entity (nm : string) : option ascii :=
  if String.eqb nm "lt" then Some "<"%char
  else if String.eqb nm "gt" then Some ">"%char
  else if String.eqb nm "amp" then Some "&"%char
  else if String.eqb nm "apos" then Some "'"%char
  else if String.eqb nm "quot" then Some quote
  else None.

Definition rev_string (l : list ascii) : string :=
  string_of_list_ascii (rev l).

(** *** The declaration [<?xml version=... encoding=...?>] *)

Fixpoint until_byte (q : ascii) (s : string) : option string :=
  match s with
  | EmptyString => None
  | String c s' =>
      if eqb c q then Some ""
      else String c <$> until_byte q s'
  end.

Fixpoint drop_string (n : nat) (s : string) : string :=
  match n, s with
  | O, _ => s
  | S n', String _ s' => drop_string n' s'
  | S _, EmptyString => ""
  end.

(** [procInst(param, s)] with [key] standing for [param + "="]: the
    search resumes after the byte that follows a [key] not followed by
    a quote; [skip] counts the bytes still to pass over. *)
Fixpoint procInst_from (key : string) (skip : nat) (s : string) : string :=
  match s with
  | EmptyString => ""
  | String _ s' =>
      match skip with
      | S n => procInst_from key n s'
      | O =>
          if String.prefix key s then
            match drop_string (String.length key) s with
            | EmptyString => ""
            | String q rest =>
                if is_quote q
                then default "" (until_byte q rest)
                else procInst_from key (String.length key) s'
            end
          else procInst_from key 0 s'
      end
  end.

Definition procInst (param s : string) : string :=
  procInst_from (param +:+ "=") 0 s.

Fixpoint upper (s : string) : string :=
  match s with
  | EmptyString => ""
  | String c s' => String (to_upper c) (upper s')
  end.

Definition declaration_ok (content : string) : bool :=
  let ver := procInst "version" content in
  let enc := procInst "encoding" content in
  (String.eqb ver "" || String.eqb ver "1.0")
  && (String.eqb enc "" || String.eqb (upper enc) "UTF-8").

(** *** Elements and fields *)

(** What the decoder has gathered: the open elements, innermost first;
    the current value of each field; the character data of the field
    element being read. *)
Record context : Type := Context {
  stack : list name;
  values : list string;
  data : string
}.

(** The local names from the root's child down to the innermost open
    element. *)
Definition path_of (st : list name) : list string :=
  match rev st with
  | [] => []
  | _ :: below => map snd below
  end.

Fixpoint field_index (fields : list (list string)) (p : list string)
  : option nat :=
  match fields with
  | [] => None
  | f :: fields' =>
      if decide (f = p) then Some 0%nat
      else S <$> field_index fields' p
  end.

Inductive step_result (S : Type) : Type :=
| Continue (st : S) (cx : context)
| Stop (r : result error (list string)).
Arguments Continue {S} st cx.
Arguments Stop {S} r.

Section Decoder.
Variable fields : list (list string).

Definition on_start (nm : name) (cx : context) : context :=
  let st := nm :: stack cx in
  match field_index fields (path_of st) with
  | Some _ => Context st (values cx) ""
  | None => Context st (values cx) (data cx)
  end.

Definition on_text (d : string) (cx : context) : context :=
  match field_index fields (path_of (stack cx)) with
  | Some _ => Context (stack cx) (values cx) (data cx +:+ d)
  | None => cx
  end.

(** An end tag closes the innermost element, whose name it has to
    repeat; the end of the root element ends the decoding. *)
Definition on_end {S} (next : S) (nm : name) (cx : context)
  : step_result S :=
  match stack cx with
  | [] => Stop (Err SyntaxError)
  | top :: below =>
      if negb (name_eqb top nm) then Stop (Err SyntaxError)
      else
        let vs :=
          match field_index fields (path_of (stack cx)) with
          | Some i => <[i := data cx]> (values cx)
          | None => values cx
          end in
        match below with
        | [] => Stop (Ok vs)
        | _ => Continue next (Context below vs (data cx))
        end
  end.

(** *** The tokenizer *)

Inductive tkind : Type :=
| KChar                          (* character data *)
| KCData                         (* inside <![CDATA[ ... ]]> *)
| KAttr (q : ascii) (el : name). (* a quoted attribute value of [el] *)

Inductive xstate : Type :=
| XText (k : tkind) (acc : list ascii) (b0 b1 : ascii)
| XEntStart (k : tkind) (acc : list ascii)
| XEntName (k : tkind) (acc : list ascii) (nm : list ascii)
| XEntHash (k : tkind) (acc : list ascii)
| XEntNum (k : tkind) (acc : list ascii) (base : N) (val : N) (some : bool)
| XLt
| XStartName (nm : list ascii)
| XTag (el : name)
| XTagSlash (el : name)
| XAttrName (el : name) (nm : list ascii)
| XAttrEq (el : name)
| XAttrVal (el : name)
| XEndStart
| XEndName (nm : list ascii)
| XEndSpace (el : name)
| XPIStart
| XPITarget (nm : list ascii)
| XPISpace (target : string)
| XPIBody (target : string) (acc : list ascii) (b0 : ascii)
| XBang
| XBangDash
| XComment (b0 b1 : ascii)
| XCDataOpen (expected : string)
| XDirective (inquote : ascii) (depth : N)
| XDirLt (expected : string) (depth : N)
| XDirComment (b0 b1 : ascii) (depth : N).

Definition between_tokens : xstate := XText KChar [] zero zero.

Definition is_close (b0 b1 c : ascii) : bool :=
  eqb b0 "]" && eqb b1 "]" && eqb c ">".

(** A byte of text is kept; a carriage return, alone or before a line
    feed, becomes one line feed. *)
Definition write (acc : list ascii) (b1 c : ascii) : list ascii :=
  if (code c =? 13)%N then chr 10 :: acc
  else if (code b1 =? 13)%N && (code c =? 10)%N then acc
  else c :: acc.

Definition text_step (k : tkind) (acc : list ascii) (b0 b1 : ascii)
    (cx : context) (c : ascii) : step_result xstate :=
  let more := Continue (XText k (write acc b1 c) b1 c) cx in
  match k with
  | KChar =>
      if is_close b0 b1 c then Stop (Err SyntaxError)
      else if eqb c "<" then
        if valid_text (rev_string acc)
        then Continue XLt (on_text (rev_string acc) cx)
        else Stop (Err SyntaxError)
      else if eqb c "&" then Continue (XEntStart k acc) cx
      else more
  | KAttr q el =>
      if is_close b0 b1 c then Stop (Err SyntaxError)
      else if eqb c "<" then Stop (Err SyntaxError)
      else if eqb c q then
        if valid_text (rev_string acc)
        then Continue (XTag el) cx
        else Stop (Err SyntaxError)
      else if eqb c "&" then Continue (XEntStart k acc) cx
      else more
  | KCData =>
      if is_close b0 b1 c then
        let d := rev_string (drop 2 acc) in
        if valid_text d
        then Continue between_tokens (on_text d cx)
        else Stop (Err SyntaxError)
      else more
  end.

Definition tag_step (el : name) (cx : context) (c : ascii)
  : step_result xstate :=
  if is_space c then Continue (XTag el) cx
  else if eqb c "/" then Continue (XTagSlash el) cx
  else if eqb c ">" then Continue between_tokens (on_start el cx)
  else if name_byte c then Continue (XAttrName el [c]) cx
  else Stop (Err SyntaxError).

Definition attr_eq_step (el : name) (cx : context) (c : ascii)
  : step_result xstate :=
  if is_space c then Continue (XAttrEq el) cx
  else if eqb c "=" then Continue (XAttrVal el) cx
  else Stop (Err SyntaxError).

Definition end_space_step (el : name) (cx : context) (c : ascii)
  : step_result xstate :=
  if is_space c then Continue (XEndSpace el) cx
  else if eqb c ">" then on_end between_tokens el cx
  else Stop (Err SyntaxError).

Definition pi_body_step (target : string) (acc : list ascii) (b0 : ascii)
    (cx : context) (c : ascii) : step_result xstate :=
  if eqb b0 "?" && eqb c ">" then
    if String.eqb target "xml"
       && negb (declaration_ok (rev_string (drop 1 acc)))
    then Stop (Err BadDeclaration)
    else Continue between_tokens cx
  else Continue (XPIBody target (c :: acc) c) cx.

Definition pi_space_step (target : string) (cx : context) (c : ascii)
  : step_result xstate :=
  if is_space c then Continue (XPISpace target) cx
  else pi_body_step target [] zero cx c.

Definition dir_handle (inquote : ascii) (depth : N) (cx : context)
    (c : ascii) : step_result xstate :=
  if eqb c inquote then Continue (XDirective zero depth) cx
  else if negb (eqb inquote zero) then Continue (XDirective inquote depth) cx
  else if is_quote c then Continue (XDirective c depth) cx
  else if eqb c ">" then Continue (XDirective zero (depth - 1)) cx
  else if eqb c "<" then Continue (XDirLt "!--" depth) cx
  else Continue (XDirective zero depth) cx.

Definition step (st : xstate) (cx : context) (c : ascii)
  : step_result xstate :=
  let bad := Stop (Err SyntaxError) in
  match st with
  | XText k acc b0 b1 => text_step k acc b0 b1 cx c
  | XEntStart k acc =>
      if eqb c "#" then Continue (XEntHash k acc) cx
      else if name_byte c then Continue (XEntName k acc [c]) cx
      else bad
  | XEntName k acc nm =>
      if name_byte c then Continue (XEntName k acc (c :: nm)) cx
      else if eqb c ";" then
        match entity (rev_string nm) with
        | Some ch => Continue (XText k (ch :: acc) zero zero) cx
        | None => bad
        end
      else bad
  | XEntHash k acc =>
      if eqb c "x" then Continue (XEntNum k acc 16 0 false) cx
      else if is_digit c
      then Continue (XEntNum k acc 10 (code c - 48) true) cx
      else bad
  | XEntNum k acc base val some =>
      match (if (base =? 16)%N then hex_val c
             else if is_digit c then Some (code c - 48)%N else None) with
      | Some d => Continue (XEntNum k acc base (val * base + d) true) cx
      | None =>
          if eqb c ";" && some && (val <=? 1114111)%N then
            Continue
              (XText k
                 (rev (list_ascii_of_string (Utf8.EncodeRune val)) ++ acc)
                 zero zero) cx
          else bad
      end
  | XLt =>
      if eqb c "/" then Continue XEndStart cx
      else if eqb c "?" then Continue XPIStart cx
      else if eqb c "!" then Continue XBang cx
      else if name_byte c then Continue (XStartName [c]) cx
      else bad
  | XStartName nm =>
      if name_byte c then Continue (XStartName (c :: nm)) cx
      else match nsname (rev_string nm) with
           | Some el => tag_step el cx c
           | None => bad
           end
  | XTag el => tag_step el cx c
  | XTagSlash el =>
      if eqb c ">" then on_end between_tokens el (on_start el cx)
      else bad
  | XAttrName el nm =>
      if name_byte c then Continue (XAttrName el (c :: nm)) cx
      else match nsname (rev_string nm) with
           | Some _ => attr_eq_step el cx c
           | None => bad
           end
  | XAttrEq el => attr_eq_step el cx c
  | XAttrVal el =>
      if is_space c then Continue (XAttrVal el) cx
      else if is_quote c then Continue (XText (KAttr c el) [] zero zero) cx
      else bad
  | XEndStart =>
      if name_byte c then Continue (XEndName [c]) cx else bad
  | XEndName nm =>
      if name_byte c then Continue (XEndName (c :: nm)) cx
      else match nsname (rev_string nm) with
           | Some el => end_space_step el cx c
           | None => bad
           end
  | XEndSpace el => end_space_step el cx c
  | XPIStart =>
      if name_byte c then Continue (XPITarget [c]) cx else bad
  | XPITarget nm =>
      if name_byte c then Continue (XPITarget (c :: nm)) cx
      else if isName (rev_string nm)
      then pi_space_step (rev_string nm) cx c
      else bad
  | XPISpace target => pi_space_step target cx c
  | XPIBody target acc b0 => pi_body_step target acc b0 cx c
  | XBang =>
      if eqb c "-" then Continue XBangDash cx
      else if eqb c "[" then Continue (XCDataOpen "CDATA[") cx
      else Continue (XDirective zero 0) cx
  | XBangDash =>
      if eqb c "-" then Continue (XComment zero zero) cx else bad
  | XComment b0 b1 =>
      if eqb b0 "-" && eqb b1 "-" then
        if eqb c ">" then Continue between_tokens cx else bad
      else Continue (XComment b1 c) cx
  | XCDataOpen expected =>
      match expected with
      | String e EmptyString =>
          if eqb c e then Continue (XText KCData [] zero zero) cx else bad
      | String e rest =>
          if eqb c e then Continue (XCDataOpen rest) cx else bad
      | EmptyString => bad
      end
  | XDirective inquote depth =>
      if eqb inquote zero && eqb c ">" && (depth =? 0)%N
      then Continue between_tokens cx
      else dir_handle inquote depth cx c
  | XDirLt expected depth =>
      match expected with
      | String e rest =>
          if eqb c e then
            match rest with
            | EmptyString => Continue (XDirComment zero zero depth) cx
            | _ => Continue (XDirLt rest depth) cx
            end
          else dir_handle zero (depth + 1) cx c
      | EmptyString => bad
      end
  | XDirComment b0 b1 depth =>
      if eqb b0 "-" && eqb b1 "-" && eqb c ">"
      then Continue (XDirective zero depth) cx
      else Continue (XDirComment b1 c depth) cx
  end.

(** The input ends before the root element was closed. *)
Definition at_end (st : xstate) (cx : context) : result error (list string) :=
  match st, stack cx with
  | XText KChar acc _ _, [] =>
      if valid_text (rev_string acc) then Err EOF else Err SyntaxError
  | _, _ => Err SyntaxError
  end.

Fixpoint run (st : xstate) (cx : context) (s : string)
  : result error (list string) :=
  match s with
  | EmptyString => at_end st cx
  | String c s' =>
      match step st cx c with
      | Continue st' cx' => run st' cx' s'
      | Stop r => r
      end
  end.

(** [xml.Unmarshal(data, &dst)] for a zero [dst]: the values of the
    fields, in the order of [fields]. *)
Definition Unmarshal (data : string) : result error (list string) :=
  run between_tokens (Context [] (map (fun _ => "") fields) "") data.

End Decoder.

End Xml.

(** ** Package [strings] *)

Module Strings.
Import Byte8.

Definition HasPrefix (s pre : string) : bool := String.prefix pre s.

Fixpoint rev_acc (s acc : string) : string :=
  match s with
  | EmptyString => acc
  | String c s' => rev_acc s' (String c acc)
  end.

Definition HasSuffix (s suf : string) : bool :=
  String.prefix (rev_acc suf "") (rev_acc s "").

(** [strings.Replace(s, old, new, n)] for a non-empty [old]: the first
    [n] occurrences of [old], found from left to right without overlap,
    are replaced; all of them when [n] is negative.  [skip] counts the
    bytes of an occurrence that are still to be dropped. *)
Fixpoint replace_from (old new : string) (n : Z) (skip : nat) (s : string)
  : string :=
  match s with
  | EmptyString => ""
  | String c s' =>
      match skip with
      | S k => replace_from old new n k s'
      | O =>
          if negb (n =? 0) && String.prefix old s
          then new +:+ replace_from old new (n - 1) (String.length old - 1) s'
          else String c (replace_from old new n 0 s')
      end
  end.

(** For an empty [old], [new] is inserted before the first rune and
    after each rune, [n] times at most.  [pending] counts the bytes of
    the current rune that are still to be copied. *)
Fixpoint insert_from (new : string) (n : Z) (pending : nat) (s : string)
  : string :=
  match s with
  | EmptyString => ""
  | String c s' =>
      match pending with
      | S (S k) => String c (insert_from new n (S k) s')
      | S O =>
          String c (if n =? 0 then s'
                    else new +:+ insert_from new (n - 1) 0 s')
      | O =>
          let w := match Utf8.DecodeRune s with
                   | Some (_, w) => w
                   | None => 1%nat
                   end in
          match w with
          | S (S k) => String c (insert_from new n (S k) s')
          | _ => String c (if n =? 0 then s'
                           else new +:+ insert_from new (n - 1) 0 s')
          end
      end
  end.

Definition Replace (s old new : string) (n : Z) : string :=
  if String.eqb old new || (n =? 0) then s
  else match old with
       | EmptyString => new +:+ insert_from new (n - 1) 0 s
       | _ => replace_from old new n 0 s
       end.

Fixpoint Join (l : list string) (sep : string) : string :=
  match l with
  | [] => ""
  | [a] => a
  | a :: l' => a +:+ sep +:+ Join l' sep
  end.

End Strings.

(** ** Package [net/url] *)

Module Url.
Import Byte8.

Inductive encoding : Type := encodePathSegment | encodeQueryComponent.

Definition one_of (c : ascii) (set : string) : bool :=
  existsb (eqb c) (list_ascii_of_string set).

Definition shouldEscape (c : ascii) (mode : encoding) : bool :=
  if is_alpha c || is_digit c then false
  else if one_of c "-_.~" then false
  else if one_of c "$&+,/:;=?@" then
    match mode with
    | encodePathSegment => one_of c "/;,?"
    | encodeQueryComponent => true
    end
  else true.

Definition percent (c : ascii) : string :=
  String "%" (String (upperhex (code c / 16))
                (String (upperhex (code c mod 16)) "")).

Fixpoint escape (s : string) (mode : encoding) : string :=
  match s with
  | EmptyString => ""
  | String c s' =>
      if shouldEscape c mode then
        match mode with
        | encodeQueryComponent =>
            if eqb c " " then String "+" (escape s' mode)
            else percent c +:+ escape s' mode
        | encodePathSegment => percent c +:+ escape s' mode
        end
      else String c (escape s' mode)
  end.

Definition PathEscape (s : string) : string := escape s encodePathSegment.
Definition QueryEscape (s : string) : string := escape s encodeQueryComponent.

(** [url.Values]: the keys of the map with their values. *)
Definition Values : Type := list (string * list string).

Fixpoint insert_sorted (kv : string * list string) (l : Values) : Values :=
  match l with
  | [] => [kv]
  | kv' :: l' =>
      if String.leb (fst kv) (fst kv') then kv :: l
      else kv' :: insert_sorted kv l'
  end.

Definition sorted (v : Values) : Values := fold_right insert_sorted [] v.

(** [Values.Encode]: "k=v" pairs, escaped, sorted by key and joined
    by an ampersand. *)
Definition Encode (v : Values) : string :=
  Strings.Join
    (flat_map (fun kv =>
                 map (fun x => QueryEscape (fst kv) +:+ "=" +:+ QueryEscape x)
                     (snd kv))
              (sorted v))
    "&".

End Url.

(** ** Package [fmt] *)

Module Fmt.
Import Byte8.

(** The operands left over after the last verb. *)
Definition extra (args : list string) : string :=
  match args with
  | [] => ""
  | _ => "%!(EXTRA "
         +:+ Strings.Join (map (fun a => "string=" +:+ a) args) ", "
         +:+ ")"
  end.

(** [fmt.Sprintf] with string operands.  A format in which every
    percent sign is followed by [s], [v] or a percent sign is rendered as
    Go renders it, also when operands are missing or left over.  Flags,
    widths, precisions and argument indexes are not modelled; a byte
    other than [s], [v] and [%] after a percent sign is rendered as a
    verb that does not apply to strings. *)
Fixpoint Sprintf (format : string) (args : list string) : string :=
  match format with
  | EmptyString => extra args
  | String c rest =>
      if eqb c "%" then
        match rest with
        | EmptyString => "%!(NOVERB)" +:+ extra args
        | String v rest' =>
            if eqb v "%" then String "%" (Sprintf rest' args)
            else
              match args with
              | a :: args' =>
                  if eqb v "s" || eqb v "v" then a +:+ Sprintf rest' args'
                  else String "%" (String "!" (String v "(string="))
                       +:+ a +:+ ")" +:+ Sprintf rest' args'
              | [] =>
                  String "%" (String "!" (String v "(MISSING)"))
                  +:+ Sprintf rest' []
              end
        end
      else String c (Sprintf rest args)
  end.

End Fmt.

(** * errorHelpers.go *)

(** [Extra] is an [interface{}]: nil, or the map literal
    [map[string]interface{}{"StatusCode": statusCode}], the only dynamic
    value the code ever stores there. *)
Record SfdcError : Type := mkSfdcError {
  Code : string;
  Message : string;
  Extra : option (gmap string Z)
}.

(** The values of Go's [error] interface that reach the modelled code.
    Values of different dynamic types are different errors. *)
Inductive error : Type :=
| SfdcErr (e : SfdcError)       (* an SfdcError struct *)
| ErrorString (text : string)   (* the pointer made by errors.New *)
| JsonError (e : Json.error)    (* an error of encoding/json *)
| LibraryError (text : string). (* an error made by net/http, net/url or io *)

Definition ERR_FAILURE : error :=
  SfdcErr {| Message := "general failure"; Code := "GENERAL_FAILURE";
             Extra := None |}.

Definition ERR_AUTHENTICATION : error :=
  SfdcErr {| Message := "authentication failure"; Code := "AUTH_ERROR";
             Extra := None |}.

Definition ERR_DATA_NOT_FOUND : error :=
  SfdcErr {| Message := "data not found"; Code := "NOT_FOUND";
             Extra := None |}.

Definition errorCodes : list Z := [500; 503; 403].

(** [errors.New] is called once, at package initialisation: [ERR_RETRY]
    is the only error of this dynamic type in the program. *)
Definition ERR_RETRY : error := ErrorString "retry call".

(** One element of [jsonError]. *)
Record jsonErrorItem : Type := mkJsonErrorItem {
  je_Message : string;     (* `json:"message"` *)
  je_ErrorCode : string    (* `json:"errorCode"` *)
}.

Definition jsonError : Type := list jsonErrorItem.

Record xmlError : Type := mkXmlError {
  xe_Message : string;     (* `xml:"Body>Fault>faultstring"` *)
  xe_ErrorCode : string    (* `xml:"Body>Fault>faultcode"` *)
}.

Definition store_jsonErrorItem (field : string) (v : Json.value)
    (it : jsonErrorItem) : result Json.error jsonErrorItem :=
  if String.eqb field "message" then
    match Json.store_string (je_Message it) v with
    | Ok s => Ok (mkJsonErrorItem s (je_ErrorCode it))
    | Err e => Err e
    end
  else
    match Json.store_string (je_ErrorCode it) v with
    | Ok s => Ok (mkJsonErrorItem (je_Message it) s)
    | Err e => Err e
    end.

(** [json.Unmarshal(responseBody, &jsonError)]. *)
Definition Unmarshal_jsonError (data : string) : result Json.error jsonError :=
  Json.Unmarshal
    (Json.store_slice
       (Json.store_struct ["message"; "errorCode"] store_jsonErrorItem
          (mkJsonErrorItem "" "")))
    data.

(** [xml.Unmarshal(responseBody, &xmlError)]. *)
Definition Unmarshal_xmlError (data : string) : result Xml.error xmlError :=
  match Xml.Unmarshal [["Body"; "Fault"; "faultstring"];
                       ["Body"; "Fault"; "faultcode"]] data with
  | Ok values => Ok (mkXmlError (nth 0 values "") (nth 1 values ""))
  | Err e => Err e
  end.

Definition statusExtra (statusCode : Z) : option (gmap string Z) :=
  Some {[ "StatusCode" := statusCode ]}.

(** Calls to [log.Println] write to the process log and do not take part
    in any result; they are left out throughout. *)
Definition ParseSalesforceError (statusCode : Z) (responseBody : string)
  : outcome error :=
  match Unmarshal_jsonError responseBody with
  | Err _ =>
      (* Unable to parse json. Try xml *)
      match Unmarshal_xmlError responseBody with
      | Err _ => Returns ERR_FAILURE
      | Ok x =>
          Returns (SfdcErr {| Message := xe_Message x; Code := xe_ErrorCode x;
                              Extra := statusExtra statusCode |})
      end
  | Ok items =>
      match items with
      | first :: _ =>
          Returns (SfdcErr {| Message := je_Message first;
                              Code := je_ErrorCode first;
                              Extra := statusExtra statusCode |})
      | [] => Panics (IndexOutOfRange 0 0)   (* jsonError[0] *)
      end
  end.

Fixpoint RetryLogic_loop (codes : list Z) (n : Z) : bool :=
  match codes with
  | [] => false
  | c :: codes' => if c =? n then true else RetryLogic_loop codes' n
  end.

Definition RetryLogic (n : Z) : bool := RetryLogic_loop errorCodes n.

(** * The client *)

Definition DefaultAPIVersion : string := "43.0".
Definition DefaultClientID : string := "simpleforce".
Definition DefaultURL : string := "https://login.salesforce.com".

Record User : Type := mkUser {
  user_id : string;
  user_name : string;
  user_fullName : string;
  user_email : string
}.

(** The [httpClient] field is the handle through which requests leave
    the process; what it answers is given by the environment [Env]
    below. *)
Record Client : Type := mkClient {
  sessionID : string;
  user : User;
  clientID : string;
  apiVersion : string;
  baseURL : string;
  instanceURL : string;
  useToolingAPI : bool
}.

(** Modelled from the spec: the record type [SObject] and its methods
    [setClient] and [Get] are declared in a file that is not part of the
    sources at hand.  A record is "an open mapping from field name to
    value, with an implicit back-reference to the owning Session"; the
    code indexes it by string and asserts the type of what it finds, so
    it is a [map[string]interface{}].  A nil map reads like an empty
    one. *)
Record SObject : Type := mkSObject {
  fields : gmap string Json.value;
  attached : bool         (* the back-reference to the client is set *)
}.

Definition SObject_setClient (obj : SObject) : SObject :=
  mkSObject (fields obj) true.

Record QueryResult : Type := mkQueryResult {
  TotalSize : Z;              (* `json:"totalSize"` *)
  Done : bool;                (* `json:"done"` *)
  NextRecordsURL : string;    (* `json:"nextRecordsUrl"` *)
  Records : list SObject      (* `json:"records"` *)
}.

Record Token : Type := mkToken {
  Id : string;                (* `json:"id,omitempty"` *)
  IssuedAt : string;          (* `json:"issued_at,omitempty"` *)
  Scope : string;             (* `json:"scope,omitempty"` *)
  Error : string;             (* `json:"error,omitempty"` *)
  ErrorDescription : string;  (* `json:"error_description,omitempty"` *)
  RefreshToken_ : string;     (* `json:"refresh_token,omitempty"` *)
  InstanceUrl : string;       (* `json:"instance_url,omitempty"` *)
  Signature : string;         (* `json:"signature,omitempty"` *)
  AccessToken : string        (* `json:"access_token,omitempty"` *)
}.

(** ** Decoding the response bodies *)

Definition store_SObject (v : Json.value) : result Json.error SObject :=
  match Json.store_map v with
  | Ok m => Ok (mkSObject (default ∅ m) false)
  | Err e => Err e
  end.

Definition store_QueryResult (field : string) (v : Json.value)
    (r : QueryResult) : result Json.error QueryResult :=
  if String.eqb field "totalSize" then
    match Json.store_int (TotalSize r) v with
    | Ok n => Ok (mkQueryResult n (Done r) (NextRecordsURL r) (Records r))
    | Err e => Err e
    end
  else if String.eqb field "done" then
    match Json.store_bool (Done r) v with
    | Ok b => Ok (mkQueryResult (TotalSize r) b (NextRecordsURL r) (Records r))
    | Err e => Err e
    end
  else if String.eqb field "nextRecordsUrl" then
    match Json.store_string (NextRecordsURL r) v with
    | Ok s => Ok (mkQueryResult (TotalSize r) (Done r) s (Records r))
    | Err e => Err e
    end
  else
    match Json.store_slice store_SObject v with
    | Ok l => Ok (mkQueryResult (TotalSize r) (Done r) (NextRecordsURL r) l)
    | Err e => Err e
    end.

(** [json.Unmarshal(data, &result)] for [var result QueryResult]. *)
Definition Unmarshal_QueryResult (data : string)
  : result Json.error QueryResult :=
  Json.Unmarshal
    (Json.store_struct ["totalSize"; "done"; "nextRecordsUrl"; "records"]
       store_QueryResult (mkQueryResult 0 false "" []))
    data.

Definition Token_fields : list string :=
  ["id"; "issued_at"; "scope"; "error"; "error_description";
   "refresh_token"; "instance_url"; "signature"; "access_token"].

Definition Token_get (t : Token) (field : string) : string :=
  if String.eqb field "id" then Id t
  else if String.eqb field "issued_at" then IssuedAt t
  else if String.eqb field "scope" then Scope t
  else if String.eqb field "error" then Error t
  else if String.eqb field "error_description" then ErrorDescription t
  else if String.eqb field "refresh_token" then RefreshToken_ t
  else if String.eqb field "instance_url" then InstanceUrl t
  else if String.eqb field "signature" then Signature t
  else AccessToken t.

Definition Token_set (t : Token) (field s : string) : Token :=
  let pick f := if String.eqb field f then s else Token_get t f in
  mkToken (pick "id") (pick "issued_at") (pick "scope") (pick "error")
    (pick "error_description") (pick "refresh_token") (pick "instance_url")
    (pick "signature") (pick "access_token").

Definition store_Token (field : string) (v : Json.value) (t : Token)
  : result Json.error Token :=
  match Json.store_string (Token_get t field) v with
  | Ok s => Ok (Token_set t field s)
  | Err e => Err e
  end.

(** [json.Unmarshal(data, token)] for [token := new(Token)]. *)
Definition Unmarshal_Token (data : string) : result Json.error Token :=
  Json.Unmarshal
    (Json.store_struct Token_fields store_Token
       (mkToken "" "" "" "" "" "" "" "" ""))
    data.

(** [json.Unmarshal(respData, &sobj)] for [var sobj SObject]. *)
Definition Unmarshal_SObject (data : string) : result Json.error SObject :=
  Json.Unmarshal store_SObject data.

(** ** The world outside the process *)

Record Request : Type := mkRequest {
  Method : string;
  URL : string;
  Header : list (string * string);   (* in the order of Header.Add *)
  ReqBody : string
}.

(** A response: its status, the bytes of the body that arrive, and the
    error that ends the reading of the body, if any. *)
Record Response : Type := mkResponse {
  StatusCode : Z;
  RespBody : string;
  ReadError : option string
}.

(** What a single fetch [client.SObject(name).Get(id)] comes back with. *)
Definition GetResult : Type := option SObject * option error.

(** The environment of a run.
    - [url_Parse_ok u]: [net/url.Parse] accepts [u], so that
      [http.NewRequest] succeeds for a method that is a token;
    - [Do sent req]: what [httpClient.Do(req)] answers after the requests
      [sent], a response or the text of a transport error;
    - [SObject_Get c name i id]: the result of the fetch of [id] started
      as the [i]-th task of a batch on client [c] (the method is not part
      of the sources at hand, and neither are the requests it sends:
      they are not recorded in [sent]);
    - [schedule n]: the order in which the [n] tasks of a batch finish. *)
Record Env : Type := mkEnv {
  url_Parse_ok : string -> bool;
  Do : list Request -> Request -> result string Response;
  SObject_Get : Client -> string -> nat -> string -> GetResult;
  schedule : nat -> list nat
}.

(** The state a method call works on: the client behind the receiver
    pointer and the requests that went out so far through the calls of
    [httpClient.Do] in the sources at hand. *)
Record State : Type := mkState {
  client : Client;
  sent : list Request
}.

(** A method call: from a state to what it produces and the state it
    leaves. *)
Definition M (A : Type) : Type := State -> outcome A * State.

Definition ret {A} (a : A) : M A := fun st => (Returns a, st).

Definition bind {A B} (m : M A) (k : A -> M B) : M B :=
  fun st =>
    match m st with
    | (Returns a, st') => k a st'
    | (Panics p, st') => (Panics p, st')
    end.

Notation "'do' x <- m ; k" := (bind m (fun x => k))
  (at level 10, x name, m at level 100, k at level 200).
Notation "'do' ' pat <- m ; k" :=
  (bind m (fun x => match x with pat => k end))
  (at level 10, pat pattern, m at level 100, k at level 200).

Definition lift {A} (o : outcome A) : M A := fun st => (o, st).

Definition getClient : M Client := fun st => (Returns (client st), st).

Definition putClient (c : Client) : M unit :=
  fun st => (Returns tt, mkState c (sent st)).

(** [httpClient.Do(req)]: the request goes out. *)
Definition httpClient_Do (env : Env) (req : Request)
  : M (result string Response) :=
  fun st => (Returns (Do env (sent st) req), mkState (client st) (sent st ++ [req])).

(** [httpguts.IsTokenRune] on a byte: the characters of an HTTP token.
    A rune outside ASCII is no token character, and each of its bytes is
    above 127, so a string is made of token runes exactly when it is made
    of token bytes. *)
Definition isTokenByte (c : ascii) : bool :=
  Byte8.is_alpha c || Byte8.is_digit c
  || existsb (Byte8.eqb c) (list_ascii_of_string "!#$%&'*+-.^_`|~").

(** [validMethod] of [net/http]: a method is a non-empty token. *)
Definition validMethod (method : string) : bool :=
  (0 <? String.length method)%nat
  && forallb isTokenByte (list_ascii_of_string method).

(** The method a request is made with: the empty method stands for GET. *)
Definition request_method (method : string) : string :=
  if String.eqb method "" then "GET" else method.

(** [http.NewRequest(method, url, body)]: the method is checked first,
    then the URL is parsed.  The text of the error for a method that is
    no token is the library's without the quoting of the method. *)
Definition http_NewRequest (env : Env) (method url body : string)
  : result error Request :=
  let method := request_method method in
  if negb (validMethod method) then
    Err (LibraryError ("net/http: invalid method " +:+ method))
  else if url_Parse_ok env url then Ok (mkRequest method url [] body)
  else Err (LibraryError ("parse " +:+ url)).

Definition Header_Add (req : Request) (key value : string) : Request :=
  mkRequest (Method req) (URL req) (Header req ++ [(key, value)]) (ReqBody req).

(** [ioutil.ReadAll(resp.Body)]. *)
Definition ioutil_ReadAll (resp : Response) : result error string :=
  match ReadError resp with
  | None => Ok (RespBody resp)
  | Some text => Err (LibraryError text)
  end.

(** [buf.ReadFrom(resp.Body)] followed by [buf.Bytes()]: the error of
    the read is dropped. *)
Definition buf_ReadFrom (resp : Response) : string := RespBody resp.

Definition StatusInternalServerError : Z := 500.
Definition StatusBadRequest : Z := 400.

Definition outside_2xx (status : Z) : bool :=
  (status <? 200) || (299 <? status).

(** ** Methods of [Client] *)

Definition GetSid : M string := do c <- getClient; ret (sessionID c).

Definition GetLoc : M string := do c <- getClient; ret (instanceURL c).

Definition SetSidLoc (sid loc : string) : M unit :=
  do c <- getClient;
  putClient (mkClient sid (user c) (clientID c) (apiVersion c) (baseURL c)
               loc (useToolingAPI c)).

Definition isLoggedIn (c : Client) : bool := negb (String.eqb (sessionID c) "").

Definition NewClient (url clientID apiVersion : string) : Client :=
  let baseURL :=
    if negb (Strings.HasSuffix url "/") then url +:+ "/" else url in
  mkClient "" (mkUser "" "" "" "") clientID apiVersion baseURL "" false.

(** [httpRequest] executes an HTTP request and returns the response data
    with the status code. *)
Definition httpRequest (env : Env) (method url body : string)
  : M (string * Z * option error) :=
  match http_NewRequest env method url body with
  | Err err => ret ("", StatusInternalServerError, Some err)
  | Ok req =>
      do c <- getClient;
      let req := Header_Add req "Authorization"
                   (Fmt.Sprintf "Bearer %s" [sessionID c]) in
      let req := Header_Add req "Content-Type" "application/json" in
      do r <- httpClient_Do env req;
      match r with
      | Err text => ret ("", StatusBadRequest, Some (LibraryError text))
      | Ok resp =>
          if outside_2xx (StatusCode resp) then
            do theError <-
              lift (ParseSalesforceError (StatusCode resp) (buf_ReadFrom resp));
            ret ("", StatusCode resp, Some theError)
          else
            match ioutil_ReadAll resp with
            | Err _ => ret ("", StatusInternalServerError, Some ERR_FAILURE)
            | Ok rBody => ret (rBody, StatusCode resp, None)
            end
      end
  end.

(** The URL [Query] asks for: [q] is either the nextRecordsURL or a SOQL
    string. *)
Definition Query_url (c : Client) (q : string) : string :=
  if Strings.HasPrefix q "/services/data" then
    Fmt.Sprintf "%s%s" [instanceURL c; q]
  else
    let formatString := "%s/services/data/v%s/query?q=%s" in
    let baseURL := instanceURL c in
    let formatString :=
      if useToolingAPI c
      then Strings.Replace formatString "query" "tooling/query" (-1)
      else formatString in
    Fmt.Sprintf formatString [baseURL; apiVersion c; Url.PathEscape q].

(** [Query] runs an SOQL query. *)
Definition Query (env : Env) (q : string)
  : M (option QueryResult * option error) :=
  do c <- getClient;
  if negb (isLoggedIn c) then ret (None, Some ERR_AUTHENTICATION)
  else
    let u := Query_url c q in
    do '(data, code, err) <- httpRequest env "GET" u "";
    match err with
    | Some e => ret (None, Some e)
    | None =>
        if RetryLogic code then ret (None, Some ERR_RETRY)
        else
          match Unmarshal_QueryResult data with
          | Err _ => ret (None, Some ERR_FAILURE)
          | Ok result =>
              ret (Some (mkQueryResult (TotalSize result) (Done result)
                           (NextRecordsURL result)
                           (map SObject_setClient (Records result))),
                   None)
          end
    end.

(** [makeURL] generates a REST API URL; it stores the version without
    its "v"s back into the client. *)
Definition makeURL (req : string) : M string :=
  do c <- getClient;
  let c := mkClient (sessionID c) (user c) (clientID c)
             (Strings.Replace (apiVersion c) "v" "" (-1))
             (baseURL c) (instanceURL c) (useToolingAPI c) in
  do _ <- putClient c;
  ret (Fmt.Sprintf "%s/services/data/v%s/%s" [instanceURL c; apiVersion c; req]).

(** ** Batch fetch *)

(** The dynamic type named by a failed type assertion. *)
Definition go_type (v : Json.value) : string :=
  match v with
  | Json.Null => "nil"
  | Json.Bool _ => "bool"
  | Json.Number _ => "float64"
  | Json.Str _ => "string"
  | Json.Array _ => "[]interface {}"
  | Json.Object _ => "map[string]interface {}"
  end.

(** The assertions [id.(string)] of the loop, made one after the other
    when the tasks are started. *)
Fixpoint assert_strings (ids : list Json.value) : outcome (list string) :=
  match ids with
  | [] => Returns []
  | Json.Str s :: ids' =>
      match assert_strings ids' with
      | Returns l => Returns (s :: l)
      | Panics p => Panics p
      end
  | v :: _ => Panics (InterfaceConversion (go_type v))
  end.

(** Task [i] of the batch ends: [sobjs[i] = sobj] when its fetch gave no
    error. *)
Definition task_write (env : Env) (c : Client) (name : string)
    (ids : list string) (sobjs : list (option SObject)) (i : nat)
  : list (option SObject) :=
  match ids !! i with
  | Some id =>
      match SObject_Get env c name i id with
      | (sobj, None) => <[i := sobj]> sobjs
      | (_, Some _) => sobjs
      end
  | None => sobjs
  end.

(** The tasks of the batch, all started before any result is read
    ([wg.Wait]), ending in the order the environment chooses. *)
Definition run_tasks (env : Env) (c : Client) (name : string)
    (ids : list string) : list (option SObject) :=
  foldl (task_write env c name ids)
        (replicate (length ids) None)
        (schedule env (length ids)).

Definition GetCreatedUpdatedRecords (env : Env)
    (name startDateTime endDateTime : string)
  : M (list (option SObject) * option error) :=
  do c <- getClient;
  if negb (isLoggedIn c) then ret ([], Some ERR_AUTHENTICATION)
  else
    let formatString := "sobjects/%s/updated/?start=%s&end=%s" in
    do baseURL <- makeURL formatString;
    let url := Fmt.Sprintf baseURL
                 [name; Url.QueryEscape startDateTime;
                  Url.QueryEscape endDateTime] in
    match http_NewRequest env "GET" url "" with
    | Err _ => ret ([], Some ERR_FAILURE)
    | Ok req =>
        do c <- getClient;
        let req := Header_Add req "Content-Type"
                     "application/json; charset=UTF-8" in
        let req := Header_Add req "Accept" "application/json" in
        let req := Header_Add req "Authorization"
                     ("Bearer " +:+ sessionID c) in
        do r <- httpClient_Do env req;
        match r with
        | Err _ => lift (Panics NilDereference)   (* resp.StatusCode, resp nil *)
        | Ok resp =>
            if outside_2xx (StatusCode resp) then
              do theError <-
                lift (ParseSalesforceError (StatusCode resp) (buf_ReadFrom resp));
              ret ([], Some theError)
            else if RetryLogic (StatusCode resp) then ret ([], Some ERR_RETRY)
            else
              match ioutil_ReadAll resp with
              | Err _ => ret ([], Some ERR_FAILURE)
              | Ok respData =>
                  match Unmarshal_SObject respData with
                  | Err _ => ret ([], Some ERR_FAILURE)
                  | Ok sobj =>
                      match fields sobj !! "ids" with
                      | None => ret ([], Some ERR_FAILURE)
                      | Some (Json.Array sobjIds) =>
                          if (0 <? length sobjIds)%nat then
                            do ids <- lift (assert_strings sobjIds);
                            ret (run_tasks env c name ids, None)
                          else ret ([], None)
                      | Some _ => ret ([], Some ERR_FAILURE)
                      end
                  end
              end
        end
    end.

(** ** OAuth token calls *)

Definition RefreshToken (env : Env) (clientId clientSecret refreshToken : string)
  : M (option Token * option error) :=
  let formatString := "services/oauth2/token" in
  do baseURL <- makeURL formatString;
  let params : Url.Values :=
    [("format", ["json"]);
     ("grant_type", ["refresh_token"]);
     ("client_id", [clientId]);
     ("client_secret", [clientSecret]);
     ("refresh_token", [refreshToken])] in
  match http_NewRequest env "POST" baseURL (Url.Encode params) with
  | Err _ => ret (None, Some ERR_FAILURE)
  | Ok req =>
      let req := Header_Add req "Accept" "application/json" in
      let req := Header_Add req "Content-Type"
                   "application/x-www-form-urlencoded" in
      do r <- httpClient_Do env req;
      match r with
      | Err text => ret (None, Some (LibraryError text))
      | Ok resp =>
          if outside_2xx (StatusCode resp) then
            do theError <-
              lift (ParseSalesforceError (StatusCode resp) (buf_ReadFrom resp));
            ret (None, Some theError)
          else
            match ioutil_ReadAll resp with
            | Err err => ret (None, Some err)
            | Ok data =>
                match Unmarshal_Token data with
                | Err unmarshalErr => ret (None, Some (JsonError unmarshalErr))
                | Ok token => ret (Some token, None)
                end
            end
      end
  end.

Definition RevokeToken (env : Env) (refreshToken : string) : M (option error) :=
  let formatString := "services/oauth2/revoke" in
  do baseURL <- makeURL formatString;
  let params : Url.Values := [("token", [refreshToken])] in
  match http_NewRequest env "POST" baseURL (Url.Encode params) with
  | Err _ => ret (Some ERR_FAILURE)
  | Ok req =>
      let req := Header_Add req "Accept" "application/json" in
      let req := Header_Add req "Content-Type"
                   "application/x-www-form-urlencoded" in
      do r <- httpClient_Do env req;
      match r with
      | Err text => ret (Some (LibraryError text))
      | Ok resp =>
          if outside_2xx (StatusCode resp) then
            do theError <-
              lift (ParseSalesforceError (StatusCode resp) (buf_ReadFrom resp));
            ret (Some theError)
          else ret None
      end
  end.

(** A body written with single quotes where the document has double
    quotes. *)
Fixpoint dq (s : string) : string :=
  match s with
  | EmptyString => EmptyString
  | String c s' => String (if Ascii.eqb c "'" then Byte8.quote else c) (dq s')
  end.

(** * The rest of the client file *)

(** [SfdcError.Error]: the text of the error is its message. *)
Definition SfdcError_Error (se : SfdcError) : string := Message se.

(** ** Package [html] *)

Module Html.
Import Byte8.

(** [html.EscapeString]: the five bytes that matter in markup are
    replaced by character references. *)
Fixpoint EscapeString (s : string) : string :=
  match s with
  | EmptyString => ""
  | String c s' =>
      if eqb c "&" then "&amp;" +:+ EscapeString s'
      else if eqb c "'" then "&#39;" +:+ EscapeString s'
      else if eqb c "<" then "&lt;" +:+ EscapeString s'
      else if eqb c ">" then "&gt;" +:+ EscapeString s'
      else if eqb c quote then "&#34;" +:+ EscapeString s'
      else String c (EscapeString s')
  end.

End Html.

(** ** Package [net/textproto] *)

Module Textproto.
Import Byte8.

(** The bytes of a header field name (the token characters of HTTP). *)
Definition validHeaderFieldByte (c : ascii) : bool :=
  is_alpha c || is_digit c
  || existsb (eqb c) (list_ascii_of_string "!#$%&'*+-.^_`|~").

Definition to_lower (c : ascii) : ascii :=
  if is_upper c then chr (code c + 32) else c.

(** Upper case for the first letter and for a letter after a dash, lower
    case for the other letters. *)
Fixpoint canonical (upper : bool) (s : string) : string :=
  match s with
  | EmptyString => ""
  | String c s' =>
      let c' := if upper then to_upper c else to_lower c in
      String c' (canonical (eqb c' "-") s')
  end.

(** [textproto.CanonicalMIMEHeaderKey], the form under which
    [Header.Add] files a key: a key with a byte that no field name has is
    left as it is. *)
Definition CanonicalMIMEHeaderKey (s : string) : string :=
  if forallb validHeaderFieldByte (list_ascii_of_string s)
  then canonical true s else s.

End Textproto.

(** [req.Header.Add(key, value)] for a key written in any case. *)
Definition Header_Add_key (req : Request) (key value : string) : Request :=
  Header_Add req (Textproto.CanonicalMIMEHeaderKey key) value.

(** [strings.TrimRight(s, cutset)] for a cutset of one ASCII byte [c]
    (the library's [trimRightByte]): the bytes [c] at the end of [s] are
    dropped. *)
Fixpoint trimRightByte (s : string) (c : ascii) : string :=
  match s with
  | EmptyString => ""
  | String a s' =>
      match trimRightByte s' c with
      | EmptyString => if Ascii.eqb a c then "" else String a ""
      | t => String a t
      end
  end.

(** ** Login *)

(** The envelope [LoginPassword] posts, with its four places. *)
Definition soapBody_format : string :=
  dq "<?xml version='1.0' encoding='utf-8' ?>
        <env:Envelope
                xmlns:xsd='http://www.w3.org/2001/XMLSchema'
                xmlns:xsi='http://www.w3.org/2001/XMLSchema-instance'
                xmlns:env='http://schemas.xmlsoap.org/soap/envelope/'
                xmlns:urn='urn:partner.soap.sforce.com'>
            <env:Header>
                <urn:CallOptions>
                    <urn:client>%s</urn:client>
                    <urn:defaultNamespace>sf</urn:defaultNamespace>
                </urn:CallOptions>
            </env:Header>
            <env:Body>
                <n1:login xmlns:n1='urn:partner.soap.sforce.com'>
                    <n1:username>%s</n1:username>
                    <n1:password>%s%s</n1:password>
                </n1:login>
            </env:Body>
        </env:Envelope>".

(** The local struct [loginResponse]; its [XMLName] field, tagged
    [`xml:"Envelope"`], makes the decoder refuse a root element with
    another local name. *)
Record loginResponse : Type := mkLoginResponse {
  lr_ServerURL : string;     (* `xml:"Body>loginResponse>result>serverUrl"` *)
  lr_SessionID : string;     (* `xml:"Body>loginResponse>result>sessionId"` *)
  lr_UserID : string;        (* `xml:"Body>loginResponse>result>userId"` *)
  lr_UserEmail : string;     (* `xml:"Body>loginResponse>result>userInfo>userEmail"` *)
  lr_UserFullName : string;  (* `xml:"Body>loginResponse>result>userInfo>userFullName"` *)
  lr_UserName : string       (* `xml:"Body>loginResponse>result>userInfo>userName"` *)
}.

Definition loginResponse_fields : list (list string) :=
  map (app ["Body"; "loginResponse"; "result"])
    [["serverUrl"]; ["sessionId"]; ["userId"];
     ["userInfo"; "userEmail"]; ["userInfo"; "userFullName"];
     ["userInfo"; "userName"]].

(** The errors of [xml.Unmarshal] into a struct with an [XMLName]. *)
Inductive xml_unmarshal_error : Type :=
| XmlError (e : Xml.error)
| UnexpectedRoot (expected have : string).  (* expected element type <..> but have <..> *)

(** The decoder of [Xml] with the check of the root's local name, made
    when the start tag of the root has been read to its end. *)
Fixpoint xml_run_named (rootName : string) (fields : list (list string))
    (st : Xml.xstate) (cx : Xml.context) (s : string)
  : result xml_unmarshal_error (list string) :=
  match s with
  | EmptyString =>
      match Xml.at_end st cx with
      | Ok values => Ok values
      | Err e => Err (XmlError e)
      end
  | String c s' =>
      match Xml.step fields st cx c with
      | Xml.Continue st' cx' =>
          match Xml.stack cx, Xml.stack cx' with
          | [], [nm] =>
              if String.eqb nm.2 rootName
              then xml_run_named rootName fields st' cx' s'
              else Err (UnexpectedRoot rootName nm.2)
          | _, _ => xml_run_named rootName fields st' cx' s'
          end
      | Xml.Stop (Err e) => Err (XmlError e)
      | Xml.Stop (Ok values) =>
          match st, Xml.stack cx with
          | Xml.XTagSlash el, [] =>
              if String.eqb el.2 rootName then Ok values
              else Err (UnexpectedRoot rootName el.2)
          | _, _ => Ok values
          end
      end
  end.

(** [xml.Unmarshal(respData, &loginResponse)]. *)
Definition Unmarshal_loginResponse (data : string)
  : result xml_unmarshal_error loginResponse :=
  match xml_run_named "Envelope" loginResponse_fields Xml.between_tokens
          (Xml.Context [] (map (fun _ => "") loginResponse_fields) "") data with
  | Ok values =>
      Ok (mkLoginResponse (nth 0 values "") (nth 1 values "") (nth 2 values "")
            (nth 3 values "") (nth 4 values "") (nth 5 values ""))
  | Err e => Err e
  end.

(** [parseHost]: scheme and host of the URL; [url_parts] gives the
    [Scheme] and the [Host] that [net/url.Parse] finds in a URL it
    accepts. *)
Definition parseHost (env : Env) (url_parts : string -> string * string)
    (input : string) : string :=
  if url_Parse_ok env input then
    Fmt.Sprintf "%s://%s" [(url_parts input).1; (url_parts input).2]
  else "Failed to parse URL input".

(** What [LoginPassword] returns: an [error] of the kinds above, or the
    error of the XML decoder. *)
Inductive login_error : Type :=
| LoginError (e : error)
| LoginXmlError (e : xml_unmarshal_error).

(** [LoginPassword] signs into salesforce using password. *)
Definition LoginPassword (env : Env) (url_parts : string -> string * string)
    (username password token : string) : M (option login_error) :=
  do c <- getClient;
  let soapBody :=
    Fmt.Sprintf soapBody_format
      [clientID c; username; Html.EscapeString password; token] in
  let url := Fmt.Sprintf "%s/services/Soap/u/%s" [baseURL c; apiVersion c] in
  match http_NewRequest env "POST" url soapBody with
  | Err err => ret (Some (LoginError err))
  | Ok req =>
      let req := Header_Add_key req "Content-Type" "text/xml" in
      let req := Header_Add_key req "charset" "UTF-8" in
      let req := Header_Add_key req "SOAPAction" "login" in
      do r <- httpClient_Do env req;
      match r with
      | Err text => ret (Some (LoginError (LibraryError text)))
      | Ok resp =>
          if negb (StatusCode resp =? 200) then
            do theError <-
              lift (ParseSalesforceError (StatusCode resp) (buf_ReadFrom resp));
            ret (Some (LoginError theError))
          else
            (* the error of ioutil.ReadAll is logged, the bytes read are used *)
            let respData := RespBody resp in
            match Unmarshal_loginResponse respData with
            | Err err => ret (Some (LoginXmlError err))
            | Ok loginResponse =>
                do _ <- putClient
                  (mkClient (lr_SessionID loginResponse)
                     (mkUser (lr_UserID loginResponse) (lr_UserName loginResponse)
                        (lr_UserFullName loginResponse) (lr_UserEmail loginResponse))
                     (clientID c) (apiVersion c) (baseURL c)
                     (parseHost env url_parts (lr_ServerURL loginResponse))
                     (useToolingAPI c));
                ret None
            end
      end
  end.

(** ** File download *)

(** [DownloadFile] saves the body of the answer to [filepath].  The files
    of the machine are a map from paths to contents; [create_ok path]
    tells whether [os.Create] can create or truncate the file; writes to
    a created file succeed.  The error of [http.NewRequest] is not
    looked at before the request is used. *)
Definition DownloadFile (env : Env) (create_ok : string -> bool)
    (contentVersionID filepath : string)
    (st : State) (files : gmap string string)
  : outcome (option error) * State * gmap string string :=
  let c := client st in
  let apiPath :=
    Fmt.Sprintf "/services/data/v%s/sobjects/ContentVersion/%s/VersionData"
      [apiVersion c; contentVersionID] in
  let baseURL := trimRightByte (baseURL c) "/" in
  let url := Fmt.Sprintf "%s%s" [baseURL; apiPath] in
  match http_NewRequest env "GET" url "" with
  | Err _ => (Panics NilDereference, st, files)   (* req.Header, req nil *)
  | Ok req =>
      let req := Header_Add req "Content-Type"
                   "application/json; charset=UTF-8" in
      let req := Header_Add req "Accept" "application/json" in
      let req := Header_Add req "Authorization" ("Bearer " +:+ sessionID c) in
      match httpClient_Do env req st with
      | (Panics p, st') => (Panics p, st', files)
      | (Returns (Err text), st') =>
          (Returns (Some (LibraryError text)), st', files)
      | (Returns (Ok resp), st') =>
          if create_ok filepath then
            (* io.Copy: the bytes that arrive are written, the error of
               the read is returned *)
            (Returns (LibraryError <$> ReadError resp), st',
             <[filepath := RespBody resp]> files)
          else
            (Returns (Some (LibraryError ("open " +:+ filepath))), st', files)
      end
  end.

(** * Vocabulary of the statements *)

(** The decoded elements of a body that is a JSON array of objects, each
    made of a "message" and an "errorCode" string member. *)
Definition error_object (it : jsonErrorItem) : Json.value :=
  Json.Object [("message", Json.Str (je_Message it));
               ("errorCode", Json.Str (je_ErrorCode it))].

(** The request [httpRequest] sends. *)
Definition authorized_request (c : Client) (method url body : string) : Request :=
  mkRequest method url
    [("Authorization", "Bearer " +:+ sessionID c);
     ("Content-Type", "application/json")]
    body.

(** What a call of the classifier inside a method amounts to. *)
Definition classified {A} (statusCode : Z) (body : string) (k : error -> A)
  : outcome A :=
  match ParseSalesforceError statusCode body with
  | Returns e => Returns (k e)
  | Panics p => Panics p
  end.

(** [s] without the bytes equal to [b]. *)
Fixpoint without_byte (b : ascii) (s : string) : string :=
  match s with
  | EmptyString => ""
  | String c s' =>
      if Ascii.eqb b c then without_byte b s'
      else String c (without_byte b s')
  end.

Fixpoint has_byte (b : ascii) (s : string) : bool :=
  match s with
  | EmptyString => false
  | String c s' => Ascii.eqb b c || has_byte b s'
  end.

(** [sub] occurs in [s]. *)
Fixpoint contains (sub s : string) : bool :=
  String.prefix sub s
  || match s with
     | EmptyString => false
     | String _ s' => contains sub s'
     end.

(** The client [makeURL] leaves behind. *)
Definition normalized (c : Client) : Client :=
  mkClient (sessionID c) (user c) (clientID c)
    (without_byte "v" (apiVersion c))
    (baseURL c) (instanceURL c) (useToolingAPI c).

(** The form [RefreshToken] posts. *)
Definition refresh_form (clientId clientSecret refreshToken : string) : string :=
  "client_id=" +:+ Url.QueryEscape clientId
  +:+ "&client_secret=" +:+ Url.QueryEscape clientSecret
  +:+ "&format=json&grant_type=refresh_token&refresh_token="
  +:+ Url.QueryEscape refreshToken.

(** The request [RefreshToken] sends: the token path comes after the
    versioned REST prefix that [makeURL] puts in front of every path. *)
Definition refresh_request (c : Client) (clientId clientSecret refreshToken : string)
  : Request :=
  mkRequest "POST"
    (instanceURL c +:+ "/services/data/v" +:+ without_byte "v" (apiVersion c)
     +:+ "/services/oauth2/token")
    [("Accept", "application/json");
     ("Content-Type", "application/x-www-form-urlencoded")]
    (refresh_form clientId clientSecret refreshToken).

(** What task [i] writes into its slot, if it writes. *)
Definition written (env : Env) (c : Client) (name : string)
    (ids : list string) (i : nat) : option (option SObject) :=
  match ids !! i with
  | Some id =>
      match SObject_Get env c name i id with
      | (sobj, None) => Some sobj
      | (_, Some _) => None
      end
  | None => None
  end.

(** The request [GetCreatedUpdatedRecords] sends. *)
Definition updated_request (c : Client) (name startDateTime endDateTime : string)
  : Request :=
  mkRequest "GET"
    (Fmt.Sprintf
       (instanceURL c +:+ "/services/data/v" +:+ without_byte "v" (apiVersion c)
        +:+ "/" +:+ "sobjects/%s/updated/?start=%s&end=%s")
       [name; Url.QueryEscape startDateTime; Url.QueryEscape endDateTime])
    [("Content-Type", "application/json; charset=UTF-8");
     ("Accept", "application/json");
     ("Authorization", "Bearer " +:+ sessionID c)]
    "".

(** A client made by [NewClient] with the defaults and given a session
    by [SetSidLoc]. *)
Definition example_state : State :=
  (SetSidLoc "00Dxx0000001gPL!AR8AQ" "https://na1.salesforce.com"
     (mkState (NewClient DefaultURL DefaultClientID DefaultAPIVersion) [])).2.

(** A server that answers every request with [resp]; the fetch of the
    record "B" fails, the other fetches succeed; the tasks of a batch end
    in the reverse of the order they were started in. *)
Definition answering (resp : Response) : Env :=
  {| url_Parse_ok := fun _ => true;
     Do := fun _ _ => Ok resp;
     SObject_Get := fun _ _ _ id =>
       if String.eqb id "B" then (None, Some ERR_DATA_NOT_FOUND)
       else (Some (mkSObject {[ "Id" := Json.Str id ]} true), None);
     schedule := fun n => rev (seq 0 n) |}.

Definition unavailable : Response :=
  mkResponse 503
    (dq "[{'message':'Service Unavailable','errorCode':'SERVER_UNAVAILABLE'}]")
    None.

(** The body of a failed SOAP call. *)
Definition soap_fault : string :=
  dq ("<?xml version='1.0' encoding='UTF-8'?>"
      +:+ "<soapenv:Envelope xmlns:soapenv='http://schemas.xmlsoap.org/soap/envelope/'"
      +:+ " xmlns:sf='urn:fault.partner.soap.sforce.com'>"
      +:+ "<soapenv:Body><soapenv:Fault>"
      +:+ "<faultcode>sf:INVALID_LOGIN</faultcode>"
      +:+ "<faultstring>INVALID_LOGIN: Invalid username, password &amp; token</faultstring>"
      +:+ "<detail><sf:LoginFault/></detail>"
      +:+ "</soapenv:Fault></soapenv:Body></soapenv:Envelope>").

Definition token_response : Response :=
  mkResponse 200
    (dq "{'access_token':'00Dxx!new','instance_url':'https://na1.salesforce.com','token_type':'Bearer','issued_at':'1700000000000'}")
    None.

Definition updated_response : Response :=
  mkResponse 200
    (dq "{'ids':['A','B','C'],'latestDateCovered':'2024-01-02T00:00:00.000+0000'}")
    None.

(** The request [LoginPassword] sends. *)
Definition login_request (c : Client) (username password token : string) : Request :=
  mkRequest "POST"
    (baseURL c +:+ "/services/Soap/u/" +:+ apiVersion c)
    [("Content-Type", "text/xml"); ("Charset", "UTF-8"); ("Soapaction", "login")]
    (Fmt.Sprintf soapBody_format
       [clientID c; username; Html.EscapeString password; token]).

(** The client after a login that read [r] from the answer. *)
Definition logged_in (env : Env) (url_parts : string -> string * string)
    (c : Client) (r : loginResponse) : Client :=
  mkClient (lr_SessionID r)
    (mkUser (lr_UserID r) (lr_UserName r) (lr_UserFullName r) (lr_UserEmail r))
    (clientID c) (apiVersion c) (baseURL c)
    (parseHost env url_parts (lr_ServerURL r))
    (useToolingAPI c).

(** The request [RevokeToken] sends. *)
Definition revoke_request (c : Client) (refreshToken : string) : Request :=
  mkRequest "POST"
    (instanceURL c +:+ "/services/data/v" +:+ without_byte "v" (apiVersion c)
     +:+ "/services/oauth2/revoke")
    [("Accept", "application/json");
     ("Content-Type", "application/x-www-form-urlencoded")]
    ("token=" +:+ Url.QueryEscape refreshToken).

(** The request [DownloadFile] sends. *)
Definition download_request (c : Client) (contentVersionID : string) : Request :=
  mkRequest "GET"
    (trimRightByte (baseURL c) "/" +:+ "/services/data/v" +:+ apiVersion c
     +:+ "/sobjects/ContentVersion/" +:+ contentVersionID +:+ "/VersionData")
    [("Content-Type", "application/json; charset=UTF-8");
     ("Accept", "application/json");
     ("Authorization", "Bearer " +:+ sessionID c)]
    "".

(** An error has the shape of a classified remote error: code, message
    and the status code under "StatusCode". *)
Definition is_classified (e : error) : Prop :=
  exists code msg statusCode,
    e = SfdcErr {| Code := code; Message := msg; Extra := statusExtra statusCode |}.

(** The answer to a login: the envelope of a successful one. *)
Definition login_response : Response :=
  mkResponse 200
    (dq ("<?xml version='1.0' encoding='UTF-8'?>"
         +:+ "<soapenv:Envelope xmlns:soapenv='http://schemas.xmlsoap.org/soap/envelope/'"
         +:+ " xmlns='urn:partner.soap.sforce.com'><soapenv:Body><loginResponse><result>"
         +:+ "<serverUrl>https://na1.salesforce.com/services/Soap/u/43.0/00Dxx</serverUrl>"
         +:+ "<sessionId>00Dxx!AQ4</sessionId><userId>005xx</userId>"
         +:+ "<userInfo><userEmail>ada@example.com</userEmail>"
         +:+ "<userFullName>Ada L</userFullName><userName>ada@example.com</userName>"
         +:+ "</userInfo></result></loginResponse></soapenv:Body></soapenv:Envelope>"))
    None.

(** [net/url.Parse] on the server URL of [login_response]. *)
Definition example_parts (input : string) : string * string :=
  ("https", "na1.salesforce.com").

Definition not_found : Response :=
  mkResponse 404
    (dq "[{'errorCode':'NOT_FOUND','message':'The requested resource does not exist'}]")
    None.

(** A server that cannot be reached: every request ends in the
    transport error [text]. *)
Definition failing (text : string) : Env :=
  {| url_Parse_ok := fun _ => true;
     Do := fun _ _ => Err text;
     SObject_Get := fun _ _ _ _ => (None, Some ERR_FAILURE);
     schedule := fun n => seq 0 n |}.

(** An environment in which no URL is accepted. *)
Definition refusing : Env :=
  {| url_Parse_ok := fun _ => false;
     Do := fun _ _ => Err "unreachable";
     SObject_Get := fun _ _ _ _ => (None, Some ERR_FAILURE);
     schedule := fun n => seq 0 n |}.

(** What the batch call makes of the body of an answer in the success
    range that was read to its end. *)
Definition updated_outcome (env : Env) (c : Client) (name body : string)
  : outcome (list (option SObject) * option error) :=
  match Unmarshal_SObject body with
  | Err _ => Returns ([], Some ERR_FAILURE)
  | Ok sobj =>
      match fields sobj !! "ids" with
      | Some (Json.Array sobjIds) =>
          match assert_strings sobjIds with
          | Returns ids => Returns (run_tasks env c name ids, None)
          | Panics p => Panics p
          end
      | _ => Returns ([], Some ERR_FAILURE)
      end
  end.

Definition mixed_ids_response : Response :=
  mkResponse 200 (dq "{'ids':['A',7,'C']}") None.

Definition no_ids_response : Response :=
  mkResponse 200 (dq "{'latestDateCovered':'2024-01-02T00:00:00.000+0000'}") None.

(** The answer to a refused login. *)
Definition login_fault : Response := mkResponse 500 soap_fault None.

(** * Properties *)

(** ** Strings *)

Lemma append_empty_r (s : string) : s +:+ "" = s.
Proof. induction s as [|c s IH]; [reflexivity|]. cbv [String.app] in *. simpl. by rewrite IH. Qed.

Lemma append_cons (c : ascii) (s t : string) :
  String c s +:+ t = String c (s +:+ t).
Proof. reflexivity. Qed.

Lemma append_assoc (s t u : string) : (s +:+ t) +:+ u = s +:+ (t +:+ u).
Proof.
  induction s as [|c s IH]; [reflexivity|].
  rewrite !append_cons. by rewrite IH.
Qed.

Lemma length_append (s t : string) :
  String.length (s +:+ t) = (String.length s + String.length t)%nat.
Proof.
  induction s as [|c s IH]; [reflexivity|].
  rewrite append_cons. cbn [String.length]. by rewrite IH.
Qed.

(** ** The library models on known inputs *)

Example parse_error_array :
  Json.parse (dq " [ {'message' : 'Session expired or invalid', 'errorCode' : 'INVALID_SESSION_ID'} ] ")
  = Some (Json.Array
            [error_object
               (mkJsonErrorItem "Session expired or invalid" "INVALID_SESSION_ID")]).
Proof. by vm_compute. Qed.

Example parse_rejects :
  map Json.parse ["[1,]"; "01"; "[] []"; dq "{'a' 1}"; "tru"; ""; "-"]
  = [None; None; None; None; None; None; None].
Proof. by vm_compute. Qed.

Example parse_escapes :
  Json.parse (dq "['aA\n😀', '\ud83d', 1.5e3, -0, true, null, {}]")
  = Some (Json.Array
            [Json.Str ("aA" +:+ String (Byte8.chr 10) (Utf8.EncodeRune 128512));
             Json.Str Utf8.replacement;
             Json.Number "1.5e3"; Json.Number "-0"; Json.Bool true; Json.Null;
             Json.Object []]).
Proof. by vm_compute. Qed.

Example unmarshal_folds_keys :
  Unmarshal_jsonError (dq "[{'MESSAGE':'m','errorcode':'c','fields':[1]}, null]")
  = Ok [mkJsonErrorItem "m" "c"; mkJsonErrorItem "" ""].
Proof. by vm_compute. Qed.

Example unmarshal_type_errors :
  map Unmarshal_jsonError
    [dq "{'message':'m'}"; dq "[{'message':5}]"; "[1]"; "7"; "<a/>"]
  = [Err (Json.UnmarshalTypeError "object");
     Err (Json.UnmarshalTypeError "number");
     Err (Json.UnmarshalTypeError "number");
     Err (Json.UnmarshalTypeError "number");
     Err Json.SyntaxError].
Proof. by vm_compute. Qed.

Example unmarshal_soap_fault :
  Unmarshal_xmlError soap_fault
  = Ok (mkXmlError "INVALID_LOGIN: Invalid username, password & token"
          "sf:INVALID_LOGIN").
Proof. by vm_compute. Qed.

Example unmarshal_xml_rejects :
  map Unmarshal_xmlError
    ["Service Unavailable"; "<a>"; "<a></b>"; "<a>&nbsp;</a>"; "<a b=c/>";
     "<html><body><br></body></html>"; dq "<?xml version='1.1'?><a/>"]
  = [Err Xml.EOF; Err Xml.SyntaxError; Err Xml.SyntaxError; Err Xml.SyntaxError;
     Err Xml.SyntaxError; Err Xml.SyntaxError; Err Xml.BadDeclaration].
Proof. by vm_compute. Qed.

Example escape_examples :
  Url.PathEscape "a/b;c,d?e$&+:=@ ~" = "a%2Fb%3Bc%2Cd%3Fe$&+:=@%20~"
  /\ Url.QueryEscape "a b&c=d/~" = "a+b%26c%3Dd%2F~".
Proof. by vm_compute. Qed.

Example replace_examples :
  Strings.Replace "aaaa" "aa" "b" (-1) = "bb"
  /\ Strings.Replace "aaaa" "a" "b" 2 = "bbaa"
  /\ Strings.Replace "abc" "" "-" (-1) = "-a-b-c-"
  /\ Strings.Replace "v4v3.0v" "v" "" (-1) = "43.0".
Proof. by vm_compute. Qed.

Example sprintf_examples :
  Fmt.Sprintf "%s/services/data/v%s/%s" ["h"; "43.0"; "x"] = "h/services/data/v43.0/x"
  /\ Fmt.Sprintf "100%% %d %s" ["a"] = "100% %!d(string=a) %!s(MISSING)"
  /\ Fmt.Sprintf "%s" ["a"; "b"] = "a%!(EXTRA string=b)".
Proof. by vm_compute. Qed.

(** ** The retry predicate *)

(** The loop over [errorCodes] finds [n] exactly when it is one of the
    three codes. *)
Lemma RetryLogic_true (n : Z) :
  RetryLogic n = true <-> n = 500 \/ n = 503 \/ n = 403.
Proof.
  unfold RetryLogic, errorCodes. cbn [RetryLogic_loop].
  destruct (Z.eqb_spec 500 n), (Z.eqb_spec 503 n), (Z.eqb_spec 403 n);
    split; intros; try lia; try discriminate; auto.
Qed.

Lemma RetryLogic_false (n : Z) :
  n <> 500 -> n <> 503 -> n <> 403 -> RetryLogic n = false.
Proof.
  intros. destruct (RetryLogic n) eqn:E; [|reflexivity].
  apply RetryLogic_true in E. lia.
Qed.

(** C9: [RetryLogic n] is true exactly for 500, 503 and 403; it is false
    for every other integer, zero and the negative ones included. *)
Theorem RetryLogic_iff (n : Z) :
  (RetryLogic n = true <-> n = 500 \/ n = 503 \/ n = 403)
  /\ (n <= 0 -> RetryLogic n = false)
  /\ (n <> 500 -> n <> 503 -> n <> 403 -> RetryLogic n = false).
Proof.
  split; [apply RetryLogic_true|].
  split; [intros; apply RetryLogic_false; lia | apply RetryLogic_false].
Qed.

Lemma RetryLogic_iff_witness :
  -7 <= 0 /\ RetryLogic (-7) = false /\ RetryLogic 404 = false.
Proof.
  split; [lia|].
  split.
  - apply (RetryLogic_iff (-7)); lia.
  - apply (RetryLogic_iff 404); lia.
Defined.

(** ** The error classifier *)

(** Evaluates the decoders on the closed bodies of the goal. *)
Ltac eval_decoder f b :=
  let r := eval vm_compute in (f b) in
  lazymatch r with
  | context [f] => fail
  | _ => idtac
  end;
  let H := fresh "Hdec" in
  assert (H : f b = r) by (vm_compute; reflexivity);
  rewrite !H; clear H.

Ltac eval_decoders :=
  repeat match goal with
    | |- context [Unmarshal_jsonError ?b] => eval_decoder Unmarshal_jsonError b
    | |- context [Unmarshal_xmlError ?b] => eval_decoder Unmarshal_xmlError b
    | |- context [Unmarshal_Token ?b] => eval_decoder Unmarshal_Token b
    | |- context [Json.parse ?b] => eval_decoder Json.parse b
    end.

(** Whatever the classifier returns is an [SfdcError] value: never the
    retry sentinel, never an error of a decoder. *)
Lemma ParseSalesforceError_classified (statusCode : Z) (body : string) (e : error) :
  ParseSalesforceError statusCode body = Returns e ->
  exists se, e = SfdcErr se.
Proof.
  unfold ParseSalesforceError, ERR_FAILURE.
  repeat case_match; intros; simplify_eq; eauto.
Qed.

(** The classifier panics exactly on the bodies that decode to no element
    at all, and then on the index expression [jsonError[0]]. *)
Lemma ParseSalesforceError_panics_iff (statusCode : Z) (body : string) (p : panic) :
  ParseSalesforceError statusCode body = Panics p <->
  Unmarshal_jsonError body = Ok [] /\ p = IndexOutOfRange 0 0.
Proof.
  unfold ParseSalesforceError.
  repeat case_match; split; intros; destruct_and?; simplify_eq; auto.
Qed.

(** A body that is not well-formed JSON is rejected by [json.Unmarshal]. *)
Lemma Unmarshal_jsonError_syntax (body : string) :
  Json.parse body = None -> Unmarshal_jsonError body = Err Json.SyntaxError.
Proof. unfold Unmarshal_jsonError, Json.Unmarshal. by intros ->. Qed.

Lemma Unmarshal_jsonError_array (body : string) (items : jsonError) :
  Json.parse body = Some (Json.Array (map error_object items)) ->
  Unmarshal_jsonError body = Ok items.
Proof.
  unfold Unmarshal_jsonError, Json.Unmarshal. intros ->.
  unfold Json.store_slice.
  induction items as [|[m c] items IH]; [reflexivity|].
  cbn [map Json.store_elements]. rewrite IH. reflexivity.
Qed.

(** The bodies that decode to no element: the JSON value [null] and the
    empty array. *)
Lemma Unmarshal_jsonError_empty_iff (body : string) :
  Unmarshal_jsonError body = Ok []
  <-> Json.parse body = Some Json.Null
      \/ Json.parse body = Some (Json.Array []).
Proof.
  unfold Unmarshal_jsonError, Json.Unmarshal.
  destruct (Json.parse body) as [v|]; [|split; [|intros [|]]; discriminate].
  destruct v as [| | | |es|]; cbn [Json.store_slice Json.mismatch];
    try (split; [discriminate | intros [|]; discriminate]).
  - split; auto.
  - destruct es as [|v es]; [split; auto|].
    cbn [Json.store_elements].
    split; [|intros [|]; discriminate].
    by repeat case_match.
Qed.

(** For a body that decodes to at least one element, the classified error
    carries the message and the code of the first element and the status
    code under "StatusCode". *)
Lemma ParseSalesforceError_first_element
    (statusCode : Z) (body : string) (first : jsonErrorItem) (others : jsonError) :
  Unmarshal_jsonError body = Ok (first :: others) ->
  exists se,
    ParseSalesforceError statusCode body = Returns (SfdcErr se)
    /\ Message se = je_Message first
    /\ Code se = je_ErrorCode first
    /\ exists extra, Extra se = Some extra
                     /\ extra !! "StatusCode" = Some statusCode.
Proof.
  intros H. unfold ParseSalesforceError. rewrite H.
  eexists. split; [reflexivity|]. cbn. repeat split.
  eexists. split; [reflexivity|]. apply lookup_singleton_eq.
Qed.

(** A classified error made of a SOAP fault. *)
Example ParseSalesforceError_soap_fault :
  ParseSalesforceError 500 soap_fault
  = Returns (SfdcErr {| Code := "sf:INVALID_LOGIN";
                        Message := "INVALID_LOGIN: Invalid username, password & token";
                        Extra := statusExtra 500 |}).
Proof. unfold ParseSalesforceError. eval_decoders. reflexivity. Qed.

(** On a body that is a non-empty JSON array of error objects the
    classified error is made of the first object. *)
Lemma ParseSalesforceError_error_array
    (statusCode : Z) (body : string) (first : jsonErrorItem) (others : jsonError) :
  Json.parse body = Some (Json.Array (map error_object (first :: others))) ->
  ParseSalesforceError statusCode body
  = Returns (SfdcErr {| Code := je_ErrorCode first; Message := je_Message first;
                        Extra := statusExtra statusCode |}).
Proof.
  intros H%Unmarshal_jsonError_array. unfold ParseSalesforceError. by rewrite H.
Qed.

(** C4, at the failing input: the empty JSON array is a valid array of
    error objects, and the classifier panics on it instead of returning a
    classified error; the same for the JSON value [null]. *)
Theorem ParseSalesforceError_empty_array (statusCode : Z) :
  Json.parse "[]" = Some (Json.Array (map error_object []))
  /\ ParseSalesforceError statusCode "[]" = Panics (IndexOutOfRange 0 0)
  /\ ParseSalesforceError statusCode "null" = Panics (IndexOutOfRange 0 0).
Proof.
  split; [by vm_compute|].
  split; apply ParseSalesforceError_panics_iff; split; try reflexivity;
    by vm_compute.
Qed.

(** C1, a counterexample: a well-formed XML document that is neither JSON
    nor a SOAP fault is not answered with [ERR_FAILURE] but with a
    classified error whose message and code are empty. *)
Lemma ParseSalesforceError_plain_xml :
  Json.parse "<a></a>" = None
  /\ Unmarshal_xmlError "<a></a>" = Ok (mkXmlError "" "")
  /\ ParseSalesforceError 500 "<a></a>"
     = Returns (SfdcErr {| Code := ""; Message := ""; Extra := statusExtra 500 |})
  /\ ParseSalesforceError 500 "<a></a>" <> Returns ERR_FAILURE.
Proof.
  unfold ParseSalesforceError. eval_decoders.
  repeat split. discriminate.
Qed.

(** The same happens with a JSON array whose element is not an object. *)
Lemma ParseSalesforceError_null_element :
  ParseSalesforceError 500 "[null]"
  = Returns (SfdcErr {| Code := ""; Message := ""; Extra := statusExtra 500 |}).
Proof. unfold ParseSalesforceError. eval_decoders. reflexivity. Qed.

(** C1, as amended: on every body that [json.Unmarshal] rejects or
    decodes to at least one element the classifier returns an
    [SfdcError] value; when neither [json.Unmarshal] nor [xml.Unmarshal]
    accepts the body, that value is [ERR_FAILURE]; when only
    [xml.Unmarshal] accepts it, it is the error made of the fault string
    and the fault code read from the document. *)
Theorem ParseSalesforceError_returns (statusCode : Z) (body : string) :
  Unmarshal_jsonError body <> Ok [] ->
  (exists se, ParseSalesforceError statusCode body = Returns (SfdcErr se))
  /\ (forall ej ex,
        Unmarshal_jsonError body = Err ej ->
        Unmarshal_xmlError body = Err ex ->
        ParseSalesforceError statusCode body = Returns ERR_FAILURE)
  /\ (forall ej x,
        Unmarshal_jsonError body = Err ej ->
        Unmarshal_xmlError body = Ok x ->
        ParseSalesforceError statusCode body
        = Returns (SfdcErr {| Code := xe_ErrorCode x; Message := xe_Message x;
                              Extra := statusExtra statusCode |})).
Proof.
  intros Hne. unfold ParseSalesforceError, ERR_FAILURE.
  split; [|split].
  - destruct (Unmarshal_jsonError body) as [[|first others]|ej];
      [done|eauto|].
    destruct (Unmarshal_xmlError body); eauto.
  - by intros ej ex -> ->.
  - by intros ej x -> ->.
Qed.

Lemma ParseSalesforceError_returns_witness :
  Unmarshal_jsonError "Service Unavailable" <> Ok []
  /\ ParseSalesforceError 503 "Service Unavailable" = Returns ERR_FAILURE.
Proof.
  assert (Hj : Unmarshal_jsonError "Service Unavailable" = Err Json.SyntaxError)
    by (vm_compute; reflexivity).
  assert (Hx : Unmarshal_xmlError "Service Unavailable" = Err Xml.EOF)
    by (vm_compute; reflexivity).
  assert (Hne : Unmarshal_jsonError "Service Unavailable" <> Ok [])
    by (rewrite Hj; discriminate).
  split; [exact Hne|].
  exact (proj1 (proj2 (ParseSalesforceError_returns 503 _ Hne)) _ _ Hj Hx).
Defined.

(** ** Transport *)

Lemma Sprintf_bearer (sid : string) :
  Fmt.Sprintf "Bearer %s" [sid] = "Bearer " +:+ sid.
Proof. simpl. by rewrite append_empty_r. Qed.

Lemma request_method_valid (method : string) :
  validMethod method = true -> request_method method = method.
Proof. by destruct method. Qed.

(** For a method that is a token, what is left of [http.NewRequest] is
    the parsing of the URL. *)
Lemma http_NewRequest_valid (env : Env) (method url body : string) :
  validMethod method = true ->
  http_NewRequest env method url body
  = if url_Parse_ok env url then Ok (mkRequest method url [] body)
    else Err (LibraryError ("parse " +:+ url)).
Proof.
  intros H. unfold http_NewRequest.
  rewrite (request_method_valid _ H). cbn zeta. by rewrite H.
Qed.

Lemma httpRequest_unparsed (env : Env) (method url body : string) (st : State) :
  url_Parse_ok env url = false ->
  exists text,
    httpRequest env method url body st
    = (Returns ("", 500, Some (LibraryError text)), st).
Proof.
  intros H. unfold httpRequest, http_NewRequest. cbn zeta. rewrite H.
  destruct (validMethod (request_method method)); by eexists.
Qed.

Lemma httpRequest_sent (env : Env) (method url body : string) (st : State) :
  validMethod method = true ->
  url_Parse_ok env url = true ->
  let req := authorized_request (client st) method url body in
  httpRequest env method url body st
  = (match Do env (sent st) req with
     | Err text => Returns ("", 400, Some (LibraryError text))
     | Ok resp =>
         if outside_2xx (StatusCode resp) then
           classified (StatusCode resp) (RespBody resp)
             (fun e => ("", StatusCode resp, Some e))
         else
           match ReadError resp with
           | None => Returns (RespBody resp, StatusCode resp, None)
           | Some _ => Returns ("", 500, Some ERR_FAILURE)
           end
     end,
     mkState (client st) (sent st ++ [req])).
Proof.
  intros Hm H req. unfold httpRequest. rewrite (http_NewRequest_valid _ _ _ _ Hm), H.
  unfold bind, getClient, httpClient_Do, Header_Add. cbn [Header app URL Method ReqBody].
  rewrite Sprintf_bearer. fold (authorized_request (client st) method url body).
  fold req. destruct (Do env (sent st) req) as [resp|text]; [|reflexivity].
  destruct (outside_2xx (StatusCode resp)).
  - unfold lift, classified, buf_ReadFrom, ret.
    by destruct (ParseSalesforceError _ _).
  - unfold ioutil_ReadAll, ret. by destruct (ReadError resp).
Qed.

(** A status of the success range is not a retryable one. *)
Lemma RetryLogic_2xx (status : Z) :
  outside_2xx status = false -> RetryLogic status = false.
Proof.
  unfold outside_2xx. intros [H1 H2]%orb_false_elim.
  apply RetryLogic_false; lia.
Qed.

Lemma RetryLogic_outside (status : Z) :
  RetryLogic status = true -> outside_2xx status = true.
Proof.
  intros H. destruct (outside_2xx status) eqn:E; [done|].
  apply RetryLogic_2xx in E. congruence.
Qed.

(** ** Query *)

(** What [Query] does once the session is known to be authenticated and
    the URL accepted: one request, and the outcome decided by the
    answer. *)
Lemma Query_authenticated (env : Env) (q : string) (st : State) :
  isLoggedIn (client st) = true ->
  url_Parse_ok env (Query_url (client st) q) = true ->
  let req := authorized_request (client st) "GET" (Query_url (client st) q) "" in
  Query env q st
  = (match Do env (sent st) req with
     | Err text => Returns (None, Some (LibraryError text))
     | Ok resp =>
         if outside_2xx (StatusCode resp) then
           classified (StatusCode resp) (RespBody resp)
             (fun e => (None, Some e))
         else
           match ReadError resp with
           | Some _ => Returns (None, Some ERR_FAILURE)
           | None =>
               match Unmarshal_QueryResult (RespBody resp) with
               | Err _ => Returns (None, Some ERR_FAILURE)
               | Ok result =>
                   Returns (Some (mkQueryResult (TotalSize result) (Done result)
                                    (NextRecordsURL result)
                                    (map SObject_setClient (Records result))),
                            None)
               end
           end
     end,
     mkState (client st) (sent st ++ [req])).
Proof.
  intros Hin Hurl req. unfold Query, bind at 1, getClient at 1.
  rewrite Hin. cbn [negb]. unfold bind.
  rewrite (httpRequest_sent _ "GET" _ _ _ eq_refl Hurl). fold req.
  destruct (Do env (sent st) req) as [resp|text]; [|reflexivity].
  destruct (outside_2xx (StatusCode resp)) eqn:Hout.
  - unfold classified. by destruct (ParseSalesforceError _ _).
  - destruct (ReadError resp); [reflexivity|].
    rewrite (RetryLogic_2xx _ Hout). unfold ret.
    by destruct (Unmarshal_QueryResult (RespBody resp)).
Qed.

(** [Query] never returns the retry sentinel, whatever the server
    answers: the branch that would return it is only reached with a
    status of the success range. *)
Lemma Query_never_ERR_RETRY (env : Env) (q : string) (st : State)
    (r : option QueryResult * option error) :
  (Query env q st).1 = Returns r -> r.2 <> Some ERR_RETRY.
Proof.
  destruct (isLoggedIn (client st)) eqn:Hin.
  - destruct (url_Parse_ok env (Query_url (client st) q)) eqn:Hurl.
    + rewrite (Query_authenticated _ _ _ Hin Hurl). cbn [fst].
      unfold classified.
      repeat case_match; intros; simplify_eq; cbn; try discriminate.
      match goal with
      | H : ParseSalesforceError _ _ = Returns _ |- _ =>
          apply ParseSalesforceError_classified in H as [se ->]
      end.
      discriminate.
    + unfold Query, bind at 1, getClient at 1. rewrite Hin. cbn [negb].
      unfold bind.
      destruct (httpRequest_unparsed env "GET" _ "" st Hurl) as [text ->].
      cbn. intros; simplify_eq. discriminate.
  - unfold Query, bind, getClient. rewrite Hin. cbn.
    intros; simplify_eq. discriminate.
Qed.

(** C2, on the inputs of the claim: when the answer to the request of an
    authenticated session has status 500, 503 or 403, [Query] returns
    what the classifier makes of the body (or panics with it), and that is
    never [ERR_RETRY]. *)
Theorem Query_retryable_status (env : Env) (q : string) (st : State)
    (resp : Response) :
  isLoggedIn (client st) = true ->
  url_Parse_ok env (Query_url (client st) q) = true ->
  Do env (sent st)
     (authorized_request (client st) "GET" (Query_url (client st) q) "")
  = Ok resp ->
  RetryLogic (StatusCode resp) = true ->
  (Query env q st).1
  = classified (StatusCode resp) (RespBody resp) (fun e => (None, Some e))
  /\ (Query env q st).1 <> Returns (None, Some ERR_RETRY).
Proof.
  intros Hin Hurl Hdo Hretry.
  split.
  - rewrite (Query_authenticated _ _ _ Hin Hurl). cbn [fst]. rewrite Hdo.
    by rewrite (RetryLogic_outside _ Hretry).
  - intros H. by apply Query_never_ERR_RETRY in H.
Qed.

(** C5: with an empty session ID, [Query] returns [ERR_AUTHENTICATION]
    and leaves the state as it was: no request is sent, the client is
    unchanged. *)
Theorem Query_unauthenticated (env : Env) (q : string) (st : State) :
  sessionID (client st) = "" ->
  Query env q st = (Returns (None, Some ERR_AUTHENTICATION), st).
Proof.
  intros H. unfold Query, bind, getClient, isLoggedIn. by rewrite H.
Qed.

Lemma Sprintf_concat (a b : string) : Fmt.Sprintf "%s%s" [a; b] = a +:+ b.
Proof. simpl. by rewrite append_empty_r. Qed.

Lemma Sprintf_query (a b c : string) :
  Fmt.Sprintf "%s/services/data/v%s/query?q=%s" [a; b; c]
  = a +:+ "/services/data/v" +:+ b +:+ "/query?q=" +:+ c.
Proof. simpl. by rewrite append_empty_r. Qed.

Lemma Sprintf_tooling_query (a b c : string) :
  Fmt.Sprintf
    (Strings.Replace "%s/services/data/v%s/query?q=%s" "query" "tooling/query" (-1))
    [a; b; c]
  = a +:+ "/services/data/v" +:+ b +:+ "/tooling/query?q=" +:+ c.
Proof.
  replace (Strings.Replace _ _ _ _)
    with "%s/services/data/v%s/tooling/query?q=%s" by (by vm_compute).
  simpl. by rewrite append_empty_r.
Qed.

(** C6: the URL of the request.  An input that begins with
    "/services/data" is appended as it is to the instance URL; any other
    input is escaped and placed in the query endpoint of the API version,
    the tooling one when the flag is set.  That URL is the one of the GET
    request [Query] sends. *)
Theorem Query_request_url (env : Env) (q : string) (st : State) :
  isLoggedIn (client st) = true ->
  url_Parse_ok env (Query_url (client st) q) = true ->
  let c := client st in
  (Strings.HasPrefix q "/services/data" = true ->
   Query_url c q = instanceURL c +:+ q)
  /\ (Strings.HasPrefix q "/services/data" = false ->
      Query_url c q
      = instanceURL c +:+ "/services/data/v" +:+ apiVersion c
        +:+ (if useToolingAPI c then "/tooling/query?q=" else "/query?q=")
        +:+ Url.PathEscape q)
  /\ Url.PathEscape "SELECT Id FROM Account" = "SELECT%20Id%20FROM%20Account"
  /\ exists req,
       sent (Query env q st).2 = (sent st ++ [req])%list
       /\ Method req = "GET"
       /\ URL req = Query_url c q.
Proof.
  intros Hin Hurl c. repeat split.
  - intros H. unfold Query_url. rewrite H. apply Sprintf_concat.
  - intros H. unfold Query_url. rewrite H.
    destruct (useToolingAPI c);
      [apply Sprintf_tooling_query | apply Sprintf_query].
  - rewrite (Query_authenticated _ _ _ Hin Hurl). cbn [snd sent].
    eexists. repeat split.
Qed.

(** ** makeURL *)

Lemma without_byte_absent (b : ascii) (s : string) :
  has_byte b (without_byte b s) = false.
Proof.
  induction s as [|c s IH]; [reflexivity|]. cbn [without_byte].
  destruct (Ascii.eqb b c) eqn:E; [exact IH|].
  cbn [has_byte]. by rewrite E, IH.
Qed.

Lemma prefix_byte (b c : ascii) (s : string) :
  String.prefix (String b "") (String c s) = Ascii.eqb b c.
Proof.
  cbn [String.prefix].
  destruct (ascii_dec b c) as [->|Hne].
  - rewrite Ascii.eqb_refl. by destruct s.
  - symmetry. by apply Ascii.eqb_neq.
Qed.

Lemma has_byte_prefix (b : ascii) (s : string) :
  has_byte b s = false -> String.prefix (String b "") s = false.
Proof.
  destruct s as [|c s]; [reflexivity|]. rewrite prefix_byte.
  cbn [has_byte]. by intros [? ?]%orb_false_elim.
Qed.

Lemma replace_from_v (n : Z) (s : string) :
  n < 0 -> Strings.replace_from "v" "" n 0 s = without_byte "v" s.
Proof.
  revert n. induction s as [|c s IH]; intros n Hn; [reflexivity|].
  cbn [Strings.replace_from without_byte]. rewrite prefix_byte.
  replace (n =? 0) with false by lia. cbn [negb andb].
  destruct (Ascii.eqb "v" c).
  - cbn [String.length Nat.sub]. rewrite IH by lia. reflexivity.
  - by rewrite IH.
Qed.

(** Every "v" goes, wherever it stands. *)
Lemma Replace_v (s : string) :
  Strings.Replace s "v" "" (-1) = without_byte "v" s.
Proof. unfold Strings.Replace. simpl. by apply replace_from_v. Qed.

Lemma Sprintf_rest (a b r : string) :
  Fmt.Sprintf "%s/services/data/v%s/%s" [a; b; r]
  = a +:+ "/services/data/v" +:+ b +:+ "/" +:+ r.
Proof. simpl. by rewrite append_empty_r. Qed.

Lemma makeURL_run (req : string) (st : State) :
  makeURL req st
  = (Returns (instanceURL (client st) +:+ "/services/data/v"
              +:+ without_byte "v" (apiVersion (client st)) +:+ "/" +:+ req),
     mkState (normalized (client st)) (sent st)).
Proof.
  unfold makeURL, bind, getClient, putClient, ret.
  cbn -[Strings.Replace Fmt.Sprintf].
  by rewrite Replace_v, Sprintf_rest.
Qed.

Lemma prefix_empty (s : string) : String.prefix "" s = true.
Proof. by destruct s. Qed.

Lemma prefix_cons (c : ascii) (s t : string) :
  String.prefix (String c s) (String c t) = String.prefix s t.
Proof. cbn [String.prefix]. by destruct (ascii_dec c c). Qed.

Lemma contains_here (sub s : string) :
  String.prefix sub s = true -> contains sub s = true.
Proof. intros H. destruct s; cbn [contains]; by rewrite H. Qed.

Lemma contains_skip (sub : string) (c : ascii) (s : string) :
  contains sub s = true -> contains sub (String c s) = true.
Proof. intros H. cbn [contains]. rewrite H. apply orb_true_r. Qed.

Lemma contains_append (sub a t : string) :
  contains sub t = true -> contains sub (a +:+ t) = true.
Proof.
  intros H. induction a as [|c a IH]; [exact H|].
  rewrite append_cons. by apply contains_skip.
Qed.

(** C8: [makeURL] returns the instance URL, "/services/data/v", the
    version as the client then stores it, "/" and the path; that version
    does not begin with a "v", so exactly one "v" precedes it.  With the
    stored version "v43.0" the URL contains "/v43.0/": its version segment
    is "v43.0", not "vv43.0". *)
Theorem makeURL_version_segment (req : string) (st : State) :
  let c := client st in
  let ver := apiVersion (client (makeURL req st).2) in
  (makeURL req st).1
  = Returns (instanceURL c +:+ "/services/data/v" +:+ ver +:+ "/" +:+ req)
  /\ ver = without_byte "v" (apiVersion c)
  /\ String.prefix "v" ver = false
  /\ (apiVersion c = "v43.0" ->
      exists url,
        (makeURL req st).1 = Returns url
        /\ url = instanceURL c +:+ "/services/data/v43.0/" +:+ req
        /\ contains "/v43.0/" url = true
        /\ url <> instanceURL c +:+ "/services/data/vv43.0/" +:+ req).
Proof.
  intros c ver. subst c ver. rewrite makeURL_run.
  cbn [fst snd client apiVersion normalized].
  split; [reflexivity|]. split; [reflexivity|].
  split; [apply has_byte_prefix, without_byte_absent|].
  intros Hver. rewrite Hver. eexists. split; [reflexivity|].
  split; [reflexivity|]. split.
  - apply (contains_append "/v43.0/" (instanceURL (client st))).
    match goal with
    | |- contains _ ?u = true =>
        let u' := eval vm_compute in u in change u with u'
    end.
    repeat first
      [ apply contains_here; rewrite !prefix_cons; apply prefix_empty
      | apply contains_skip ].
  - intros Heq. apply (inj (String.app _)) in Heq.
    vm_compute in Heq. discriminate Heq.
Qed.

(** C10: [makeURL] writes the version without any of its "v"s back into
    the client and changes nothing else, neither another field nor the
    requests sent; whatever runs after it runs on the changed client. *)
Theorem makeURL_effect (req : string) (st : State) :
  let c := client st in
  let c' := client (makeURL req st).2 in
  apiVersion c' = without_byte "v" (apiVersion c)
  /\ has_byte "v" (apiVersion c') = false
  /\ without_byte "v" "v4v3.0v" = "43.0"
  /\ sessionID c' = sessionID c
  /\ user c' = user c
  /\ clientID c' = clientID c
  /\ baseURL c' = baseURL c
  /\ instanceURL c' = instanceURL c
  /\ useToolingAPI c' = useToolingAPI c
  /\ sent (makeURL req st).2 = sent st
  /\ forall (B : Type) (k : string -> M B),
       exists url,
         (do u <- makeURL req; k u) st = k url (mkState (normalized c) (sent st)).
Proof.
  intros c c'. subst c c'. unfold bind. rewrite makeURL_run.
  cbn [fst snd client sent normalized apiVersion sessionID user clientID
       baseURL instanceURL useToolingAPI].
  repeat split; eauto using without_byte_absent.
Qed.

(** A later operation sees the change: after [makeURL], [Query] builds
    its URL from the version without "v". *)
Lemma Query_url_after_makeURL (req q : string) (st : State) :
  Strings.HasPrefix q "/services/data" = false ->
  useToolingAPI (client st) = false ->
  Query_url (client (makeURL req st).2) q
  = instanceURL (client st) +:+ "/services/data/v"
    +:+ without_byte "v" (apiVersion (client st))
    +:+ "/query?q=" +:+ Url.PathEscape q.
Proof.
  intros Hq Htool. rewrite makeURL_run. cbn [snd client].
  unfold Query_url. rewrite Hq. cbn [normalized useToolingAPI].
  rewrite Htool. apply Sprintf_query.
Qed.

(** ** RefreshToken *)

Lemma Encode_refresh (clientId clientSecret refreshToken : string) :
  Url.Encode
    [("format", ["json"]);
     ("grant_type", ["refresh_token"]);
     ("client_id", [clientId]);
     ("client_secret", [clientSecret]);
     ("refresh_token", [refreshToken])]
  = refresh_form clientId clientSecret refreshToken.
Proof.
  unfold Url.Encode.
  replace (Url.sorted _)
    with [("client_id", [clientId]); ("client_secret", [clientSecret]);
          ("format", ["json"]); ("grant_type", ["refresh_token"]);
          ("refresh_token", [refreshToken])]
    by (by vm_compute).
  cbn [flat_map map app fst snd Strings.Join].
  replace (Url.QueryEscape "client_id") with "client_id" by (by vm_compute).
  replace (Url.QueryEscape "client_secret") with "client_secret" by (by vm_compute).
  replace (Url.QueryEscape "format") with "format" by (by vm_compute).
  replace (Url.QueryEscape "json") with "json" by (by vm_compute).
  replace (Url.QueryEscape "grant_type") with "grant_type" by (by vm_compute).
  replace (Url.QueryEscape "refresh_token") with "refresh_token" by (by vm_compute).
  unfold refresh_form. rewrite !append_assoc. reflexivity.
Qed.

Lemma RefreshToken_run (env : Env) (clientId clientSecret refreshToken : string)
    (st : State) :
  let req := refresh_request (client st) clientId clientSecret refreshToken in
  url_Parse_ok env (URL req) = true ->
  RefreshToken env clientId clientSecret refreshToken st
  = (match Do env (sent st) req with
     | Err text => Returns (None, Some (LibraryError text))
     | Ok resp =>
         if outside_2xx (StatusCode resp) then
           classified (StatusCode resp) (RespBody resp)
             (fun e => (None, Some e))
         else
           match ReadError resp with
           | Some text => Returns (None, Some (LibraryError text))
           | None =>
               match Unmarshal_Token (RespBody resp) with
               | Ok token => Returns (Some token, None)
               | Err e => Returns (None, Some (JsonError e))
               end
           end
     end,
     mkState (normalized (client st)) (sent st ++ [req])).
Proof.
  intros req Hurl. unfold RefreshToken, bind at 1. rewrite makeURL_run.
  change ("/" +:+ "services/oauth2/token") with "/services/oauth2/token".
  rewrite Encode_refresh. rewrite http_NewRequest_valid by reflexivity.
  cbn [URL req refresh_request] in Hurl. rewrite Hurl.
  unfold bind, httpClient_Do, Header_Add.
  cbn [Header app URL Method ReqBody client sent].
  fold (refresh_request (client st) clientId clientSecret refreshToken). fold req.
  destruct (Do env (sent st) req) as [resp|text]; [|reflexivity].
  destruct (outside_2xx (StatusCode resp)).
  - unfold lift, classified, buf_ReadFrom, ret.
    by destruct (ParseSalesforceError _ _).
  - unfold ioutil_ReadAll, ret. destruct (ReadError resp); [reflexivity|].
    by destruct (Unmarshal_Token (RespBody resp)).
Qed.

(** C7: [RefreshToken] posts the form-encoded parameters, but not to the
    token endpoint: the path is handed to [makeURL], so the request goes
    to "/services/data/v<version>/services/oauth2/token" on the instance,
    which is never "/services/oauth2/token" there.  An answer outside
    2xx gives the error the classifier returns for its body, and the
    panic of the classifier where it panics; an answer in 2xx whose body
    is read to its end gives the body decoded as a [Token], or the error
    of the decoder. *)
Theorem RefreshToken_request_and_result
    (env : Env) (clientId clientSecret refreshToken : string) (st : State) :
  let c := client st in
  let req := refresh_request c clientId clientSecret refreshToken in
  let run := RefreshToken env clientId clientSecret refreshToken st in
  url_Parse_ok env (URL req) = true ->
  sent run.2 = (sent st ++ [req])%list
  /\ Method req = "POST"
  /\ ReqBody req = refresh_form clientId clientSecret refreshToken
  /\ URL req
     = instanceURL c +:+ "/services/data/v" +:+ without_byte "v" (apiVersion c)
       +:+ "/services/oauth2/token"
  /\ URL req <> instanceURL c +:+ "/services/oauth2/token"
  /\ (forall resp,
        Do env (sent st) req = Ok resp ->
        outside_2xx (StatusCode resp) = true ->
        match ParseSalesforceError (StatusCode resp) (RespBody resp) with
        | Returns e => run.1 = Returns (None, Some e)
        | Panics p => run.1 = Panics p
        end)
  /\ (forall resp,
        Do env (sent st) req = Ok resp ->
        outside_2xx (StatusCode resp) = false ->
        ReadError resp = None ->
        run.1 = Returns
                  match Unmarshal_Token (RespBody resp) with
                  | Ok token => (Some token, None)
                  | Err e => (None, Some (JsonError e))
                  end).
Proof.
  intros c req run Hurl. subst run.
  rewrite (RefreshToken_run _ _ _ _ _ Hurl). fold c req. cbn [fst snd sent].
  split; [done|]. split; [done|]. split; [done|]. split; [done|].
  split; [|split].
  - cbn [URL req refresh_request]. intros Heq.
    apply (f_equal String.length) in Heq.
    rewrite !length_append in Heq. cbn in Heq. lia.
  - intros resp -> ->. unfold classified.
    by destruct (ParseSalesforceError _ _).
  - intros resp -> -> ->. by destruct (Unmarshal_Token (RespBody resp)).
Qed.

(** ** Batch fetch *)

Section Batch.
Context (env : Env) (c : Client) (name : string) (ids : list string).

Lemma task_write_length (sobjs : list (option SObject)) (i : nat) :
  length (task_write env c name ids sobjs i) = length sobjs.
Proof.
  unfold task_write. repeat case_match; by rewrite ?length_insert.
Qed.

Lemma task_write_lookup (sobjs : list (option SObject)) (i j : nat) :
  (j < length sobjs)%nat ->
  task_write env c name ids sobjs i !! j
  = match written env c name ids i with
    | Some s => if decide (i = j) then Some s else sobjs !! j
    | None => sobjs !! j
    end.
Proof.
  intros Hj. unfold task_write, written.
  destruct (ids !! i) as [id|]; [|reflexivity].
  destruct (SObject_Get env c name i id) as [sobj [e|]]; [reflexivity|].
  case_decide as Hij.
  - subst. by apply list_lookup_insert_eq.
  - by apply list_lookup_insert_ne.
Qed.

Lemma tasks_length (order : list nat) (sobjs : list (option SObject)) :
  length (foldl (task_write env c name ids) sobjs order) = length sobjs.
Proof.
  revert sobjs. induction order as [|i order IH]; intros sobjs; [reflexivity|].
  cbn [foldl]. by rewrite IH, task_write_length.
Qed.

(** Slot [j] after the tasks of [order] have ended, in that order:
    the slots are disjoint, a task touches only its own. *)
Lemma tasks_lookup (order : list nat) (sobjs : list (option SObject)) (j : nat) :
  (j < length sobjs)%nat ->
  foldl (task_write env c name ids) sobjs order !! j
  = if decide (j ∈ order)
    then match written env c name ids j with
         | Some s => Some s
         | None => sobjs !! j
         end
    else sobjs !! j.
Proof.
  revert sobjs. induction order as [|i order IH]; intros sobjs Hj.
  - cbn [foldl]. by rewrite decide_False by apply not_elem_of_nil.
  - cbn [foldl]. rewrite IH by by rewrite task_write_length.
    rewrite task_write_lookup by done.
    destruct (decide (i = j)) as [->|Hne].
    + rewrite (decide_True (P := j ∈ j :: order))
        by (apply elem_of_cons; by left).
      destruct (written env c name ids j); by case_decide.
    + destruct (decide (j ∈ order)) as [Hin|Hnin].
      * rewrite (decide_True (P := j ∈ i :: order))
          by (apply elem_of_cons; by right).
        destruct (written env c name ids i), (written env c name ids j); done.
      * rewrite (decide_False (P := j ∈ i :: order)).
        { by destruct (written env c name ids i). }
        intros [?|?]%elem_of_cons; congruence.
Qed.

(** The result of the batch does not depend on the order in which the
    tasks end. *)
Lemma run_tasks_lookup (i : nat) (id : string) :
  schedule env (length ids) ≡ₚ seq 0 (length ids) ->
  ids !! i = Some id ->
  run_tasks env c name ids !! i
  = Some match SObject_Get env c name i id with
         | (sobj, None) => sobj
         | (_, Some _) => None
         end.
Proof.
  intros Hperm Hi. unfold run_tasks.
  assert (Hlt : (i < length ids)%nat) by by eapply lookup_lt_Some.
  rewrite tasks_lookup by by rewrite length_replicate.
  rewrite decide_True.
  - unfold written. rewrite Hi, lookup_replicate_2 by done.
    by destruct (SObject_Get env c name i id) as [sobj [e|]].
  - rewrite Hperm. apply elem_of_seq. lia.
Qed.

Lemma run_tasks_length : length (run_tasks env c name ids) = length ids.
Proof. unfold run_tasks. by rewrite tasks_length, length_replicate. Qed.

End Batch.

Lemma assert_strings_all (ids : list string) :
  assert_strings (map Json.Str ids) = Returns ids.
Proof.
  induction ids as [|id ids IH]; [reflexivity|].
  cbn [map assert_strings]. by rewrite IH.
Qed.

(** C3: when the list of changed identifiers arrives, a list of [n]
    strings, the call returns [n] slots and no error; slot [i] holds what
    the fetch of the [i]-th identifier returned when that fetch gave no
    error, and the nil pointer when it gave one, in whatever order the
    fetches end. *)
Theorem GetCreatedUpdatedRecords_batch
    (env : Env) (name startDateTime endDateTime : string) (st : State)
    (resp : Response) (sobj : SObject) (ids : list string) :
  let c := client st in
  let req := updated_request c name startDateTime endDateTime in
  isLoggedIn c = true ->
  url_Parse_ok env (URL req) = true ->
  Do env (sent st) req = Ok resp ->
  outside_2xx (StatusCode resp) = false ->
  ReadError resp = None ->
  Unmarshal_SObject (RespBody resp) = Ok sobj ->
  fields sobj !! "ids" = Some (Json.Array (map Json.Str ids)) ->
  schedule env (length ids) ≡ₚ seq 0 (length ids) ->
  exists sobjs,
    GetCreatedUpdatedRecords env name startDateTime endDateTime st
    = (Returns (sobjs, None), mkState (normalized c) (sent st ++ [req]))
    /\ length sobjs = length ids
    /\ forall i id,
         ids !! i = Some id ->
         sobjs !! i
         = Some match SObject_Get env (normalized c) name i id with
                | (fetched, None) => fetched
                | (_, Some _) => None
                end.
Proof.
  intros c req Hin Hurl Hdo H2xx Hread Hbody Hids Hperm.
  exists (run_tasks env (normalized c) name ids).
  split; [|split].
  - unfold GetCreatedUpdatedRecords, bind at 1, getClient at 1.
    fold c. rewrite Hin. cbn [negb]. unfold bind at 1. rewrite makeURL_run.
    fold c. rewrite http_NewRequest_valid by reflexivity.
    cbn [URL req updated_request] in Hurl. rewrite Hurl.
    unfold bind at 1, getClient at 1. cbn [client].
    unfold bind at 1, httpClient_Do, Header_Add.
    cbn [Header app URL Method ReqBody client sent normalized sessionID].
    fold (updated_request c name startDateTime endDateTime). fold req.
    rewrite Hdo, H2xx, (RetryLogic_2xx _ H2xx).
    unfold ioutil_ReadAll. rewrite Hread, Hbody, Hids.
    destruct ids as [|id ids'].
    { cbn [length seq] in Hperm. apply Permutation_nil_r in Hperm.
      unfold run_tasks. cbn [length]. by rewrite Hperm. }
    cbn [map length Nat.ltb Nat.leb]. unfold bind, lift.
    change (Json.Str id :: map Json.Str ids') with (map Json.Str (id :: ids')).
    rewrite assert_strings_all. reflexivity.
  - apply run_tasks_length.
  - intros i id Hi. by apply run_tasks_lookup.
Qed.

(** ** Runs on concrete inputs *)

Lemma Query_retryable_status_witness :
  (Query (answering unavailable) "SELECT Id FROM Account" example_state).1
  = Returns (None,
             Some (SfdcErr {| Code := "SERVER_UNAVAILABLE";
                              Message := "Service Unavailable";
                              Extra := statusExtra 503 |}))
  /\ (Query (answering unavailable) "SELECT Id FROM Account" example_state).1
     <> Returns (None, Some ERR_RETRY).
Proof.
  destruct (Query_retryable_status (answering unavailable)
              "SELECT Id FROM Account" example_state unavailable
              eq_refl eq_refl eq_refl eq_refl)
    as [Hrun Hne].
  split; [|exact Hne].
  rewrite Hrun. unfold classified, ParseSalesforceError, unavailable.
  cbn [StatusCode RespBody]. eval_decoders. reflexivity.
Defined.

Lemma Query_unauthenticated_witness :
  let st := mkState (NewClient DefaultURL DefaultClientID DefaultAPIVersion) [] in
  Query (answering unavailable) "SELECT Id FROM Account" st
  = (Returns (None, Some ERR_AUTHENTICATION), st).
Proof.
  intros st. apply (Query_unauthenticated (answering unavailable)).
  reflexivity.
Defined.

Lemma Query_request_url_witness :
  Query_url (client example_state) "SELECT Id FROM Account"
  = "https://na1.salesforce.com/services/data/v43.0/query?q=SELECT%20Id%20FROM%20Account"
  /\ Query_url (client example_state) "/services/data/v43.0/query/01gXXX-2000"
     = "https://na1.salesforce.com/services/data/v43.0/query/01gXXX-2000".
Proof.
  split.
  - destruct (Query_request_url (answering unavailable)
                "SELECT Id FROM Account" example_state eq_refl eq_refl)
      as (_ & Hsoql & _).
    rewrite Hsoql by reflexivity. by vm_compute.
  - destruct (Query_request_url (answering unavailable)
                "/services/data/v43.0/query/01gXXX-2000" example_state
                eq_refl eq_refl)
      as (Hnext & _).
    rewrite Hnext by reflexivity. by vm_compute.
Defined.

Lemma makeURL_version_segment_witness :
  let st := mkState (mkClient "sid" (mkUser "" "" "" "") "simpleforce" "v43.0"
                       "https://login.salesforce.com/"
                       "https://na1.salesforce.com" false) [] in
  exists url,
    (makeURL "sobjects/Account" st).1 = Returns url
    /\ url = "https://na1.salesforce.com/services/data/v43.0/sobjects/Account"
    /\ contains "/v43.0/" url = true
    /\ contains "/vv43.0/" url = false.
Proof.
  intros st.
  destruct (makeURL_version_segment "sobjects/Account" st) as (_ & _ & _ & H).
  destruct (H eq_refl) as (url & Hrun & Hurl & Hin & _).
  exists url. split; [exact Hrun|].
  split; [by rewrite Hurl|]. split; [exact Hin|].
  rewrite Hurl. by vm_compute.
Defined.

(** C7, on a concrete instance: on "https://na1.salesforce.com"
    the request goes to the path
    "/services/data/v43.0/services/oauth2/token", not to
    "/services/oauth2/token". *)
Lemma RefreshToken_path_counterexample :
  let run := RefreshToken (answering token_response) "id" "secret" "5Aep861"
               example_state in
  exists req,
    sent run.2 = [req]
    /\ Method req = "POST"
    /\ URL req
       = "https://na1.salesforce.com/services/data/v43.0/services/oauth2/token"
    /\ URL req
       <> instanceURL (client example_state) +:+ "/services/oauth2/token".
Proof.
  eexists. split; [by vm_compute|].
  split; [reflexivity|]. split; [by vm_compute|].
  by vm_compute.
Qed.

Lemma RefreshToken_request_and_result_witness :
  let run := RefreshToken (answering token_response) "my id" "s&t" "5Aep861"
               example_state in
  (fun req => (Method req, URL req, ReqBody req)) <$> sent run.2
  = [("POST",
      "https://na1.salesforce.com/services/data/v43.0/services/oauth2/token",
      "client_id=my+id&client_secret=s%26t&format=json&grant_type=refresh_token&refresh_token=5Aep861")]
  /\ URL (refresh_request (client example_state) "my id" "s&t" "5Aep861")
     <> "https://na1.salesforce.com/services/oauth2/token"
  /\ run.1
     = Returns (Some (mkToken "" "1700000000000" "" "" "" ""
                        "https://na1.salesforce.com" "" "00Dxx!new"),
                None).
Proof.
  intros run. subst run.
  destruct (RefreshToken_request_and_result (answering token_response)
              "my id" "s&t" "5Aep861" example_state eq_refl)
    as (Hsent & _ & _ & _ & Hne & _ & Hok).
  split; [|split].
  - rewrite Hsent. by vm_compute.
  - exact Hne.
  - rewrite (Hok token_response eq_refl eq_refl eq_refl).
    unfold token_response. cbn [RespBody]. eval_decoders. reflexivity.
Defined.

Lemma GetCreatedUpdatedRecords_batch_witness :
  exists st',
    GetCreatedUpdatedRecords (answering updated_response) "Account"
      "2024-01-01T00:00:00+00:00" "2024-01-02T00:00:00+00:00" example_state
    = (Returns ([Some (mkSObject {[ "Id" := Json.Str "A" ]} true);
                 None;
                 Some (mkSObject {[ "Id" := Json.Str "C" ]} true)],
                None),
       st').
Proof.
  pose (sobj := mkSObject
                  (list_to_map
                     (rev [("ids", Json.Array (map Json.Str ["A"; "B"; "C"]));
                           ("latestDateCovered",
                            Json.Str "2024-01-02T00:00:00.000+0000")]))
                  false).
  assert (Hbody : Unmarshal_SObject (RespBody updated_response) = Ok sobj)
    by (by vm_compute).
  assert (Hids : fields sobj !! "ids"
                 = Some (Json.Array (map Json.Str ["A"; "B"; "C"])))
    by (by vm_compute).
  assert (Hperm : schedule (answering updated_response) (length ["A"; "B"; "C"])
                  ≡ₚ seq 0 (length ["A"; "B"; "C"]))
    by (symmetry; apply Permutation_rev).
  destruct (GetCreatedUpdatedRecords_batch (answering updated_response) "Account"
              "2024-01-01T00:00:00+00:00" "2024-01-02T00:00:00+00:00"
              example_state updated_response sobj ["A"; "B"; "C"]
              eq_refl eq_refl eq_refl eq_refl eq_refl Hbody Hids Hperm)
    as (sobjs & Hrun & Hlen & Hslot).
  eexists. rewrite Hrun. f_equal. f_equal. f_equal.
  pose proof (Hslot 0%nat "A" eq_refl) as H0.
  pose proof (Hslot 1%nat "B" eq_refl) as H1.
  pose proof (Hslot 2%nat "C" eq_refl) as H2.
  destruct sobjs as [|s0 [|s1 [|s2 [|s3 rest]]]]; try discriminate Hlen.
  cbn in H0, H1, H2. by simplify_eq.
Defined.

(** A transport failure in the batch call is not checked: the status of
    the response is read through the nil pointer. *)
Lemma GetCreatedUpdatedRecords_transport_failure
    (env : Env) (name startDateTime endDateTime : string) (st : State)
    (text : string) :
  let c := client st in
  let req := updated_request c name startDateTime endDateTime in
  isLoggedIn c = true ->
  url_Parse_ok env (URL req) = true ->
  Do env (sent st) req = Err text ->
  (GetCreatedUpdatedRecords env name startDateTime endDateTime st).1
  = Panics NilDereference.
Proof.
  intros c req Hin Hurl Hdo.
  unfold GetCreatedUpdatedRecords, bind at 1, getClient at 1.
  fold c. rewrite Hin. cbn [negb]. unfold bind at 1. rewrite makeURL_run.
  fold c. rewrite http_NewRequest_valid by reflexivity.
  cbn [URL req updated_request] in Hurl. rewrite Hurl.
  unfold bind at 1, getClient at 1. cbn [client].
  unfold bind at 1, httpClient_Do, Header_Add.
  cbn [Header app URL Method ReqBody client sent normalized sessionID].
  fold (updated_request c name startDateTime endDateTime). fold req.
  by rewrite Hdo.
Qed.

(** * Further properties *)

(** ** The classifier *)

Lemma classifier_result (statusCode : Z) (body : string) (e : error) :
  ParseSalesforceError statusCode body = Returns e ->
  (e = ERR_FAILURE
   /\ (exists ej, Unmarshal_jsonError body = Err ej)
   /\ (exists ex, Unmarshal_xmlError body = Err ex))
  \/ (exists code msg,
        e = SfdcErr {| Code := code; Message := msg;
                       Extra := statusExtra statusCode |}).
Proof.
  unfold ParseSalesforceError.
  destruct (Unmarshal_jsonError body) as [[|first others]|ej]; [done| |].
  - intros [= <-]. right. eauto.
  - destruct (Unmarshal_xmlError body) as [x|ex]; intros [= <-].
    + right. eauto.
    + left. eauto.
Qed.

Lemma classifier_is_classified (statusCode : Z) (body : string) (e : error) :
  ParseSalesforceError statusCode body = Returns e ->
  e = ERR_FAILURE \/ is_classified e.
Proof.
  intros [(-> & _)|(code & msg & ->)]%classifier_result; [by left|].
  right. by exists code, msg, statusCode.
Qed.

(** X1: what the classifier returns is [ERR_FAILURE] exactly when both
    decoders reject the body; any other value it returns is an
    [SfdcError] whose [Extra] is the map with the one entry
    "StatusCode"; it is never the retry sentinel. *)
Theorem ParseSalesforceError_result_shape
    (statusCode : Z) (body : string) (e : error) :
  ParseSalesforceError statusCode body = Returns e ->
  (e = ERR_FAILURE
   <-> (exists ej, Unmarshal_jsonError body = Err ej)
       /\ (exists ex, Unmarshal_xmlError body = Err ex))
  /\ (e <> ERR_FAILURE ->
      exists code msg,
        e = SfdcErr {| Code := code; Message := msg;
                       Extra := Some {[ "StatusCode" := statusCode ]} |})
  /\ e <> ERR_RETRY.
Proof.
  intros Hrun. split; [|split].
  - split.
    + intros ->. by apply classifier_result in Hrun as [(_ & ? & ?)|(? & ? & [=])].
    + intros [[ej Hj] [ex Hx]]. unfold ParseSalesforceError in Hrun.
      rewrite Hj, Hx in Hrun. by injection Hrun as <-.
  - intros Hne. by apply classifier_result in Hrun as [(-> & _)|?].
  - by apply classifier_result in Hrun as [(-> & _)|(? & ? & ->)].
Qed.

Lemma ParseSalesforceError_result_shape_witness :
  ParseSalesforceError 404 (RespBody not_found)
  = Returns (SfdcErr {| Code := "NOT_FOUND";
                        Message := "The requested resource does not exist";
                        Extra := Some {[ "StatusCode" := 404 ]} |})
  /\ exists code msg,
       SfdcErr {| Code := "NOT_FOUND";
                  Message := "The requested resource does not exist";
                  Extra := Some {[ "StatusCode" := 404 ]} |}
       = SfdcErr {| Code := code; Message := msg;
                    Extra := Some {[ "StatusCode" := 404 ]} |}.
Proof.
  assert (Hrun : ParseSalesforceError 404 (RespBody not_found)
                 = Returns (SfdcErr {| Code := "NOT_FOUND";
                                       Message := "The requested resource does not exist";
                                       Extra := Some {[ "StatusCode" := 404 ]} |})).
  { unfold ParseSalesforceError. eval_decoders. reflexivity. }
  split; [exact Hrun|].
  apply (proj1 (proj2 (ParseSalesforceError_result_shape _ _ _ Hrun))).
  discriminate.
Defined.

(** X2: the classifier panics on exactly two kinds of body, whatever the
    status code: the JSON value [null] and the empty JSON array, with
    white space around them or not. *)
Theorem ParseSalesforceError_panics_exactly (statusCode : Z) (body : string) :
  (exists p, ParseSalesforceError statusCode body = Panics p)
  <-> Json.parse body = Some Json.Null
      \/ Json.parse body = Some (Json.Array []).
Proof.
  rewrite <- Unmarshal_jsonError_empty_iff. split.
  - intros [p Hp]. by apply ParseSalesforceError_panics_iff in Hp as [? _].
  - intros H. eexists. by apply ParseSalesforceError_panics_iff.
Qed.

(** ** Transport *)

Lemma request_method_idempotent (method : string) :
  request_method (request_method method) = request_method method.
Proof. by destruct method. Qed.

Lemma httpRequest_default (env : Env) (method url body : string) (st : State) :
  httpRequest env method url body st
  = httpRequest env (request_method method) url body st.
Proof.
  unfold httpRequest, http_NewRequest. by rewrite request_method_idempotent.
Qed.

Lemma httpRequest_refused (env : Env) (method url body : string) (st : State) :
  validMethod (request_method method) && url_Parse_ok env url = false ->
  exists text,
    httpRequest env method url body st
    = (Returns ("", 500, Some (LibraryError text)), st).
Proof.
  intros H. unfold httpRequest, http_NewRequest. cbn zeta.
  destruct (validMethod (request_method method)); cbn [negb andb] in *;
    [rewrite H|]; by eexists.
Qed.

(** X3: [httpRequest] gives a nil error exactly when the method (GET
    for the empty one) is an HTTP token, the URL was accepted, the
    answer has a status in 200..299 and its body was read to the end;
    the data and the code are then the body and the status of the
    answer.  With an error, the data are empty. *)
Theorem httpRequest_no_error_iff
    (env : Env) (method url body : string) (st : State)
    (data : string) (code : Z) (err : option error) :
  (httpRequest env method url body st).1 = Returns (data, code, err) ->
  (err = None
   <-> validMethod (request_method method) = true
       /\ url_Parse_ok env url = true
       /\ exists resp,
            Do env (sent st)
               (authorized_request (client st) (request_method method) url body)
            = Ok resp
            /\ outside_2xx (StatusCode resp) = false
            /\ ReadError resp = None
            /\ data = RespBody resp
            /\ code = StatusCode resp)
  /\ (err <> None -> data = "").
Proof.
  destruct (validMethod (request_method method) && url_Parse_ok env url) eqn:Hok.
  - apply andb_prop in Hok as [Hm Hurl].
    rewrite httpRequest_default, (httpRequest_sent _ _ _ _ _ Hm Hurl). cbn [fst].
    destruct (Do env (sent st) _) as [resp|text].
    + destruct (outside_2xx (StatusCode resp)) eqn:Hout.
      * unfold classified. destruct (ParseSalesforceError _ _); [|done].
        intros [= <- <- <-]. split; [|done].
        split; [done|]. intros (_ & _ & resp' & [= <-] & ? & _). congruence.
      * destruct (ReadError resp) eqn:Hread; intros [= <- <- <-].
        -- split; [|done]. split; [done|].
           intros (_ & _ & resp' & [= <-] & _ & ? & _). congruence.
        -- split; [|done]. split; [|done]. intros _. split; [done|].
           split; [done|]. by exists resp.
    + intros [= <- <- <-]. split; [|done]. split; [done|].
      by intros (_ & _ & resp' & [=] & _).
  - destruct (httpRequest_refused env method url body st Hok) as [text ->].
    cbn [fst]. intros [= <- <- <-]. split; [|done].
    split; [done|]. intros (Hm & Hurl & _). by rewrite Hm, Hurl in Hok.
Qed.

Lemma httpRequest_no_error_iff_witness :
  (httpRequest (answering token_response) "GET" "https://na1.salesforce.com/x" ""
     example_state).1
  = Returns (RespBody token_response, 200, None)
  /\ exists resp,
       Do (answering token_response) (sent example_state)
          (authorized_request (client example_state) "GET"
             "https://na1.salesforce.com/x" "")
       = Ok resp
       /\ RespBody token_response = RespBody resp.
Proof.
  assert (Hrun : (httpRequest (answering token_response) "GET"
                    "https://na1.salesforce.com/x" "" example_state).1
                 = Returns (RespBody token_response, 200, None))
    by (by vm_compute).
  split; [exact Hrun|].
  destruct (proj1 (proj1 (httpRequest_no_error_iff _ _ _ _ _ _ _ _ Hrun)) eq_refl)
    as (_ & _ & resp & Hdo & _ & _ & Hdata & _).
  by exists resp.
Defined.

(** X4: [httpRequest] never changes the client and does not look at the
    login state: when the method (GET for the empty one) is an HTTP
    token and the URL is accepted it sends exactly one request, with
    the headers "Authorization: Bearer <sessionID>" and
    "Content-Type: application/json"; otherwise it sends nothing and
    reports the code 500 with the error of the library. *)
Theorem httpRequest_effect (env : Env) (method url body : string) (st : State) :
  let run := httpRequest env method url body st in
  client run.2 = client st
  /\ (if validMethod (request_method method) && url_Parse_ok env url
      then sent run.2
           = (sent st
              ++ [mkRequest (request_method method) url
                    [("Authorization", "Bearer " +:+ sessionID (client st));
                     ("Content-Type", "application/json")]
                    body])%list
      else sent run.2 = sent st
           /\ exists text, run.1 = Returns ("", 500, Some (LibraryError text))).
Proof.
  intros run. subst run.
  destruct (validMethod (request_method method) && url_Parse_ok env url) eqn:Hok.
  - apply andb_prop in Hok as [Hm Hurl].
    by rewrite httpRequest_default, (httpRequest_sent _ _ _ _ _ Hm Hurl).
  - destruct (httpRequest_refused env method url body st Hok) as [text ->].
    cbn. eauto.
Qed.

Lemma httpRequest_effect_witness :
  let run := httpRequest (answering token_response) "BAD METHOD"
               "https://na1.salesforce.com/x" "" example_state in
  sent run.2 = sent example_state
  /\ exists text, run.1 = Returns ("", 500, Some (LibraryError text)).
Proof.
  exact (proj2 (httpRequest_effect (answering token_response) "BAD METHOD"
                  "https://na1.salesforce.com/x" "" example_state)).
Defined.

(** ** Query *)

Lemma Query_cases (env : Env) (q : string) (st : State) :
  (isLoggedIn (client st) = false
   /\ Query env q st = (Returns (None, Some ERR_AUTHENTICATION), st))
  \/ (isLoggedIn (client st) = true
      /\ url_Parse_ok env (Query_url (client st) q) = false
      /\ exists text,
           Query env q st = (Returns (None, Some (LibraryError text)), st))
  \/ (isLoggedIn (client st) = true
      /\ url_Parse_ok env (Query_url (client st) q) = true).
Proof.
  destruct (isLoggedIn (client st)) eqn:Hin.
  - destruct (url_Parse_ok env (Query_url (client st) q)) eqn:Hurl; [auto|].
    right. left. repeat split.
    unfold Query, bind at 1, getClient at 1. rewrite Hin. cbn [negb]. unfold bind.
    destruct (httpRequest_unparsed env "GET" _ "" st Hurl) as [text ->].
    by exists text.
  - left. split; [done|]. unfold Query, bind, getClient. by rewrite Hin.
Qed.

(** X5: [Query] returns a result only together with a nil error, and
    only for an answer with a status in 200..299 whose body decodes as a
    [QueryResult]; the result is the decoded one, each of its records
    with the client attached. *)
Theorem Query_result (env : Env) (q : string) (st : State)
    (r : QueryResult) (err : option error) :
  (Query env q st).1 = Returns (Some r, err) ->
  err = None
  /\ Forall (fun record => attached record = true) (Records r)
  /\ exists resp decoded,
       Do env (sent st)
          (authorized_request (client st) "GET" (Query_url (client st) q) "")
       = Ok resp
       /\ outside_2xx (StatusCode resp) = false
       /\ Unmarshal_QueryResult (RespBody resp) = Ok decoded
       /\ TotalSize r = TotalSize decoded
       /\ Done r = Done decoded
       /\ NextRecordsURL r = NextRecordsURL decoded
       /\ fields <$> Records r = fields <$> Records decoded.
Proof.
  destruct (Query_cases env q st) as [[_ ->]|[(_ & _ & text & ->)|[Hin Hurl]]];
    [done..|].
  rewrite (Query_authenticated _ _ _ Hin Hurl). cbn [fst].
  destruct (Do env (sent st) _) as [resp|text]; [|done].
  destruct (outside_2xx (StatusCode resp)) eqn:Hout.
  { unfold classified. by destruct (ParseSalesforceError _ _). }
  destruct (ReadError resp); [done|].
  destruct (Unmarshal_QueryResult (RespBody resp)) as [decoded|e] eqn:Hdec; [|done].
  intros [= <- <-]. split; [done|]. cbn [Records TotalSize Done NextRecordsURL].
  split.
  - apply Forall_forall. intros record [o [-> _]]%list_elem_of_fmap. done.
  - exists resp, decoded. repeat split; try done.
    rewrite <- list_fmap_compose. by apply list_fmap_ext.
Qed.

Lemma Query_result_witness :
  let resp :=
    mkResponse 200
      (dq "{'totalSize':2,'done':true,'records':[{'Id':'001A'},{'Id':'001B'}]}")
      None in
  exists r,
    (Query (answering resp) "SELECT Id FROM Account" example_state).1
    = Returns (Some r, None)
    /\ TotalSize r = 2
    /\ length (Records r) = 2%nat
    /\ Forall (fun record => attached record = true) (Records r).
Proof.
  intros resp.
  destruct (Query (answering resp) "SELECT Id FROM Account" example_state).1
    as [[[r|] err]|p] eqn:Hrun; try (by vm_compute in Hrun).
  destruct (Query_result _ _ _ _ _ Hrun) as (-> & Hall & _).
  exists r. split; [done|]. split; [|split; [|exact Hall]].
  - vm_compute in Hrun. by injection Hrun as <-.
  - vm_compute in Hrun. by injection Hrun as <-.
Defined.

(** X6: when [Query] returns an error it returns no result, and the
    error is the authentication error, the generic failure, a classified
    remote error or an error of the HTTP library: an undecodable answer
    is reported as [ERR_FAILURE], never as the decoder's own error. *)
Theorem Query_errors (env : Env) (q : string) (st : State)
    (r : option QueryResult) (e : error) :
  (Query env q st).1 = Returns (r, Some e) ->
  r = None
  /\ (e = ERR_AUTHENTICATION \/ e = ERR_FAILURE \/ is_classified e
      \/ exists text, e = LibraryError text)
  /\ (forall je, e <> JsonError je).
Proof.
  intros Hrun.
  assert (r = None
          /\ (e = ERR_AUTHENTICATION \/ e = ERR_FAILURE \/ is_classified e
              \/ exists text, e = LibraryError text)) as [-> Hkind].
  { destruct (Query_cases env q st) as [[_ Hq]|[(_ & _ & text & Hq)|[Hin Hurl]]].
    - rewrite Hq in Hrun. injection Hrun as <- <-. auto.
    - rewrite Hq in Hrun. injection Hrun as <- <-. eauto 6.
    - rewrite (Query_authenticated _ _ _ Hin Hurl) in Hrun. cbn [fst] in Hrun.
      destruct (Do env (sent st) _) as [resp|text].
      + destruct (outside_2xx (StatusCode resp)).
        * unfold classified in Hrun.
          destruct (ParseSalesforceError _ _) as [e'|] eqn:He; [|done].
          injection Hrun as <- <-. split; [done|].
          apply classifier_is_classified in He as [->|?]; auto.
        * destruct (ReadError resp); [injection Hrun as <- <-; auto|].
          destruct (Unmarshal_QueryResult _); [done|].
          injection Hrun as <- <-. auto.
      + injection Hrun as <- <-. eauto 6. }
  split; [done|]. split; [done|].
  intros je ->.
  destruct Hkind as [?|[?|[(? & ? & ? & ?)|[? ?]]]]; discriminate.
Qed.

Lemma Query_errors_witness :
  (Query (answering (mkResponse 200 "<html>maintenance</html>" None))
     "SELECT Id FROM Account" example_state).1
  = Returns (None, Some ERR_FAILURE)
  /\ forall je, ERR_FAILURE <> JsonError je.
Proof.
  assert (Hrun : (Query (answering (mkResponse 200 "<html>maintenance</html>" None))
                    "SELECT Id FROM Account" example_state).1
                 = Returns (None, Some ERR_FAILURE)) by (by vm_compute).
  split; [exact Hrun|].
  exact (proj2 (proj2 (Query_errors _ _ _ _ _ Hrun))).
Defined.

(** X7: [Query] never changes the client, the stored API version
    included, and sends at most one request: none when the session is
    not authenticated or the URL is refused, one otherwise. *)
Theorem Query_effect (env : Env) (q : string) (st : State) :
  let run := Query env q st in
  client run.2 = client st
  /\ (if isLoggedIn (client st) && url_Parse_ok env (Query_url (client st) q)
      then sent run.2
           = (sent st
              ++ [authorized_request (client st) "GET"
                    (Query_url (client st) q) ""])%list
      else sent run.2 = sent st).
Proof.
  intros run. subst run.
  destruct (Query_cases env q st)
    as [[Hin ->]|[(Hin & Hurl & text & ->)|[Hin Hurl]]];
    rewrite Hin; cbn [andb]; rewrite ?Hurl; [done..|].
  by rewrite (Query_authenticated _ _ _ Hin Hurl).
Qed.

(** ** The stored API version *)

Lemma without_byte_length (b : ascii) (s : string) :
  (String.length (without_byte b s) <= String.length s)%nat.
Proof.
  induction s as [|c s IH]; [done|]. cbn [without_byte].
  destruct (Ascii.eqb b c); cbn [String.length]; lia.
Qed.

Lemma without_byte_shorter (b : ascii) (s : string) :
  has_byte b s = true ->
  (String.length (without_byte b s) < String.length s)%nat.
Proof.
  induction s as [|c s IH]; [done|]. cbn [has_byte without_byte].
  destruct (Ascii.eqb b c); cbn [orb String.length].
  - intros _. pose proof (without_byte_length b s). lia.
  - intros H%IH. lia.
Qed.

Lemma without_byte_same (b : ascii) (s : string) :
  has_byte b s = false -> without_byte b s = s.
Proof.
  induction s as [|c s IH]; [done|]. cbn [has_byte without_byte].
  destruct (Ascii.eqb b c); cbn [orb]; [done|]. by intros ->%IH.
Qed.

Lemma normalized_idempotent (c : Client) : normalized (normalized c) = normalized c.
Proof.
  unfold normalized. cbn. f_equal.
  apply without_byte_same, without_byte_absent.
Qed.

Lemma normalized_same (c : Client) :
  has_byte "v" (apiVersion c) = false -> normalized c = c.
Proof.
  intros H. destruct c. unfold normalized. cbn in *. f_equal.
  by apply without_byte_same.
Qed.

Lemma Query_url_soql (c : Client) (q : string) :
  Strings.HasPrefix q "/services/data" = false ->
  Query_url c q
  = instanceURL c +:+ "/services/data/v" +:+ apiVersion c
    +:+ (if useToolingAPI c then "/tooling/query?q=" else "/query?q=")
    +:+ Url.PathEscape q.
Proof.
  intros H. unfold Query_url. rewrite H.
  destruct (useToolingAPI c); [apply Sprintf_tooling_query | apply Sprintf_query].
Qed.

(** X8: [Query] puts the stored API version into the URL as it is, "v"s
    included, while [makeURL] strips them from the client: for a version
    with a "v" in it, the same SOQL query goes to another URL once any
    call built on [makeURL] has run. *)
Theorem Query_url_after_normalization (req q : string) (st : State) :
  Strings.HasPrefix q "/services/data" = false ->
  has_byte "v" (apiVersion (client st)) = true ->
  Query_url (client st) q
  = instanceURL (client st) +:+ "/services/data/v" +:+ apiVersion (client st)
    +:+ (if useToolingAPI (client st) then "/tooling/query?q=" else "/query?q=")
    +:+ Url.PathEscape q
  /\ Query_url (client (makeURL req st).2) q <> Query_url (client st) q.
Proof.
  intros Hq Hv. split; [by apply Query_url_soql|].
  rewrite makeURL_run. cbn [snd client].
  rewrite !Query_url_soql by done. cbn [normalized instanceURL apiVersion useToolingAPI].
  intros Heq. apply (f_equal String.length) in Heq.
  rewrite !length_append in Heq.
  pose proof (without_byte_shorter "v" _ Hv). lia.
Qed.

Lemma Query_url_after_normalization_witness :
  let st := mkState (mkClient "sid" (mkUser "" "" "" "") "simpleforce" "v43.0"
                       "https://login.salesforce.com/"
                       "https://na1.salesforce.com" false) [] in
  Query_url (client st) "SELECT Id FROM Account"
  = "https://na1.salesforce.com/services/data/vv43.0/query?q=SELECT%20Id%20FROM%20Account"
  /\ Query_url (client (makeURL "sobjects" st).2) "SELECT Id FROM Account"
     <> Query_url (client st) "SELECT Id FROM Account".
Proof.
  intros st.
  destruct (Query_url_after_normalization "sobjects" "SELECT Id FROM Account" st
              eq_refl eq_refl) as [Hurl Hne].
  split; [|exact Hne]. rewrite Hurl. by vm_compute.
Defined.

(** X9: [makeURL] is idempotent on the client: a second call changes
    nothing, and the URL it gives for a path is the one a first call
    would have given; a client whose version has no "v" is never
    changed. *)
Theorem makeURL_idempotent (req1 req2 : string) (st : State) :
  let st1 := (makeURL req1 st).2 in
  (makeURL req2 st1).2 = st1
  /\ (makeURL req2 st1).1 = (makeURL req2 st).1
  /\ (has_byte "v" (apiVersion (client st)) = false -> st1 = st).
Proof.
  intros st1. subst st1. rewrite !makeURL_run. cbn [fst snd client sent].
  rewrite normalized_idempotent. split; [done|]. split.
  - cbn [normalized instanceURL apiVersion].
    by rewrite (without_byte_same _ _ (without_byte_absent _ _)).
  - intros H. rewrite (normalized_same _ H). by destruct st.
Qed.

(** ** Making and restoring a client *)

Lemma rev_acc_append (s t acc : string) :
  Strings.rev_acc (s +:+ t) acc = Strings.rev_acc t (Strings.rev_acc s acc).
Proof.
  revert acc. induction s as [|c s IH]; intros acc; [reflexivity|].
  rewrite append_cons. cbn [Strings.rev_acc]. apply IH.
Qed.

Lemma rev_acc_acc (s acc : string) :
  Strings.rev_acc s acc = Strings.rev_acc s "" +:+ acc.
Proof.
  revert acc. induction s as [|c s IH]; intros acc; [reflexivity|].
  cbn [Strings.rev_acc]. rewrite (IH (String c acc)), (IH (String c "")).
  by rewrite append_assoc.
Qed.

Lemma rev_acc_involutive (s : string) :
  Strings.rev_acc (Strings.rev_acc s "") "" = s.
Proof.
  induction s as [|c s IH]; [reflexivity|].
  cbn [Strings.rev_acc].
  rewrite (rev_acc_acc s (String c "")), rev_acc_append, IH. reflexivity.
Qed.

Lemma HasSuffix_byte (s : string) (b : ascii) :
  Strings.HasSuffix s (String b "") = true <-> exists p, s = p +:+ String b "".
Proof.
  unfold Strings.HasSuffix. cbn [Strings.rev_acc]. split.
  - intros H. destruct (Strings.rev_acc s "") as [|c r] eqn:Hr; [done|].
    rewrite prefix_byte in H. apply Ascii.eqb_eq in H as ->.
    exists (Strings.rev_acc r "").
    rewrite <- (rev_acc_involutive s), Hr. cbn [Strings.rev_acc].
    apply rev_acc_acc.
  - intros [p ->]. rewrite rev_acc_append. cbn [Strings.rev_acc].
    rewrite prefix_byte. apply Ascii.eqb_refl.
Qed.

(** X10: [NewClient] keeps the given URL when it ends with a slash and
    appends one otherwise, so the base URL always ends with a slash; the
    API version is stored as given (a "v" in it stays until [makeURL]
    runs), and the new client is not logged in and has no instance URL. *)
Theorem NewClient_made (url cid version : string) :
  let c := NewClient url cid version in
  (exists p, baseURL c = p +:+ "/")
  /\ (baseURL c = url <-> exists p, url = p +:+ "/")
  /\ (baseURL c = url \/ baseURL c = url +:+ "/")
  /\ apiVersion c = version /\ clientID c = cid
  /\ instanceURL c = "" /\ sessionID c = "" /\ isLoggedIn c = false
  /\ useToolingAPI c = false.
Proof.
  intros c. subst c. unfold NewClient. cbn.
  destruct (Strings.HasSuffix url "/") eqn:Hs; cbn [negb].
  - pose proof (proj1 (HasSuffix_byte url "/") Hs) as Hp.
    repeat split; auto.
  - split; [by exists url|]. split; [|repeat split; auto].
    split.
    + intros Heq. apply (f_equal String.length) in Heq.
      rewrite length_append in Heq. cbn in Heq. lia.
    + intros Hp%HasSuffix_byte. congruence.
Qed.

(** X11: [SetSidLoc] stores exactly the two values that [GetSid] and
    [GetLoc] read back, touches no other field and sends nothing; the
    client counts as logged in afterwards exactly when the session ID is
    not empty. *)
Theorem SetSidLoc_round_trip (sid loc : string) (st : State) :
  let st' := (SetSidLoc sid loc st).2 in
  (SetSidLoc sid loc st).1 = Returns tt
  /\ GetSid st' = (Returns sid, st')
  /\ GetLoc st' = (Returns loc, st')
  /\ isLoggedIn (client st') = negb (sid =? "")%string
  /\ client st' = mkClient sid (user (client st)) (clientID (client st))
                    (apiVersion (client st)) (baseURL (client st)) loc
                    (useToolingAPI (client st))
  /\ sent st' = sent st.
Proof. by destruct st. Qed.

Lemma prefix_append (a t : string) : String.prefix a (a +:+ t) = true.
Proof.
  induction a as [|x a IH]; [apply prefix_empty|].
  rewrite append_cons, prefix_cons. apply IH.
Qed.

(** X12: a query made after [SetSidLoc] is sent with the new session ID
    as bearer token to a URL built on the new instance URL; with an
    empty session ID every later query is the authentication failure and
    nothing is sent. *)
Theorem Query_after_SetSidLoc (env : Env) (sid loc q : string) (st : State) :
  let st' := (SetSidLoc sid loc st).2 in
  let url := Query_url (client st') q in
  (sid = "" -> Query env q st' = (Returns (None, Some ERR_AUTHENTICATION), st'))
  /\ (sid <> "" -> url_Parse_ok env url = true ->
      sent (Query env q st').2
      = (sent st
         ++ [mkRequest "GET" url
               [("Authorization", "Bearer " +:+ sid);
                ("Content-Type", "application/json")] ""])%list)
  /\ (Strings.HasPrefix q "/services/data" = true -> url = loc +:+ q)
  /\ (Strings.HasPrefix q "/services/data" = false ->
      Strings.HasPrefix url (loc +:+ "/services/data/v") = true).
Proof.
  intros st' url. subst st' url. destruct st as [c snt]. cbn [snd SetSidLoc].
  set (st' := (SetSidLoc sid loc (mkState c snt)).2).
  split; [|split; [|split]].
  - intros ->. by destruct (Query_cases env q st') as [[_ ->]|[(Hin & _)|[Hin _]]].
  - intros Hsid Hurl.
    assert (Hin : isLoggedIn (client st') = true).
    { cbn. by apply negb_true_iff, String.eqb_neq. }
    by rewrite (Query_authenticated _ _ _ Hin Hurl).
  - intros Hq. unfold Query_url. rewrite Hq. apply Sprintf_concat.
  - intros Hq. rewrite (Query_url_soql _ _ Hq). cbn [client st' snd SetSidLoc
      bind getClient putClient instanceURL].
    unfold Strings.HasPrefix.
    rewrite <- (append_assoc loc "/services/data/v"). apply prefix_append.
Qed.

Lemma Query_after_SetSidLoc_witness :
  let env := answering unavailable in
  let st := mkState (NewClient DefaultURL DefaultClientID DefaultAPIVersion) [] in
  let st' := (SetSidLoc "00Dxx!AQ4" "https://na1.salesforce.com" st).2 in
  sent (Query env "SELECT Id FROM Account" st').2
  = [mkRequest "GET"
       "https://na1.salesforce.com/services/data/v43.0/query?q=SELECT%20Id%20FROM%20Account"
       [("Authorization", "Bearer 00Dxx!AQ4");
        ("Content-Type", "application/json")] ""].
Proof.
  intros env st st'.
  destruct (Query_after_SetSidLoc env "00Dxx!AQ4" "https://na1.salesforce.com"
              "SELECT Id FROM Account" st) as (_ & Hsent & _).
  etrans; [exact (Hsent ltac:(done) eq_refl)|]. by vm_compute.
Defined.

(** ** The batch of changed records *)

Lemma run_tasks_nil (env : Env) (c : Client) (name : string) :
  run_tasks env c name [] = [].
Proof.
  unfold run_tasks. cbn [length replicate].
  induction (schedule env 0) as [|i l IH]; [done|]. cbn [foldl]. exact IH.
Qed.

Lemma GetCreatedUpdatedRecords_run
    (env : Env) (name startDateTime endDateTime : string) (st : State) :
  let c := client st in
  let req := updated_request c name startDateTime endDateTime in
  isLoggedIn c = true ->
  url_Parse_ok env (URL req) = true ->
  GetCreatedUpdatedRecords env name startDateTime endDateTime st
  = (match Do env (sent st) req with
     | Err _ => Panics NilDereference
     | Ok resp =>
         if outside_2xx (StatusCode resp) then
           classified (StatusCode resp) (RespBody resp) (fun e => ([], Some e))
         else
           match ReadError resp with
           | Some _ => Returns ([], Some ERR_FAILURE)
           | None => updated_outcome env (normalized c) name (RespBody resp)
           end
     end,
     mkState (normalized c) (sent st ++ [req])).
Proof.
  intros c req Hin Hurl.
  unfold GetCreatedUpdatedRecords, bind at 1, getClient at 1.
  fold c. rewrite Hin. cbn [negb]. unfold bind at 1. rewrite makeURL_run.
  fold c. rewrite http_NewRequest_valid by reflexivity.
  cbn [URL req updated_request] in Hurl. rewrite Hurl.
  unfold bind at 1, getClient at 1. cbn [client].
  unfold bind at 1, httpClient_Do, Header_Add.
  cbn [Header app URL Method ReqBody client sent normalized sessionID].
  fold (updated_request c name startDateTime endDateTime). fold req.
  fold (normalized c).
  destruct (Do env (sent st) req) as [resp|text]; [|done].
  destruct (outside_2xx (StatusCode resp)) eqn:H2xx.
  { unfold bind, lift, classified, buf_ReadFrom.
    by destruct (ParseSalesforceError _ _). }
  rewrite (RetryLogic_2xx _ H2xx). unfold ioutil_ReadAll, updated_outcome.
  destruct (ReadError resp); [done|].
  destruct (Unmarshal_SObject (RespBody resp)) as [sobj|]; [|done].
  destruct (fields sobj !! "ids") as [[| | | |ids|]|]; try done.
  destruct ids as [|id ids];
    [cbn [assert_strings]; by rewrite run_tasks_nil|].
  cbn [length Nat.ltb Nat.leb]. unfold bind, lift.
  by destruct (assert_strings (id :: ids)).
Qed.

Lemma assert_strings_first_other (pre : list string) (v : Json.value)
    (post : list Json.value) :
  go_type v <> "string" ->
  assert_strings (map Json.Str pre ++ v :: post)
  = Panics (InterfaceConversion (go_type v)).
Proof.
  intros Hv. induction pre as [|id pre IH].
  - cbn [map app assert_strings]. by destruct v.
  - cbn [map app assert_strings]. fold (@app Json.value). by rewrite IH.
Qed.

Lemma assert_strings_returns (ids : list Json.value) (l : list string) :
  assert_strings ids = Returns l -> ids = map Json.Str l.
Proof.
  revert l. induction ids as [|v ids IH]; intros l.
  - cbn. by intros [= <-].
  - destruct v; try done. cbn [assert_strings].
    destruct (assert_strings ids) as [l'|]; [|done].
    intros [= <-]. cbn [map]. by rewrite (IH l').
Qed.

(** X13: without a session the batch call returns the authentication
    error and no records; nothing is sent, and the client is left as it
    was, the "v" of a stored version included. *)
Theorem GetCreatedUpdatedRecords_no_session
    (env : Env) (name startDateTime endDateTime : string) (st : State) :
  sessionID (client st) = "" ->
  GetCreatedUpdatedRecords env name startDateTime endDateTime st
  = (Returns ([], Some ERR_AUTHENTICATION), st).
Proof.
  intros Hsid. unfold GetCreatedUpdatedRecords, bind, getClient, isLoggedIn.
  by rewrite Hsid.
Qed.

Lemma GetCreatedUpdatedRecords_no_session_witness :
  let st := mkState (NewClient DefaultURL DefaultClientID "v43.0") [] in
  GetCreatedUpdatedRecords (answering updated_response) "Account"
    "2024-01-01T00:00:00+00:00" "2024-01-02T00:00:00+00:00" st
  = (Returns ([], Some ERR_AUTHENTICATION), st).
Proof.
  intros st.
  exact (GetCreatedUpdatedRecords_no_session (answering updated_response)
           "Account" "2024-01-01T00:00:00+00:00" "2024-01-02T00:00:00+00:00"
           st eq_refl).
Defined.

(** X14: when the batch call returns an error it returns no records, and
    the error is the authentication error, the generic failure or a
    classified remote error; it is never the retry sentinel and never an
    error of the HTTP or JSON library. *)
Theorem GetCreatedUpdatedRecords_errors
    (env : Env) (name startDateTime endDateTime : string) (st : State)
    (sobjs : list (option SObject)) (e : error) :
  (GetCreatedUpdatedRecords env name startDateTime endDateTime st).1
  = Returns (sobjs, Some e) ->
  sobjs = []
  /\ (e = ERR_AUTHENTICATION \/ e = ERR_FAILURE \/ is_classified e)
  /\ e <> ERR_RETRY
  /\ (forall text, e <> LibraryError text)
  /\ (forall je, e <> JsonError je).
Proof.
  intros Hrun.
  assert (sobjs = []
          /\ (e = ERR_AUTHENTICATION \/ e = ERR_FAILURE \/ is_classified e))
    as [-> Hkind].
  { destruct (isLoggedIn (client st)) eqn:Hin.
    - destruct (url_Parse_ok env
                  (URL (updated_request (client st) name startDateTime
                          endDateTime))) eqn:Hurl.
      + rewrite (GetCreatedUpdatedRecords_run _ _ _ _ _ Hin Hurl) in Hrun.
        cbn [fst] in Hrun.
        destruct (Do env (sent st) _) as [resp|text]; [|done].
        destruct (outside_2xx (StatusCode resp)).
        * unfold classified in Hrun.
          destruct (ParseSalesforceError _ _) as [e'|] eqn:He; [|done].
          injection Hrun as <- <-. split; [done|].
          apply classifier_is_classified in He as [->|?]; auto.
        * destruct (ReadError resp); [injection Hrun as <- <-; auto|].
          unfold updated_outcome in Hrun.
          repeat case_match; simplify_eq; auto.
      + revert Hrun.
        unfold GetCreatedUpdatedRecords, bind at 1, getClient at 1.
        rewrite Hin. cbn [negb]. unfold bind at 1. rewrite makeURL_run.
        rewrite http_NewRequest_valid by reflexivity.
        cbn [URL updated_request] in Hurl. rewrite Hurl.
        cbn. intros [= <- <-]. auto.
    - revert Hrun. unfold GetCreatedUpdatedRecords, bind, getClient.
      rewrite Hin. cbn. intros [= <- <-]. auto. }
  split; [done|]. split; [done|].
  split; [|split]; intros; intros ->;
    destruct Hkind as [?|[?|(? & ? & ? & ?)]]; discriminate.
Qed.

Lemma GetCreatedUpdatedRecords_errors_witness :
  (GetCreatedUpdatedRecords (answering unavailable) "Account"
     "2024-01-01T00:00:00+00:00" "2024-01-02T00:00:00+00:00" example_state).1
  = Returns ([], Some (SfdcErr {| Code := "SERVER_UNAVAILABLE";
                                  Message := "Service Unavailable";
                                  Extra := statusExtra 503 |}))
  /\ SfdcErr {| Code := "SERVER_UNAVAILABLE"; Message := "Service Unavailable";
                Extra := statusExtra 503 |} <> ERR_RETRY.
Proof.
  assert (Hrun :
    (GetCreatedUpdatedRecords (answering unavailable) "Account"
       "2024-01-01T00:00:00+00:00" "2024-01-02T00:00:00+00:00" example_state).1
    = Returns ([], Some (SfdcErr {| Code := "SERVER_UNAVAILABLE";
                                    Message := "Service Unavailable";
                                    Extra := statusExtra 503 |}))).
  { rewrite (GetCreatedUpdatedRecords_run (answering unavailable) "Account"
               "2024-01-01T00:00:00+00:00" "2024-01-02T00:00:00+00:00"
               example_state eq_refl eq_refl).
    cbn [fst answering Do unavailable StatusCode RespBody].
    change (outside_2xx 503) with true. cbn iota.
    unfold classified, ParseSalesforceError. eval_decoders. reflexivity. }
  split; [exact Hrun|].
  exact (proj1 (proj2 (proj2 (GetCreatedUpdatedRecords_errors _ _ _ _ _ _ _ Hrun)))).
Defined.

(** X15: a request of the batch call that does not get through is not
    handled: the call reads the status through the nil response and
    panics, once the request has gone out, where [Query] returns the
    error of the HTTP library for the same failure. *)
Theorem GetCreatedUpdatedRecords_unreachable
    (env : Env) (name startDateTime endDateTime q text : string) (st : State) :
  let c := client st in
  let req := updated_request c name startDateTime endDateTime in
  isLoggedIn c = true ->
  url_Parse_ok env (URL req) = true ->
  url_Parse_ok env (Query_url c q) = true ->
  (forall sent req, Do env sent req = Err text) ->
  GetCreatedUpdatedRecords env name startDateTime endDateTime st
  = (Panics NilDereference, mkState (normalized c) (sent st ++ [req]))
  /\ (Query env q st).1 = Returns (None, Some (LibraryError text)).
Proof.
  intros c req Hin Hurl Hq Hdo. split.
  - rewrite (GetCreatedUpdatedRecords_run _ _ _ _ _ Hin Hurl). fold c req.
    by rewrite Hdo.
  - rewrite (Query_authenticated _ _ _ Hin Hq). cbn [fst]. by rewrite Hdo.
Qed.

Lemma GetCreatedUpdatedRecords_unreachable_witness :
  (GetCreatedUpdatedRecords (failing "dial tcp: i/o timeout") "Account"
     "2024-01-01T00:00:00+00:00" "2024-01-02T00:00:00+00:00" example_state).1
  = Panics NilDereference
  /\ (Query (failing "dial tcp: i/o timeout") "SELECT Id FROM Account"
        example_state).1
     = Returns (None, Some (LibraryError "dial tcp: i/o timeout")).
Proof.
  destruct (GetCreatedUpdatedRecords_unreachable
              (failing "dial tcp: i/o timeout") "Account"
              "2024-01-01T00:00:00+00:00" "2024-01-02T00:00:00+00:00"
              "SELECT Id FROM Account" "dial tcp: i/o timeout" example_state
              eq_refl eq_refl eq_refl (fun _ _ => eq_refl)) as [Hrun Hq].
  split; [by rewrite Hrun | exact Hq].
Defined.

(** X16: when the URL of the batch call is refused, the call returns the
    generic failure and no records and sends nothing, but the client has
    already lost the "v"s of its stored version. *)
Theorem GetCreatedUpdatedRecords_url_refused
    (env : Env) (name startDateTime endDateTime : string) (st : State) :
  let c := client st in
  isLoggedIn c = true ->
  url_Parse_ok env (URL (updated_request c name startDateTime endDateTime))
  = false ->
  GetCreatedUpdatedRecords env name startDateTime endDateTime st
  = (Returns ([], Some ERR_FAILURE), mkState (normalized c) (sent st)).
Proof.
  intros c Hin Hurl.
  unfold GetCreatedUpdatedRecords, bind at 1, getClient at 1.
  fold c. rewrite Hin. cbn [negb]. unfold bind at 1. rewrite makeURL_run.
  fold c. rewrite http_NewRequest_valid by reflexivity.
  cbn [URL updated_request] in Hurl. by rewrite Hurl.
Qed.

Lemma GetCreatedUpdatedRecords_url_refused_witness :
  let st := mkState (mkClient "sid" (mkUser "" "" "" "") "simpleforce" "v43.0"
                       "https://login.salesforce.com/"
                       "https://na1.salesforce.com" false) [] in
  GetCreatedUpdatedRecords refusing "Account" "a" "b" st
  = (Returns ([], Some ERR_FAILURE),
     mkState (mkClient "sid" (mkUser "" "" "" "") "simpleforce" "43.0"
                "https://login.salesforce.com/"
                "https://na1.salesforce.com" false) []).
Proof.
  intros st.
  exact (GetCreatedUpdatedRecords_url_refused refusing "Account" "a" "b" st
           eq_refl eq_refl).
Defined.

(** X17: what the batch call makes of an answer in the success range:
    a body that cannot be read, is not a JSON object, has no "ids" or
    has "ids" that is not an array gives the generic failure; an empty
    array gives no records and no error; an array whose first element
    that is not a string is [v] makes the call panic on the conversion
    of [v], whatever the fetches started before would have returned. *)
Theorem GetCreatedUpdatedRecords_answer
    (env : Env) (name startDateTime endDateTime : string) (st : State)
    (resp : Response) :
  let c := client st in
  let req := updated_request c name startDateTime endDateTime in
  let run := (GetCreatedUpdatedRecords env name startDateTime endDateTime st).1 in
  isLoggedIn c = true ->
  url_Parse_ok env (URL req) = true ->
  Do env (sent st) req = Ok resp ->
  outside_2xx (StatusCode resp) = false ->
  (ReadError resp <> None -> run = Returns ([], Some ERR_FAILURE))
  /\ (ReadError resp = None ->
      match Unmarshal_SObject (RespBody resp) with
      | Err _ => run = Returns ([], Some ERR_FAILURE)
      | Ok sobj =>
          match fields sobj !! "ids" with
          | Some (Json.Array ids) =>
              (ids = [] -> run = Returns ([], None))
              /\ (forall pre v post,
                    ids = (map Json.Str pre ++ v :: post)%list ->
                    go_type v <> "string" ->
                    run = Panics (InterfaceConversion (go_type v)))
              /\ (forall sobjs err,
                    run = Returns (sobjs, err) ->
                    err = None /\ length sobjs = length ids
                    /\ exists l, ids = map Json.Str l)
          | _ => run = Returns ([], Some ERR_FAILURE)
          end
      end).
Proof.
  intros c req run Hin Hurl Hdo H2xx. subst run.
  rewrite (GetCreatedUpdatedRecords_run _ _ _ _ _ Hin Hurl). fold c req.
  rewrite Hdo, H2xx. cbn [fst]. split.
  - by destruct (ReadError resp).
  - intros ->. unfold updated_outcome.
    destruct (Unmarshal_SObject (RespBody resp)) as [sobj|]; [|done].
    destruct (fields sobj !! "ids") as [[| | | |ids|]|]; try done.
    split; [|split].
    + intros ->. cbn [assert_strings]. by rewrite run_tasks_nil.
    + intros pre v post -> Hv. by rewrite assert_strings_first_other.
    + intros sobjs err.
      destruct (assert_strings ids) as [l|] eqn:Hl; [|done].
      intros [= <- <-]. apply assert_strings_returns in Hl as ->.
      split; [done|]. split; [|by exists l].
      by rewrite run_tasks_length, length_map.
Qed.

Lemma GetCreatedUpdatedRecords_answer_witness :
  (GetCreatedUpdatedRecords (answering mixed_ids_response) "Account"
     "2024-01-01T00:00:00+00:00" "2024-01-02T00:00:00+00:00" example_state).1
  = Panics (InterfaceConversion "float64").
Proof.
  destruct (GetCreatedUpdatedRecords_answer (answering mixed_ids_response)
              "Account" "2024-01-01T00:00:00+00:00" "2024-01-02T00:00:00+00:00"
              example_state mixed_ids_response eq_refl eq_refl eq_refl eq_refl)
    as [_ H].
  specialize (H eq_refl).
  assert (Hbody : Unmarshal_SObject (RespBody mixed_ids_response)
                  = Ok (mkSObject
                          {[ "ids" := Json.Array [Json.Str "A"; Json.Number "7";
                                                  Json.Str "C"] ]} false))
    by (by vm_compute).
  rewrite Hbody in H. cbn [fields] in H. rewrite lookup_singleton in H.
  destruct H as (_ & Hpanic & _).
  exact (Hpanic ["A"] (Json.Number "7") [Json.Str "C"] eq_refl ltac:(done)).
Defined.

Lemma Sprintf_plain_prefix (p format : string) (args : list string) :
  has_byte "%" p = false ->
  Fmt.Sprintf (p +:+ format) args = p +:+ Fmt.Sprintf format args.
Proof.
  induction p as [|c p IH]; [done|].
  cbn [has_byte]. intros [Hc Hp]%orb_false_elim.
  rewrite !append_cons. cbn [Fmt.Sprintf].
  rewrite Ascii.eqb_sym in Hc. unfold Byte8.eqb. rewrite Hc. by rewrite IH.
Qed.

Lemma has_byte_append (b : ascii) (s t : string) :
  has_byte b (s +:+ t) = has_byte b s || has_byte b t.
Proof.
  induction s as [|c s IH]; [done|].
  rewrite append_cons. cbn [has_byte]. by rewrite IH, orb_assoc.
Qed.

Lemma has_byte_without_byte (b v : ascii) (s : string) :
  has_byte b s = false -> has_byte b (without_byte v s) = false.
Proof.
  induction s as [|c s IH]; [done|]. cbn [has_byte without_byte].
  intros [Hc Hs]%orb_false_elim.
  destruct (Ascii.eqb v c); cbn [has_byte]; rewrite ?Hc; by apply IH.
Qed.

Lemma Sprintf_updated (name a b : string) :
  Fmt.Sprintf "sobjects/%s/updated/?start=%s&end=%s" [name; a; b]
  = "sobjects/" +:+ name +:+ "/updated/?start=" +:+ a +:+ "&end=" +:+ b.
Proof. simpl. by rewrite append_empty_r. Qed.

(** X18: the request of the batch call.  For an instance URL and a
    version without a percent sign, the first request the call sends,
    before any record is fetched, is a GET to
    instanceURL/services/data/v{version without "v"}/sobjects/{name}/updated/
    with the two times query-escaped and the object name put in as it
    is given, with the three headers in the order they are added.  What
    the fetches of the records send after it is not stated. *)
Theorem GetCreatedUpdatedRecords_request
    (env : Env) (name startDateTime endDateTime : string) (st : State) :
  let c := client st in
  let url := instanceURL c +:+ "/services/data/v"
             +:+ without_byte "v" (apiVersion c)
             +:+ "/sobjects/" +:+ name +:+ "/updated/?start="
             +:+ Url.QueryEscape startDateTime
             +:+ "&end=" +:+ Url.QueryEscape endDateTime in
  let log :=
    sent (GetCreatedUpdatedRecords env name startDateTime endDateTime st).2 in
  isLoggedIn c = true ->
  has_byte "%" (instanceURL c) = false ->
  has_byte "%" (apiVersion c) = false ->
  url_Parse_ok env url = true ->
  sent st `prefix_of` log
  /\ log !! length (sent st)
     = Some (mkRequest "GET" url
               [("Content-Type", "application/json; charset=UTF-8");
                ("Accept", "application/json");
                ("Authorization", "Bearer " +:+ sessionID c)]
               "").
Proof.
  intros c url log Hin Hi Hv Hurl. subst log.
  assert (Heq : URL (updated_request c name startDateTime endDateTime) = url).
  { cbn [URL updated_request].
    rewrite <- !append_assoc.
    rewrite Sprintf_plain_prefix, Sprintf_updated.
    - subst url. by rewrite !append_assoc.
    - rewrite !has_byte_append, Hi, (has_byte_without_byte _ _ _ Hv). done. }
  rewrite <- Heq in Hurl.
  rewrite (GetCreatedUpdatedRecords_run _ _ _ _ _ Hin Hurl). fold c.
  cbn [snd sent]. unfold updated_request in *. cbn [URL] in Heq.
  rewrite Heq. split; [by apply prefix_app_r|].
  by rewrite lookup_app_r, Nat.sub_diag.
Qed.

Lemma GetCreatedUpdatedRecords_request_witness :
  URL <$> sent (GetCreatedUpdatedRecords (answering updated_response)
                  "Account" "2024-01-01T00:00:00+00:00" "2024-01-02 00:00"
                  example_state).2 !! 0%nat
  = Some "https://na1.salesforce.com/services/data/v43.0/sobjects/Account/updated/?start=2024-01-01T00%3A00%3A00%2B00%3A00&end=2024-01-02+00%3A00".
Proof.
  destruct (GetCreatedUpdatedRecords_request (answering updated_response)
              "Account" "2024-01-01T00:00:00+00:00" "2024-01-02 00:00"
              example_state eq_refl eq_refl eq_refl eq_refl) as [_ Hfirst].
  change (length (sent example_state)) with 0%nat in Hfirst.
  rewrite Hfirst. by vm_compute.
Defined.

(** X19: the batch call strips the "v"s from the stored version as soon
    as the session check has passed, whatever happens next, and leaves
    the client alone otherwise; when the session check fails or the URL
    is refused it sends nothing, and otherwise the first request it
    sends is the one for the list of changed records. *)
Theorem GetCreatedUpdatedRecords_effect
    (env : Env) (name startDateTime endDateTime : string) (st : State) :
  let c := client st in
  let req := updated_request c name startDateTime endDateTime in
  let run := GetCreatedUpdatedRecords env name startDateTime endDateTime st in
  client run.2 = (if isLoggedIn c then normalized c else c)
  /\ (if isLoggedIn c && url_Parse_ok env (URL req)
      then sent st `prefix_of` sent run.2
           /\ sent run.2 !! length (sent st) = Some req
      else sent run.2 = sent st).
Proof.
  intros c req run. subst run.
  destruct (isLoggedIn c) eqn:Hin; cbn [andb].
  - destruct (url_Parse_ok env (URL req)) eqn:Hurl.
    + rewrite (GetCreatedUpdatedRecords_run _ _ _ _ _ Hin Hurl).
      fold c req. cbn [snd client sent]. split; [done|].
      split; [by apply prefix_app_r|].
      by rewrite lookup_app_r, Nat.sub_diag.
    + assert (GetCreatedUpdatedRecords env name startDateTime endDateTime st
              = (Returns ([], Some ERR_FAILURE),
                 mkState (normalized c) (sent st))) as ->; [|done].
      unfold GetCreatedUpdatedRecords, bind at 1, getClient at 1.
      fold c. rewrite Hin. cbn [negb]. unfold bind at 1. rewrite makeURL_run.
      fold c. rewrite http_NewRequest_valid by reflexivity.
      cbn [URL req updated_request] in Hurl. by rewrite Hurl.
  - unfold GetCreatedUpdatedRecords, bind, getClient. fold c. by rewrite Hin.
Qed.

(** ** The OAuth token calls *)

Lemma RefreshToken_refused (env : Env) (clientId clientSecret refreshToken : string)
    (st : State) :
  url_Parse_ok env
    (URL (refresh_request (client st) clientId clientSecret refreshToken))
  = false ->
  RefreshToken env clientId clientSecret refreshToken st
  = (Returns (None, Some ERR_FAILURE), mkState (normalized (client st)) (sent st)).
Proof.
  intros Hurl. unfold RefreshToken, bind at 1. rewrite makeURL_run.
  change ("/" +:+ "services/oauth2/token") with "/services/oauth2/token".
  rewrite http_NewRequest_valid by reflexivity. cbn [URL refresh_request] in Hurl. by rewrite Hurl.
Qed.

(** X20: how [RefreshToken] fails.  A refused URL gives the generic
    failure with nothing sent; a request that does not get through, or a
    body that breaks off, gives the error of the HTTP library as it is;
    and the call panics only where the classifier does, on an answer
    outside 200..299. *)
Theorem RefreshToken_failures
    (env : Env) (clientId clientSecret refreshToken : string) (st : State) :
  let req := refresh_request (client st) clientId clientSecret refreshToken in
  let run := RefreshToken env clientId clientSecret refreshToken st in
  (url_Parse_ok env (URL req) = false ->
   run.1 = Returns (None, Some ERR_FAILURE) /\ sent run.2 = sent st)
  /\ (url_Parse_ok env (URL req) = true ->
      (forall text,
         Do env (sent st) req = Err text ->
         run.1 = Returns (None, Some (LibraryError text)))
      /\ (forall resp text,
            Do env (sent st) req = Ok resp ->
            outside_2xx (StatusCode resp) = false ->
            ReadError resp = Some text ->
            run.1 = Returns (None, Some (LibraryError text))))
  /\ (forall p,
        run.1 = Panics p ->
        exists resp,
          Do env (sent st) req = Ok resp
          /\ outside_2xx (StatusCode resp) = true
          /\ ParseSalesforceError (StatusCode resp) (RespBody resp) = Panics p).
Proof.
  intros req run. subst run. split; [|split].
  - intros Hurl. by rewrite (RefreshToken_refused _ _ _ _ _ Hurl).
  - intros Hurl. rewrite (RefreshToken_run _ _ _ _ _ Hurl). fold req. cbn [fst].
    split.
    + by intros text ->.
    + by intros resp text -> -> ->.
  - intros p.
    destruct (url_Parse_ok env (URL req)) eqn:Hurl.
    + rewrite (RefreshToken_run _ _ _ _ _ Hurl). fold req. cbn [fst].
      destruct (Do env (sent st) req) as [resp|text]; [|done].
      destruct (outside_2xx (StatusCode resp)) eqn:H2xx.
      * unfold classified.
        destruct (ParseSalesforceError _ _) as [e|p'] eqn:He; [done|].
        intros [= <-]. by exists resp.
      * destruct (ReadError resp); [done|].
        by destruct (Unmarshal_Token (RespBody resp)).
    + by rewrite (RefreshToken_refused _ _ _ _ _ Hurl).
Qed.

Lemma RefreshToken_failures_witness :
  (RefreshToken (failing "dial tcp: i/o timeout") "id" "secret" "5Aep861"
     example_state).1
  = Returns (None, Some (LibraryError "dial tcp: i/o timeout"))
  /\ (RefreshToken refusing "id" "secret" "5Aep861" example_state).1
     = Returns (None, Some ERR_FAILURE).
Proof.
  split.
  - destruct (RefreshToken_failures (failing "dial tcp: i/o timeout")
                "id" "secret" "5Aep861" example_state) as (_ & H & _).
    destruct (H eq_refl) as [Herr _].
    exact (Herr "dial tcp: i/o timeout" eq_refl).
  - destruct (RefreshToken_failures refusing "id" "secret" "5Aep861"
                example_state) as (H & _).
    exact (proj1 (H eq_refl)).
Defined.

(** X21: [RefreshToken] needs no session and keeps none: the result
    does not depend on the stored session ID, and the token that comes
    back is not stored, the client after the call being the client
    before it with the "v"s stripped from the version. *)
Theorem RefreshToken_session
    (env : Env) (clientId clientSecret refreshToken sid : string) (st : State) :
  let c := client st in
  let st' := mkState (mkClient sid (user c) (clientID c) (apiVersion c)
                        (baseURL c) (instanceURL c) (useToolingAPI c))
               (sent st) in
  (RefreshToken env clientId clientSecret refreshToken st').1
  = (RefreshToken env clientId clientSecret refreshToken st).1
  /\ client (RefreshToken env clientId clientSecret refreshToken st).2
     = normalized c
  /\ sessionID (client (RefreshToken env clientId clientSecret refreshToken st).2)
     = sessionID c.
Proof.
  intros c st'.
  assert (Hreq : refresh_request (client st') clientId clientSecret refreshToken
                 = refresh_request c clientId clientSecret refreshToken)
    by reflexivity.
  destruct (url_Parse_ok env
              (URL (refresh_request c clientId clientSecret refreshToken)))
    eqn:Hurl.
  - rewrite (RefreshToken_run env _ _ _ st), (RefreshToken_run env _ _ _ st');
      [|by rewrite Hreq|done].
    rewrite Hreq. done.
  - rewrite (RefreshToken_refused env _ _ _ st),
      (RefreshToken_refused env _ _ _ st'); [done|by rewrite Hreq|done].
Qed.

Lemma Encode_token (refreshToken : string) :
  Url.Encode [("token", [refreshToken])] = "token=" +:+ Url.QueryEscape refreshToken.
Proof.
  unfold Url.Encode. cbn [Url.sorted fold_right Url.insert_sorted flat_map map
                          app fst snd Strings.Join].
  replace (Url.QueryEscape "token") with "token" by (by vm_compute).
  reflexivity.
Qed.

Lemma RevokeToken_run (env : Env) (refreshToken : string) (st : State) :
  let req := revoke_request (client st) refreshToken in
  RevokeToken env refreshToken st
  = if url_Parse_ok env (URL req) then
      (match Do env (sent st) req with
       | Err text => Returns (Some (LibraryError text))
       | Ok resp =>
           if outside_2xx (StatusCode resp) then
             classified (StatusCode resp) (RespBody resp) Some
           else Returns None
       end,
       mkState (normalized (client st)) (sent st ++ [req]))
    else (Returns (Some ERR_FAILURE), mkState (normalized (client st)) (sent st)).
Proof.
  intros req. unfold RevokeToken, bind at 1. rewrite makeURL_run.
  change ("/" +:+ "services/oauth2/revoke") with "/services/oauth2/revoke".
  rewrite Encode_token. rewrite http_NewRequest_valid by reflexivity.
  cbn [URL req revoke_request].
  destruct (url_Parse_ok env _); [|done].
  unfold bind, httpClient_Do, Header_Add.
  cbn [Header app URL Method ReqBody client sent].
  fold (revoke_request (client st) refreshToken). fold req.
  destruct (Do env (sent st) req) as [resp|text]; [|reflexivity].
  destruct (outside_2xx (StatusCode resp)); [|done].
  unfold lift, classified, buf_ReadFrom, ret.
  by destruct (ParseSalesforceError _ _).
Qed.

(** X22: [RevokeToken] posts the form "token=<escaped token>" to the
    path "/services/data/v<version>/services/oauth2/revoke" on the
    instance, not to "/services/oauth2/revoke"; for an answer in
    200..299 it returns nil without looking at the body, for any other
    answer what the classifier makes of the body, and for a request that
    does not get through the error of the HTTP library. *)
Theorem RevokeToken_request_and_result
    (env : Env) (refreshToken : string) (st : State) :
  let c := client st in
  let req :=
    mkRequest "POST"
      (instanceURL c +:+ "/services/data/v" +:+ without_byte "v" (apiVersion c)
       +:+ "/services/oauth2/revoke")
      [("Accept", "application/json");
       ("Content-Type", "application/x-www-form-urlencoded")]
      ("token=" +:+ Url.QueryEscape refreshToken) in
  let run := RevokeToken env refreshToken st in
  url_Parse_ok env (URL req) = true ->
  sent run.2 = (sent st ++ [req])%list
  /\ URL req <> instanceURL c +:+ "/services/oauth2/revoke"
  /\ match Do env (sent st) req with
     | Err text => run.1 = Returns (Some (LibraryError text))
     | Ok resp =>
         if outside_2xx (StatusCode resp)
         then run.1 = classified (StatusCode resp) (RespBody resp) Some
         else run.1 = Returns None
     end.
Proof.
  intros c req run Hurl. subst run. rewrite RevokeToken_run.
  change (revoke_request (client st) refreshToken) with req. rewrite Hurl.
  cbn [fst snd sent]. split; [done|]. split.
  - cbn [URL req]. intros Heq. apply (f_equal String.length) in Heq.
    rewrite !length_append in Heq. cbn in Heq. lia.
  - destruct (Do env (sent st) req) as [resp|text]; [|done].
    by destruct (outside_2xx (StatusCode resp)).
Qed.

Lemma RevokeToken_request_and_result_witness :
  let run := RevokeToken (answering token_response) "5Aep&861" example_state in
  run.1 = Returns None
  /\ sent run.2
     = [mkRequest "POST"
          "https://na1.salesforce.com/services/data/v43.0/services/oauth2/revoke"
          [("Accept", "application/json");
           ("Content-Type", "application/x-www-form-urlencoded")]
          "token=5Aep%26861"].
Proof.
  intros run. subst run.
  destruct (RevokeToken_request_and_result (answering token_response)
              "5Aep&861" example_state eq_refl) as (Hsent & _ & Hres).
  split; [exact Hres|]. etrans; [exact Hsent|]. by vm_compute.
Defined.

(** X23: [RevokeToken] leaves the session in place: after the call,
    whatever its result, the client still holds the session ID it had
    and counts as logged in as before, only the "v"s of the version are
    gone; with a refused URL the result is the generic failure and
    nothing is sent. *)
Theorem RevokeToken_effect (env : Env) (refreshToken : string) (st : State) :
  let run := RevokeToken env refreshToken st in
  client run.2 = normalized (client st)
  /\ sessionID (client run.2) = sessionID (client st)
  /\ isLoggedIn (client run.2) = isLoggedIn (client st)
  /\ (url_Parse_ok env (URL (revoke_request (client st) refreshToken)) = false ->
      run = (Returns (Some ERR_FAILURE),
             mkState (normalized (client st)) (sent st))).
Proof.
  intros run. subst run. rewrite RevokeToken_run.
  destruct (url_Parse_ok env _); [|done].
  by repeat split.
Qed.

(** ** Login *)

Lemma Sprintf_soap_url (a b : string) :
  Fmt.Sprintf "%s/services/Soap/u/%s" [a; b] = a +:+ "/services/Soap/u/" +:+ b.
Proof. simpl. by rewrite append_empty_r. Qed.

Lemma LoginPassword_run (env : Env) (url_parts : string -> string * string)
    (username password token : string) (st : State) :
  let c := client st in
  let req := login_request c username password token in
  LoginPassword env url_parts username password token st
  = if url_Parse_ok env (URL req) then
      match Do env (sent st) req with
      | Err text =>
          (Returns (Some (LoginError (LibraryError text))),
           mkState c (sent st ++ [req]))
      | Ok resp =>
          if negb (StatusCode resp =? 200) then
            (classified (StatusCode resp) (RespBody resp)
               (fun e => Some (LoginError e)),
             mkState c (sent st ++ [req]))
          else
            match Unmarshal_loginResponse (RespBody resp) with
            | Err e => (Returns (Some (LoginXmlError e)),
                        mkState c (sent st ++ [req]))
            | Ok r => (Returns None,
                       mkState (logged_in env url_parts c r) (sent st ++ [req]))
            end
      end
    else (Returns (Some (LoginError (LibraryError ("parse " +:+ URL req)))), st).
Proof.
  intros c req. unfold LoginPassword, bind at 1, getClient at 1. fold c.
  rewrite Sprintf_soap_url. rewrite http_NewRequest_valid by reflexivity.
  cbn [URL req login_request].
  destruct (url_Parse_ok env _); [|done].
  unfold bind at 1, httpClient_Do, Header_Add_key, Header_Add.
  cbn [Header app URL Method ReqBody client sent].
  change (Textproto.CanonicalMIMEHeaderKey "Content-Type") with "Content-Type".
  change (Textproto.CanonicalMIMEHeaderKey "charset") with "Charset".
  change (Textproto.CanonicalMIMEHeaderKey "SOAPAction") with "Soapaction".
  fold (login_request c username password token). fold req.
  destruct (Do env (sent st) req) as [resp|text]; [|by destruct st].
  destruct (negb (StatusCode resp =? 200)).
  { unfold bind, lift, classified, buf_ReadFrom.
    destruct (ParseSalesforceError _ _); by destruct st. }
  destruct (Unmarshal_loginResponse (RespBody resp)) as [r|e]; [|by destruct st].
  reflexivity.
Qed.

Lemma Sprintf_place (p format a : string) (args : list string) :
  has_byte "%" p = false ->
  Fmt.Sprintf (p +:+ "%s" +:+ format) (a :: args)
  = p +:+ a +:+ Fmt.Sprintf format args.
Proof. intros Hp. by rewrite Sprintf_plain_prefix. Qed.

(** The envelope of the login: the four operands are put into their
    elements as they are given, nothing else of the envelope depending
    on them. *)
Lemma soapBody_places :
  exists p1 p2 p3 p4 : string,
    forall cid username password token : string,
      Fmt.Sprintf soapBody_format [cid; username; password; token]
      = p1 +:+ "<urn:client>" +:+ cid +:+ "</urn:client>"
        +:+ p2 +:+ "<n1:username>" +:+ username +:+ "</n1:username>"
        +:+ p3 +:+ "<n1:password>" +:+ password +:+ token +:+ "</n1:password>"
        +:+ p4.
Proof.
  pose (p1 := dq "<?xml version='1.0' encoding='utf-8' ?>
        <env:Envelope
                xmlns:xsd='http://www.w3.org/2001/XMLSchema'
                xmlns:xsi='http://www.w3.org/2001/XMLSchema-instance'
                xmlns:env='http://schemas.xmlsoap.org/soap/envelope/'
                xmlns:urn='urn:partner.soap.sforce.com'>
            <env:Header>
                <urn:CallOptions>
                    ").
  pose (p2 := dq "
                    <urn:defaultNamespace>sf</urn:defaultNamespace>
                </urn:CallOptions>
            </env:Header>
            <env:Body>
                <n1:login xmlns:n1='urn:partner.soap.sforce.com'>
                    ").
  pose (p3 := dq "
                    ").
  pose (p4 := dq "
                </n1:login>
            </env:Body>
        </env:Envelope>").
  exists p1, p2, p3, p4. intros cid username password token.
  assert (Hf : soapBody_format
               = (p1 +:+ "<urn:client>") +:+ "%s"
                 +:+ ("</urn:client>" +:+ p2 +:+ "<n1:username>") +:+ "%s"
                 +:+ ("</n1:username>" +:+ p3 +:+ "<n1:password>") +:+ "%s"
                 +:+ "%s" +:+ ("</n1:password>" +:+ p4))
    by (by vm_compute).
  assert (H1 : has_byte "%" (p1 +:+ "<urn:client>") = false) by (by vm_compute).
  assert (H2 : has_byte "%" ("</urn:client>" +:+ p2 +:+ "<n1:username>") = false)
    by (by vm_compute).
  assert (H3 : has_byte "%" ("</n1:username>" +:+ p3 +:+ "<n1:password>") = false)
    by (by vm_compute).
  assert (H4 : has_byte "%" ("</n1:password>" +:+ p4) = false) by (by vm_compute).
  rewrite Hf. clearbody p1 p2 p3 p4.
  rewrite (Sprintf_place _ _ _ _ H1), (Sprintf_place _ _ _ _ H2),
    (Sprintf_place _ _ _ _ H3).
  assert (Hs : forall f a, Fmt.Sprintf ("%s" +:+ f) [a] = a +:+ Fmt.Sprintf f [])
    by reflexivity.
  rewrite Hs.
  rewrite <- (append_empty_r ("</n1:password>" +:+ p4)) at 1.
  rewrite (Sprintf_plain_prefix _ "" [] H4).
  cbn [Fmt.Sprintf Fmt.extra]. rewrite append_empty_r.
  by rewrite !append_assoc.
Qed.

(** X24: the request of the login.  When its URL is accepted,
    [LoginPassword] sends one POST to baseURL/services/Soap/u/{version}
    with the header keys in the form [Header.Add] files them under
    ("charset" as "Charset", "SOAPAction" as "Soapaction"); in the
    envelope the client ID and the user name stand as they are given,
    and the password, passed through [html.EscapeString], is followed
    at once by the token as it is given.  The session ID of the client
    plays no part. *)
Theorem LoginPassword_request :
  exists p1 p2 p3 p4 : string,
    forall (env : Env) (url_parts : string -> string * string)
           (username password token : string) (st : State),
      let c := client st in
      let url := baseURL c +:+ "/services/Soap/u/" +:+ apiVersion c in
      url_Parse_ok env url = true ->
      sent (LoginPassword env url_parts username password token st).2
      = (sent st
         ++ [mkRequest "POST" url
               [("Content-Type", "text/xml"); ("Charset", "UTF-8");
                ("Soapaction", "login")]
               (p1 +:+ "<urn:client>" +:+ clientID c +:+ "</urn:client>"
                +:+ p2 +:+ "<n1:username>" +:+ username +:+ "</n1:username>"
                +:+ p3 +:+ "<n1:password>" +:+ Html.EscapeString password
                +:+ token +:+ "</n1:password>" +:+ p4)])%list.
Proof.
  destruct soapBody_places as (p1 & p2 & p3 & p4 & Hbody).
  exists p1, p2, p3, p4. intros env url_parts username password token st c url Hurl.
  rewrite LoginPassword_run. fold c. cbn [URL login_request]. fold url.
  rewrite Hurl, <- Hbody.
  destruct (Do env (sent st) _) as [resp|text]; [|done].
  destruct (negb (StatusCode resp =? 200)); [done|].
  by destruct (Unmarshal_loginResponse (RespBody resp)).
Qed.

Lemma LoginPassword_request_witness :
  let st := mkState (NewClient DefaultURL DefaultClientID DefaultAPIVersion) [] in
  (fun req => (Method req, URL req, Header req))
  <$> sent (LoginPassword (answering login_response) example_parts
              "ada@example.com" "p<w" "TOKEN" st).2
  = [("POST", "https://login.salesforce.com//services/Soap/u/43.0",
      [("Content-Type", "text/xml"); ("Charset", "UTF-8");
       ("Soapaction", "login")])].
Proof.
  intros st.
  destruct LoginPassword_request as (p1 & p2 & p3 & p4 & H).
  rewrite (H (answering login_response) example_parts
             "ada@example.com" "p<w" "TOKEN" st eq_refl).
  reflexivity.
Defined.

(** X25: [html.EscapeString], through which the password goes, leaves
    no angle bracket and no quote of either kind in its result, so the
    escaped password cannot close its element; a string without the five
    bytes it replaces is left as it is. *)
Theorem EscapeString_no_markup (s : string) :
  has_byte "<" (Html.EscapeString s) = false
  /\ has_byte ">" (Html.EscapeString s) = false
  /\ has_byte "'" (Html.EscapeString s) = false
  /\ has_byte Byte8.quote (Html.EscapeString s) = false
  /\ (has_byte "&" s = false -> has_byte "<" s = false ->
      has_byte ">" s = false -> has_byte "'" s = false ->
      has_byte Byte8.quote s = false -> Html.EscapeString s = s).
Proof.
  induction s as [|c s (IH1 & IH2 & IH3 & IH4 & IH5)]; [done|].
  cbn [Html.EscapeString]. unfold Byte8.eqb.
  destruct (Ascii.eqb c "&") eqn:E1;
    [|destruct (Ascii.eqb c "'") eqn:E2;
      [|destruct (Ascii.eqb c "<") eqn:E3;
        [|destruct (Ascii.eqb c ">") eqn:E4;
          [|destruct (Ascii.eqb c Byte8.quote) eqn:E5]]]];
    rewrite ?has_byte_append, ?IH1, ?IH2, ?IH3, ?IH4;
    cbn [has_byte];
    rewrite ?(Ascii.eqb_sym _ c), ?E1, ?E2, ?E3, ?E4, ?E5, ?IH1, ?IH2, ?IH3, ?IH4;
    cbn [orb]; repeat split; try done.
  intros H1 H2 H3 H4 H5. f_equal. by apply IH5.
Qed.

Lemma EscapeString_no_markup_witness :
  Html.EscapeString "p4ssw0rd" = "p4ssw0rd".
Proof.
  exact (proj2 (proj2 (proj2 (proj2 (EscapeString_no_markup "p4ssw0rd"))))
           eq_refl eq_refl eq_refl eq_refl eq_refl).
Defined.

(** X26: a successful login.  For an answer with status 200 whose body
    decodes as the login envelope, the error is nil and the client holds
    the session ID and the four values of the user of the envelope, and as
    instance URL the scheme and host of the server URL, or the text
    "Failed to parse URL input" when that URL is refused; client ID,
    version, base URL and the tooling flag stay.  An error of the read of
    the body plays no part, and the client counts as logged in only when
    the envelope had a session ID. *)
Theorem LoginPassword_success
    (env : Env) (url_parts : string -> string * string)
    (username password token : string) (st : State)
    (resp : Response) (r : loginResponse) :
  let c := client st in
  let req := login_request c username password token in
  let run := LoginPassword env url_parts username password token st in
  url_Parse_ok env (URL req) = true ->
  Do env (sent st) req = Ok resp ->
  StatusCode resp = 200 ->
  Unmarshal_loginResponse (RespBody resp) = Ok r ->
  run.1 = Returns None
  /\ sessionID (client run.2) = lr_SessionID r
  /\ user (client run.2)
     = mkUser (lr_UserID r) (lr_UserName r) (lr_UserFullName r) (lr_UserEmail r)
  /\ instanceURL (client run.2)
     = (if url_Parse_ok env (lr_ServerURL r)
        then (url_parts (lr_ServerURL r)).1 +:+ "://" +:+ (url_parts (lr_ServerURL r)).2
        else "Failed to parse URL input")
  /\ clientID (client run.2) = clientID c
  /\ apiVersion (client run.2) = apiVersion c
  /\ baseURL (client run.2) = baseURL c
  /\ useToolingAPI (client run.2) = useToolingAPI c
  /\ isLoggedIn (client run.2) = negb (lr_SessionID r =? "")%string.
Proof.
  intros c req run Hurl Hdo Hstatus Hbody. subst run.
  rewrite LoginPassword_run. fold c req. rewrite Hurl, Hdo, Hstatus, Hbody.
  cbn [Z.eqb Pos.eqb negb fst snd client logged_in sessionID user instanceURL
       clientID apiVersion baseURL useToolingAPI].
  repeat split.
  unfold parseHost. destruct (url_Parse_ok env (lr_ServerURL r)); [|done].
  simpl. by rewrite append_empty_r.
Qed.

Lemma LoginPassword_success_witness :
  let st := mkState (NewClient DefaultURL DefaultClientID DefaultAPIVersion) [] in
  let run := LoginPassword (answering login_response) example_parts
               "ada@example.com" "p<w" "TOKEN" st in
  run.1 = Returns None
  /\ sessionID (client run.2) = "00Dxx!AQ4"
  /\ user (client run.2)
     = mkUser "005xx" "ada@example.com" "Ada L" "ada@example.com"
  /\ instanceURL (client run.2) = "https://na1.salesforce.com"
  /\ isLoggedIn (client run.2) = true.
Proof.
  intros st run. subst run.
  assert (Hbody : Unmarshal_loginResponse (RespBody login_response)
                  = Ok (mkLoginResponse
                          "https://na1.salesforce.com/services/Soap/u/43.0/00Dxx"
                          "00Dxx!AQ4" "005xx" "ada@example.com" "Ada L"
                          "ada@example.com"))
    by (by vm_compute).
  destruct (LoginPassword_success (answering login_response) example_parts
              "ada@example.com" "p<w" "TOKEN" st login_response _
              eq_refl eq_refl eq_refl Hbody)
    as (Hres & Hsid & Huser & Hinst & _ & _ & _ & _ & Hin).
  exact (conj Hres (conj Hsid (conj Huser (conj Hinst Hin)))).
Defined.

(** X27: an answer to the login with any status but 200, the other
    statuses of the success range included, is handed to the classifier
    whatever its body: the login returns what the classifier makes of it
    and the client stays as it was. *)
Theorem LoginPassword_status
    (env : Env) (url_parts : string -> string * string)
    (username password token : string) (st : State) (resp : Response) :
  let c := client st in
  let req := login_request c username password token in
  url_Parse_ok env (URL req) = true ->
  Do env (sent st) req = Ok resp ->
  StatusCode resp <> 200 ->
  LoginPassword env url_parts username password token st
  = (classified (StatusCode resp) (RespBody resp) (fun e => Some (LoginError e)),
     mkState c (sent st ++ [req])).
Proof.
  intros c req Hurl Hdo Hstatus.
  rewrite LoginPassword_run. fold c req. rewrite Hurl, Hdo.
  by destruct (Z.eqb_spec (StatusCode resp) 200).
Qed.

Lemma LoginPassword_status_witness :
  let st := mkState (NewClient DefaultURL DefaultClientID DefaultAPIVersion) [] in
  let run := LoginPassword (answering login_fault) example_parts
               "ada@example.com" "wrong" "" st in
  run.1
  = Returns (Some (LoginError
       (SfdcErr {| Code := "sf:INVALID_LOGIN";
                   Message := "INVALID_LOGIN: Invalid username, password & token";
                   Extra := statusExtra 500 |})))
  /\ client run.2 = client st.
Proof.
  intros st run. subst run.
  rewrite (LoginPassword_status (answering login_fault) example_parts
             "ada@example.com" "wrong" "" st login_fault
             eq_refl eq_refl ltac:(done)).
  split; [|reflexivity].
  cbn [fst login_fault StatusCode RespBody].
  unfold classified, ParseSalesforceError. eval_decoders. reflexivity.
Defined.

(** X28: only a login that returns nil changes the client: after any
    other outcome (a refused URL, a request that does not get through,
    a status other than 200, a body that is not the envelope, a panic of
    the classifier) the client is the one before the call, its session,
    if it had one, included; and a login that returns nil has read an
    answer with status 200 whose root element is named Envelope. *)
Theorem LoginPassword_keeps_client
    (env : Env) (url_parts : string -> string * string)
    (username password token : string) (st : State) :
  let c := client st in
  let req := login_request c username password token in
  let run := LoginPassword env url_parts username password token st in
  match run.1 with
  | Returns None =>
      exists resp r,
        Do env (sent st) req = Ok resp
        /\ StatusCode resp = 200
        /\ Unmarshal_loginResponse (RespBody resp) = Ok r
        /\ client run.2 = logged_in env url_parts c r
  | _ => client run.2 = c
  end.
Proof.
  intros c req run. subst run. rewrite LoginPassword_run. fold c req.
  destruct (url_Parse_ok env (URL req)); [|done].
  destruct (Do env (sent st) req) as [resp|text]; [|done].
  destruct (Z.eqb_spec (StatusCode resp) 200) as [Hs|Hs]; cbn [negb].
  - destruct (Unmarshal_loginResponse (RespBody resp)) as [r|e] eqn:Hr; [|done].
    cbn [fst snd client]. by exists resp, r.
  - cbn [fst snd]. unfold classified.
    destruct (ParseSalesforceError _ _) as [e|p]; done.
Qed.

(** ** File download *)

Lemma Sprintf_version_data (a b : string) :
  Fmt.Sprintf "/services/data/v%s/sobjects/ContentVersion/%s/VersionData" [a; b]
  = "/services/data/v" +:+ a +:+ "/sobjects/ContentVersion/" +:+ b
    +:+ "/VersionData".
Proof. reflexivity. Qed.

Lemma DownloadFile_run (env : Env) (create_ok : string -> bool)
    (contentVersionID filepath : string) (st : State)
    (files : gmap string string) :
  let c := client st in
  let req := download_request c contentVersionID in
  DownloadFile env create_ok contentVersionID filepath st files
  = if url_Parse_ok env (URL req) then
      match Do env (sent st) req with
      | Err text =>
          (Returns (Some (LibraryError text)),
           mkState c (sent st ++ [req]), files)
      | Ok resp =>
          if create_ok filepath then
            (Returns (LibraryError <$> ReadError resp),
             mkState c (sent st ++ [req]),
             <[filepath := RespBody resp]> files)
          else
            (Returns (Some (LibraryError ("open " +:+ filepath))),
             mkState c (sent st ++ [req]), files)
      end
    else (Panics NilDereference, st, files).
Proof.
  intros c req. unfold DownloadFile. fold c.
  rewrite Sprintf_version_data, Sprintf_concat. rewrite http_NewRequest_valid by reflexivity.
  cbn [URL req download_request].
  destruct (url_Parse_ok env _); [|done].
  unfold httpClient_Do, Header_Add.
  cbn [Header app URL Method ReqBody client sent].
  by destruct (Do env (sent st) _) as [resp|text].
Qed.

Lemma trimRightByte_rest (s : string) (c : ascii) :
  exists r, s = trimRightByte s c +:+ r /\ without_byte c r = "".
Proof.
  induction s as [|a s (r & Hs & Hr)]; [by exists ""|].
  cbn [trimRightByte].
  destruct (trimRightByte s c) as [|b t] eqn:Ht.
  - destruct (Ascii.eqb a c) eqn:Hac.
    + exists (String a s). split; [done|]. cbn [without_byte].
      rewrite Ascii.eqb_sym, Hac. by rewrite Hs.
    + exists r. split; [|done]. by rewrite Hs at 1.
  - exists r. split; [|done]. rewrite append_cons. by rewrite Hs at 1.
Qed.

Lemma trimRightByte_end (s : string) (c : ascii) :
  Strings.HasSuffix (trimRightByte s c) (String c "") = false.
Proof.
  destruct (Strings.HasSuffix _ _) eqn:H; [|done]. exfalso.
  apply HasSuffix_byte in H as [p Hp]. revert p Hp.
  induction s as [|a s IH]; intros p Hp.
  - by destruct p.
  - cbn [trimRightByte] in Hp.
    destruct (trimRightByte s c) as [|b t] eqn:Ht.
    + destruct (Ascii.eqb a c) eqn:Hac; [by destruct p|].
      destruct p as [|x p]; [|by destruct p].
      injection Hp as ->. by rewrite Ascii.eqb_refl in Hac.
    + destruct p as [|x p]; [done|].
      rewrite append_cons in Hp. injection Hp as _ Hp. by apply (IH p).
Qed.



(** X30: the request of [DownloadFile] and its failures.  The request
    is a GET on the base URL, not the instance URL, without the slashes
    at its end, followed by /services/data/v{version as
    stored}/sobjects/ContentVersion/{id}/VersionData; a refused URL makes
    the call panic on the nil request before anything is sent, and a
    request that does not get through or a file that cannot be created
    gives an error of the library and leaves the files as they were. *)
Theorem DownloadFile_request (env : Env) (create_ok : string -> bool)
    (contentVersionID filepath : string) (st : State)
    (files : gmap string string) :
  let c := client st in
  let base := trimRightByte (baseURL c) "/" in
  let req :=
    mkRequest "GET"
      (base +:+ "/services/data/v" +:+ apiVersion c
       +:+ "/sobjects/ContentVersion/" +:+ contentVersionID +:+ "/VersionData")
      [("Content-Type", "application/json; charset=UTF-8");
       ("Accept", "application/json");
       ("Authorization", "Bearer " +:+ sessionID c)]
      "" in
  let run := DownloadFile env create_ok contentVersionID filepath st files in
  Strings.HasSuffix base "/" = false
  /\ (exists r, baseURL c = base +:+ r /\ without_byte "/" r = "")
  /\ (if url_Parse_ok env (URL req)
      then sent run.1.2 = (sent st ++ [req])%list
           /\ (forall text,
                 Do env (sent st) req = Err text ->
                 run.1.1 = Returns (Some (LibraryError text)) /\ run.2 = files)
           /\ (create_ok filepath = false ->
               run.2 = files
               /\ exists text, run.1.1 = Returns (Some (LibraryError text)))
      else run = (Panics NilDereference, st, files)).
Proof.
  intros c base req run. subst run.
  split; [apply trimRightByte_end|]. split; [apply trimRightByte_rest|].
  rewrite DownloadFile_run. fold c.
  change (download_request c contentVersionID) with req.
  destruct (url_Parse_ok env (URL req)); [|done].
  destruct (Do env (sent st) req) as [resp|text].
  - split; [by destruct (create_ok filepath)|]. split; [done|].
    intros ->. split; [done|]. by eexists.
  - split; [done|]. split; [by intros ? [= <-]|].
    intros _. split; [done|]. by eexists.
Qed.
